(** * odea: filename identity codec, tag-file codec and derivation policy

    A shallow embedding of the core of [odea.py]: the tag-file codec
    ([_make_tags], [_parse_tags], [_load_tag_file]), the filename identity
    methods of [File] ([get_uuid], [tag], [slug], [rename],
    [get_filename_parts]), [File.derive], [load_file], the search for the
    bag root ([is_root], [get_root]) and [_truncate]; and [check_file] of
    [cli.py].

    Conventions of the embedding.
    - A Python [str] is a list of 8-bit characters ([str]); character
      classes ([isspace], [lower]) follow Python on code points 0..255.
    - A Python value stored in an attribute or in a metadata dict is a
      [pyval]: [None], a string, an integer, or a list of such atoms.
    - A call that can raise returns a [result]; methods that mutate [self]
      or touch the file system pass the object and the world explicitly.
    - The file system, the shell and the random source are collaborators:
      they are Section variables, instantiated for the concrete runs. *)

From Stdlib Require Import String Ascii List Arith Lia Bool ZArith DecimalString
  Permutation Sorted.
Import ListNotations.
Local Open Scope list_scope.

(** ** Python strings *)

Definition str := list ascii.

(** String literals of the source. *)
Definition lit (s : string) : str := list_ascii_of_string s.
Arguments lit s : simpl never.

Inductive exn :=
| ValueError
| TypeError
| KeyError
| IndexError
| BagValidationError (message : str).

Inductive result (A : Type) :=
| Ok (a : A)
| Raise (e : exn).
Arguments Ok {A} a.
Arguments Raise {A} e.

Definition bind {A B} (r : result A) (k : A -> result B) : result B :=
  match r with
  | Ok a => k a
  | Raise e => Raise e
  end.

Module Py.

Definition ord (c : ascii) : nat := nat_of_ascii c.

Definition in_range (lo hi c : ascii) : bool :=
  (ord lo <=? ord c) && (ord c <=? ord hi).

(** [str.isspace] on one character: TAB, LF, VT, FF, CR, FS, GS, RS, US,
    SPACE, NEL (0x85) and NBSP (0xA0). *)
Definition isspace_char (c : ascii) : bool :=
  let n := ord c in
  ((9 <=? n) && (n <=? 13)) || ((28 <=? n) && (n <=? 32))
  || (n =? 133) || (n =? 160).

(** [s.isspace()]: non-empty and made of whitespace only. *)
Definition isspace (s : str) : bool :=
  match s with
  | [] => false
  | _ => forallb isspace_char s
  end.

(** [str.lower] on one character: A-Z and the Latin-1 capitals. *)
Definition lower_char (c : ascii) : ascii :=
  let n := ord c in
  if ((65 <=? n) && (n <=? 90))
     || ((192 <=? n) && (n <=? 222) && negb (n =? 215))
  then ascii_of_nat (n + 32) else c.

(** [str.upper] on one character (letters whose capital is Latin-1). *)
Definition upper_char (c : ascii) : ascii :=
  let n := ord c in
  if ((97 <=? n) && (n <=? 122))
     || ((224 <=? n) && (n <=? 254) && negb (n =? 247))
  then ascii_of_nat (n - 32) else c.

Definition lower (s : str) : str := map lower_char s.
Definition upper (s : str) : str := map upper_char s.

Fixpoint eqb (a b : str) : bool :=
  match a, b with
  | [], [] => true
  | x :: a', y :: b' => Ascii.eqb x y && eqb a' b'
  | _, _ => false
  end.

(** [s.startswith(p)] *)
Fixpoint startswith (p s : str) : bool :=
  match p, s with
  | [], _ => true
  | x :: p', y :: s' => Ascii.eqb x y && startswith p' s'
  | _ :: _, [] => false
  end.

(** [s.find(sub)]: index of the leftmost occurrence. *)
Fixpoint find (sub s : str) : option nat :=
  if startswith sub s then Some 0
  else match s with
       | [] => None
       | _ :: t => option_map S (find sub t)
       end.

(** [sub in s] *)
Definition contains (sub s : str) : bool :=
  match find sub s with Some _ => true | None => false end.

(** The positions at which [sub] occurs in [s], counted from [k]. *)
Fixpoint occurrences_from (k : nat) (sub s : str) : list nat :=
  (if startswith sub s then [k] else [])
  ++ match s with
     | [] => []
     | _ :: t => occurrences_from (S k) sub t
     end.

Definition occurrences (sub s : str) : list nat := occurrences_from 0 sub s.

(** [c in s] for a character. *)
Definition mem (c : ascii) (s : str) : bool := existsb (Ascii.eqb c) s.

(** [s.replace(a, b)] for one-character [a] and [b]. *)
Definition replace_char (a b : ascii) (s : str) : str :=
  map (fun c => if Ascii.eqb c a then b else c) s.

(** [sep.join(l)] *)
Fixpoint join (sep : str) (l : list str) : str :=
  match l with
  | [] => []
  | [x] => x
  | x :: t => x ++ sep ++ join sep t
  end.

Fixpoint dropwhile (p : ascii -> bool) (s : str) : str :=
  match s with
  | [] => []
  | c :: t => if p c then dropwhile p t else s
  end.

Definition lstrip_by (p : ascii -> bool) (s : str) : str := dropwhile p s.
Definition rstrip_by (p : ascii -> bool) (s : str) : str :=
  rev (dropwhile p (rev s)).
Definition strip_by (p : ascii -> bool) (s : str) : str :=
  rstrip_by p (lstrip_by p s).

(** [s.strip()] *)
Definition strip (s : str) : str := strip_by isspace_char s.

(** [s.strip(chars)] *)
Definition strip_chars (chars s : str) : str :=
  strip_by (fun c => mem c chars) s.

(** The pieces of [s.split(sep)] for a non-empty [sep]: cut at the
    leftmost occurrence, resume after it.  [n] bounds the number of cuts;
    [length s] is always enough. *)
Fixpoint split_fuel (n : nat) (sep s : str) : list str :=
  match n with
  | 0 => [s]
  | S n' =>
      match find sep s with
      | None => [s]
      | Some i =>
          firstn i s :: split_fuel n' sep (skipn (i + length sep) s)
      end
  end.

(** [s.split(sep)]; an empty separator raises [ValueError]. *)
Definition split (sep s : str) : result (list str) :=
  match sep with
  | [] => Raise ValueError
  | _ => Ok (split_fuel (length s) sep s)
  end.

(** [s.split(c, 1)] for a one-character separator. *)
Definition split1 (c : ascii) (s : str) : list str :=
  match find [c] s with
  | None => [s]
  | Some i => [firstn i s; skipn (S i) s]
  end.

(** [s.rfind(c)] for a character, as an option. *)
Fixpoint rfind_char (c : ascii) (s : str) : option nat :=
  match s with
  | [] => None
  | x :: t =>
      match rfind_char c t with
      | Some i => Some (S i)
      | None => if Ascii.eqb x c then Some 0 else None
      end
  end.

(** [os.path.basename] (posixpath): what follows the last slash. *)
Definition basename (p : str) : str :=
  match rfind_char "/" p with
  | Some i => skipn (S i) p
  | None => p
  end.

(** [os.path.join(a, b)] (posixpath), two components. *)
Definition path_join (a b : str) : str :=
  if startswith ["/"%char] b then b
  else match a with
       | [] => b
       | _ => if Ascii.eqb (last a " "%char) "/" then a ++ b
              else a ++ ["/"%char] ++ b
       end.

(** [os.path.splitext] (posixpath): the extension starts at the last dot
    of the last path component, unless that component has only leading
    dots before it. *)
Definition splitext (p : str) : str * str :=
  let start := match rfind_char "/" p with
               | Some i => S i
               | None => 0
               end in
  match rfind_char "." p with
  | Some d =>
      if (start <=? d)
         && negb (forallb (Ascii.eqb ".") (firstn (d - start) (skipn start p)))
      then (firstn d p, skipn d p)
      else (p, [])
  | None => (p, [])
  end.

End Py.

(** ** Python values *)

Inductive atom :=
| ANone
| AStr (s : str)
| AInt (z : Z).

Inductive pyval :=
| PAtom (a : atom)
| PList (l : list atom).

Abbreviation PNone := (PAtom ANone).
Abbreviation PStr s := (PAtom (AStr s)).
Abbreviation PInt z := (PAtom (AInt z)).

(** Truth value of a Python object. *)
Definition truthy (v : pyval) : bool :=
  match v with
  | PAtom ANone => false
  | PAtom (AStr s) => match s with [] => false | _ => true end
  | PAtom (AInt z) => negb (Z.eqb z 0)
  | PList l => match l with [] => false | _ => true end
  end.

(** [str(a)] for an atom. *)
Definition str_of_atom (a : atom) : str :=
  match a with
  | ANone => lit "None"
  | AStr s => s
  | AInt z => lit (NilZero.string_of_int (Z.to_int z))
  end.

Definition atom_eqb (a b : atom) : bool :=
  match a, b with
  | ANone, ANone => true
  | AStr s, AStr t => Py.eqb s t
  | AInt x, AInt y => Z.eqb x y
  | _, _ => false
  end.

(** ** Regular expression [RE_UUID]

    [re.compile("[0-F]{8}-[0-F]{4}-[0-F]{4}-[0-F]{4}-[0-F]{12}", re.I)].
    The pattern has a fixed length, so it is a list of character classes. *)

Module Re.

Definition charclass := ascii -> bool.
Definition pattern := list charclass.

(** A range under [re.I]: the character, its capital or its small form
    lies in the range. *)
Definition range_ignorecase (lo hi : ascii) : charclass :=
  fun c => Py.in_range lo hi c
           || Py.in_range lo hi (Py.upper_char c)
           || Py.in_range lo hi (Py.lower_char c).

Definition literal (a : ascii) : charclass := fun c => Ascii.eqb c a.

(** The pattern matches a prefix of [s]. *)
Fixpoint match_prefix (p : pattern) (s : str) : bool :=
  match p, s with
  | [], _ => true
  | k :: p', c :: s' => k c && match_prefix p' s'
  | _ :: _, [] => false
  end.

(** [re.findall] for a fixed-length, non-empty pattern: scan from the
    left, and after a match resume behind it ([skip] characters are still
    to be passed over). *)
Fixpoint findall_from (p : pattern) (skip : nat) (s : str) : list str :=
  match s with
  | [] => []
  | _ :: t =>
      match skip with
      | S k => findall_from p k t
      | 0 =>
          if match_prefix p s
          then firstn (length p) s :: findall_from p (length p - 1) t
          else findall_from p 0 t
      end
  end.

Definition findall (p : pattern) (s : str) : list str := findall_from p 0 s.

(** The rightmost substring of [s] that the (non-empty) pattern matches. *)
Fixpoint last_match (p : pattern) (s : str) : option str :=
  match s with
  | [] => None
  | _ :: t =>
      match last_match p t with
      | Some m => Some m
      | None => if match_prefix p s then Some (firstn (length p) s) else None
      end
  end.

End Re.

Definition RE_UUID : Re.pattern :=
  let h := Re.range_ignorecase "0" "F" in
  let d := Re.literal "-" in
  repeat h 8 ++ [d] ++ repeat h 4 ++ [d] ++ repeat h 4 ++ [d]
  ++ repeat h 4 ++ [d] ++ repeat h 12.

(** The pattern in the words of the specification: hexadecimal groups
    8-4-4-4-12, in either case. *)
Definition hexdigit (c : ascii) : bool :=
  Py.in_range "0" "9" c || Py.in_range "a" "f" c || Py.in_range "A" "F" c.

Definition HEX_UUID : Re.pattern :=
  let h := hexdigit in
  let d := Re.literal "-" in
  repeat h 8 ++ [d] ++ repeat h 4 ++ [d] ++ repeat h 4 ++ [d]
  ++ repeat h 4 ++ [d] ++ repeat h 12.

(** ** Module constants *)

Definition DATA_DIR : str := lit "data".
Definition FILE_METADATA_DIR : str := lit "file_metadata".
Definition DERIV_DIR : str := Py.path_join DATA_DIR (lit "deriv").

Definition TERMS : list str :=
  map lit ["dcmi_type"; "title"; "identifier"; "creator"; "subject";
           "contributor"; "coverage"; "date"; "description"; "language";
           "publisher"; "relation"; "rights"; "source"; "note"]%string.

(** ** Logging *)

Inductive level := INFO | WARNING | ERROR.

(** One call of [logger.<level>] (logger [odea]) or [logging.<level>]
    (the root logger). *)
Record LogRecord := mkLog {
  lg_root : bool;
  lg_level : level;
  lg_msg : str
}.

(** ** The [File] object *)

Record File := mkFile {
  filename : str;
  sha512 : pyval;
  sha256 : pyval;
  size : pyval;
  mtime : pyval;
  identifier : pyval;
  basename : pyval;
  format : pyval;
  ext : pyval;
  thumb : pyval;
  preview : pyval;
  dimensions : pyval;
  duration : pyval;
  extra : list (str * pyval)
}.

(** [File(filename)] *)
Definition new_File (fn : str) : File :=
  mkFile fn PNone PNone PNone PNone PNone PNone PNone PNone PNone PNone
         PNone PNone [].

Definition set_filename (v : str) (f : File) : File :=
  mkFile v f.(sha512) f.(sha256) f.(size) f.(mtime) f.(identifier)
         f.(basename) f.(format) f.(ext) f.(thumb) f.(preview)
         f.(dimensions) f.(duration) f.(extra).
Definition set_identifier (v : pyval) (f : File) : File :=
  mkFile f.(filename) f.(sha512) f.(sha256) f.(size) f.(mtime) v
         f.(basename) f.(format) f.(ext) f.(thumb) f.(preview)
         f.(dimensions) f.(duration) f.(extra).
Definition set_basename (v : pyval) (f : File) : File :=
  mkFile f.(filename) f.(sha512) f.(sha256) f.(size) f.(mtime)
         f.(identifier) v f.(format) f.(ext) f.(thumb) f.(preview)
         f.(dimensions) f.(duration) f.(extra).
Definition set_format (v : pyval) (f : File) : File :=
  mkFile f.(filename) f.(sha512) f.(sha256) f.(size) f.(mtime)
         f.(identifier) f.(basename) v f.(ext) f.(thumb) f.(preview)
         f.(dimensions) f.(duration) f.(extra).
Definition set_ext (v : pyval) (f : File) : File :=
  mkFile f.(filename) f.(sha512) f.(sha256) f.(size) f.(mtime)
         f.(identifier) f.(basename) f.(format) v f.(thumb) f.(preview)
         f.(dimensions) f.(duration) f.(extra).

(** [obj.attr] as a string operand: anything but a [str] raises
    [TypeError]. *)
Definition as_str (v : pyval) : result str :=
  match v with
  | PAtom (AStr s) => Ok s
  | _ => Raise TypeError
  end.

Fixpoint as_strs (l : list pyval) : result (list str) :=
  match l with
  | [] => Ok []
  | v :: t =>
      bind (as_str v) (fun s => bind (as_strs t) (fun r => Ok (s :: r)))
  end.

(** [template.format(source=..., target=..., frame=...)]: [{{] and [}}]
    are literal braces, [{name}] is replaced by the keyword argument
    [name]; an unknown name raises [KeyError], an unbalanced brace
    [ValueError].  [fld] holds the (reversed) name being read. *)
Fixpoint format_go (args : str -> option str) (fld : option str) (t : str)
  : result str :=
  match t with
  | [] => match fld with
          | None => Ok []
          | Some _ => Raise ValueError
          end
  | c :: t' =>
      match fld with
      | Some name =>
          if Ascii.eqb c "}" then
            match args (rev name) with
            | Some v => bind (format_go args None t') (fun r => Ok (v ++ r))
            | None => Raise KeyError
            end
          else format_go args (Some (c :: name)) t'
      | None =>
          if Ascii.eqb c "{" then
            match t' with
            | c' :: t'' =>
                if Ascii.eqb c' "{"
                then bind (format_go args None t'') (fun r => Ok (c :: r))
                else format_go args (Some []) t'
            | [] => Raise ValueError
            end
          else if Ascii.eqb c "}" then
            match t' with
            | c' :: t'' =>
                if Ascii.eqb c' "}"
                then bind (format_go args None t'') (fun r => Ok (c :: r))
                else Raise ValueError
            | [] => Raise ValueError
            end
          else bind (format_go args None t') (fun r => Ok (c :: r))
      end
  end.

Definition format_cmd (template source target frame : str) : result str :=
  format_go
    (fun name =>
       if Py.eqb name (lit "source") then Some source
       else if Py.eqb name (lit "target") then Some target
       else if Py.eqb name (lit "frame") then Some frame
       else None)
    None template.

(** [l[-1]] *)
Definition last_item {A} (l : list A) : result A :=
  match rev l with
  | x :: _ => Ok x
  | [] => Raise IndexError
  end.

(** ** Collaborators and the methods of [File] *)

Section Odea.

(** The file system (with the working directory). *)
Variable FS : Type.
(** [os.path.exists], [os.path.isfile] *)
Variable path_exists : FS -> str -> bool.
Variable path_isfile : FS -> str -> bool.
(** [os.rename(src, dst)]; [None] when it raises. *)
Variable os_rename : FS -> str -> str -> option FS.
(** [subprocess.run(cmd, shell=True, timeout=t)]: the return code, or
    [None] when it raises (TimeoutExpired), and the file system left
    behind. *)
Variable subprocess_run : FS -> str -> nat -> option Z * FS.
(** The random source behind [uuid.uuid4()]. *)
Variable RNG : Type.
Variable uuid4 : RNG -> str * RNG.
(** [globals()], looked up at the [CMD_<RULE>] names, which "can be
    overwritten or extended". *)
Variable globals : str -> option str.
(** [str(l)] of a list (its [repr]). *)
Variable repr_list : list atom -> str.

(** The world a call runs in: the file system, the random source, the
    log records emitted so far and the shell commands run so far. *)
Record World := mkWorld {
  fs : FS;
  rng : RNG;
  log : list LogRecord;
  calls : list str
}.

Definition set_fs (x : FS) (w : World) : World :=
  mkWorld x w.(rng) w.(log) w.(calls).
Definition set_rng (r : RNG) (w : World) : World :=
  mkWorld w.(fs) r w.(log) w.(calls).

(** [logger.<lvl>(msg)] *)
Definition logger (lvl : level) (msg : str) (w : World) : World :=
  mkWorld w.(fs) w.(rng) (w.(log) ++ [mkLog false lvl msg]) w.(calls).
(** [logging.<lvl>(msg)] *)
Definition logging (lvl : level) (msg : str) (w : World) : World :=
  mkWorld w.(fs) w.(rng) (w.(log) ++ [mkLog true lvl msg]) w.(calls).

(** [subprocess.run(cmd, shell=True, timeout=t)] in the world. *)
Definition run (cmd : str) (timeout : nat) (w : World) : option Z * World :=
  let (rc, fs') := subprocess_run w.(fs) cmd timeout in
  (rc, mkWorld fs' w.(rng) w.(log) (w.(calls) ++ [cmd])).

(** [str(v)] *)
Definition py_str (v : pyval) : str :=
  match v with
  | PAtom a => str_of_atom a
  | PList l => repr_list l
  end.

(** [_generate_uuid] *)
Definition _generate_uuid (w : World) : str * World :=
  let (u, r) := uuid4 w.(rng) in (u, set_rng r w).

(** [File.get_uuid] *)
Definition get_uuid (self : File) (w : World) : pyval * File * World :=
  if negb (truthy self.(identifier)) then
    match last_item (Re.findall RE_UUID self.(filename)) with
    | Ok m => (PStr m, set_identifier (PStr m) self, w)
    | Raise _ =>
        let (u, w') := _generate_uuid w in
        (PStr u, set_identifier (PStr u) self, w')
    end
  else (self.(identifier), self, w).

(** [File.get_filename_parts] *)
Definition get_filename_parts (self : File) : result File :=
  bind
    (if truthy self.(identifier) then
       bind (as_str self.(identifier)) (fun id =>
         if Py.contains id self.(filename) then
           bind (Py.split id self.(filename)) (fun parts =>
             match parts with
             | [b; e] => Ok (Py.strip_chars ["."%char] b, e)
             | _ => Raise ValueError
             end)
         else Ok (Py.splitext self.(filename)))
     else Ok (Py.splitext self.(filename)))
    (fun '(base, e) =>
       let self := set_ext (PStr (Py.strip_chars ["."%char] e)) self in
       match Py.split1 "." base with
       | [b; f] => Ok (set_format (PStr f) (set_basename (PStr b) self))
       | _ => Ok (set_basename (PStr base) (set_format PNone self))
       end).

(** [File.tag] *)
Definition tag (self : File) (_uuid : pyval) (w : World)
  : result (str * File) * World :=
  let '(self, w) :=
    if truthy _uuid then (set_identifier _uuid self, w)
    else let '(_, self', w') := get_uuid self w in (self', w') in
  match get_filename_parts self with
  | Raise e => (Raise e, w)
  | Ok self =>
      let self :=
        if negb (truthy self.(format)) then set_format (PStr (lit "SRC")) self
        else self in
      (Ok (self.(filename), self), w)
  end.

(** The name [File.rename] composes:
    ['.'.join([p for p in parts if p and p is not ''])]. *)
Definition compose (self : File) : result str :=
  let parts := [self.(basename); self.(format); self.(identifier);
                self.(ext)] in
  bind (as_strs (filter truthy parts)) (fun ps =>
    Ok (Py.join ["."%char] ps)).

(** [File.rename] *)
Definition rename (self : File) (w : World) : result str * File * World :=
  match compose self with
  | Raise e => (Raise e, self, w)
  | Ok fn =>
      if Py.eqb self.(filename) fn then
        (Ok self.(filename), self,
         logger INFO (lit "Filename unchanged: " ++ fn) w)
      else
        match os_rename w.(fs) self.(filename) fn with
        | None =>
            (Ok self.(filename), self,
             logger ERROR (lit "Error renaming " ++ self.(filename)
                           ++ lit " -> " ++ fn) w)
        | Some fs' =>
            (Ok fn, set_filename fn self, set_fs fs' w)
        end
  end.

(** The target path [File.derive] computes. *)
Definition derive_target (self : File) (target ext : str)
           (target_dir : option str) : result str :=
  let target_dir :=
    match target_dir with
    | Some (c :: d) => c :: d
    | _ => DERIV_DIR
    end in
  bind (as_str self.(basename)) (fun b =>
    let base := Py.path_join target_dir (Py.basename b) in
    Ok (base ++ ["."%char]
        ++ Py.replace_char "_" "-" (Py.lower target) ++ ["."%char]
        ++ py_str self.(identifier) ++ ["."%char] ++ ext)).

(** The time allowed to a command: [30], and [3600] "for videos". *)
Definition derive_timeout (cmd : str) : nat :=
  if Py.contains (lit "ffmpeg") cmd then 3600 else 30.

(** The command line [File.derive] builds for a rule and a target path:
    [None] when [globals()] has no such rule (a [KeyError]). *)
Definition derive_cmd (self : File) (target : str) (frame : pyval)
           (target_fn : str) : option (result str) :=
  match globals (lit "CMD_" ++ Py.replace_char "-" "_" (Py.upper target)) with
  | None => None
  | Some cmd_str =>
      Some (format_cmd cmd_str self.(filename) target_fn
              (py_str (if negb (truthy frame) then PInt 0 else frame)))
  end.

(** [File.derive]; the result [None] is [Ok None]. *)
Definition derive (self : File) (target ext : str) (frame : pyval)
           (overwrite : bool) (target_dir : option str) (w : World)
  : result (option str) * World :=
  if negb (truthy self.(basename)) then
    (Ok None, logging ERROR (lit "No basename is set for the input file.") w)
  else
    let frame := if negb (truthy frame) then PInt 0 else frame in
    match derive_target self target ext target_dir with
    | Raise e => (Raise e, w)
    | Ok target_fn =>
        if negb overwrite && path_exists w.(fs) target_fn then
          (Ok (Some target_fn), w)
        else
          match globals (lit "CMD_"
                         ++ Py.replace_char "-" "_" (Py.upper target)) with
          | None => (Raise KeyError, w)
          | Some cmd_str =>
              match format_cmd cmd_str self.(filename) target_fn
                               (py_str frame) with
              | Raise e => (Raise e, w)
              | Ok cmd =>
                  match run cmd (derive_timeout cmd) w with
                  | (None, w') =>
                      (Ok None,
                       logger ERROR (lit "Process timed out: " ++ target) w')
                  | (Some returncode, w') =>
                      if Z.eqb returncode 0 then (Ok (Some target_fn), w')
                      else if path_isfile w'.(fs) target_fn then
                        (Ok (Some target_fn),
                         logger WARNING
                           (lit "Conversion error for command: " ++ cmd
                            ++ lit " (CODE: "
                            ++ str_of_atom (AInt returncode) ++ lit ")") w')
                      else
                        (Ok None,
                         logger ERROR
                           (lit "Conversion failed for command: " ++ cmd
                            ++ lit " (CODE: "
                            ++ str_of_atom (AInt returncode) ++ lit ")") w')
                  end
              end
          end
    end.

End Odea.

Arguments mkWorld {FS RNG} fs rng log calls.
Arguments fs {FS RNG} w.
Arguments rng {FS RNG} w.
Arguments log {FS RNG} w.
Arguments calls {FS RNG} w.
Arguments logger {FS RNG} lvl msg w.
Arguments logging {FS RNG} lvl msg w.
Arguments set_fs {FS RNG} x w.
Arguments run {FS} subprocess_run {RNG} cmd timeout w.
Arguments get_uuid {FS RNG} uuid4 self w.
Arguments tag {FS RNG} uuid4 self _uuid w.
Arguments rename {FS} os_rename {RNG} self w.

Arguments derive {FS} path_exists path_isfile subprocess_run {RNG}
  globals repr_list self target ext frame overwrite target_dir w.

(** ** A concrete disk, shell and random source

    Used to run the methods on explicit inputs. *)

Module Disk.

(** Regular files (with their text) and directories, by path. *)
Record t := mk {
  files : list (str * str);
  dirs : list str
}.

Definition isfile (d : t) (p : str) : bool :=
  existsb (fun e => Py.eqb (fst e) p) d.(files).
Definition exists_ (d : t) (p : str) : bool :=
  isfile d p || existsb (Py.eqb p) d.(dirs).

Definition read (d : t) (p : str) : str :=
  match List.find (fun e => Py.eqb (fst e) p) d.(files) with
  | Some e => snd e
  | None => []
  end.

(** [os.rename]: fails when the source does not exist. *)
Definition rename (d : t) (src dst : str) : option t :=
  if isfile d src then
    Some (mk ((dst, read d src)
              :: filter (fun e => negb (Py.eqb (fst e) src)
                                  && negb (Py.eqb (fst e) dst)) d.(files))
             d.(dirs))
  else None.

(** A shell whose every command ends with [code] ([None]: runs into
    the timeout) after creating the files [creates]. *)
Definition shell (code : option Z) (creates : list str)
           (d : t) (cmd : str) (timeout : nat) : option Z * t :=
  (code, mk (map (fun p => (p, [])) creates ++ d.(files)) d.(dirs)).

(** A random source handing out the UUIDs of a list, then a fixed one. *)
Definition uuid4 (r : list str) : str * list str :=
  match r with
  | u :: r' => (u, r')
  | [] => (lit "7d444840-9dc0-41d1-b2d1-4f4b6f1d2c3a", [])
  end.

Definition empty : t := mk [] [].

(** Paths are given relative to the bag root, which is the working
    directory. *)
Definition get_root (d : t) (path : str) : option str := Some (lit "/bag").
Definition chdir (d : t) (root : str) : t := d.
Definition relative_to (d : t) (filename root : str) : result str :=
  Ok filename.

End Disk.

(** ** Sample objects *)

Module Sample.

Definition world (d : Disk.t) : World Disk.t (list str) :=
  mkWorld d [] [] [].

(** The object of the [rename] docstring. *)
Definition plain_text : File :=
  mkFile (lit "data/test_plain-text.txt") PNone PNone PNone PNone
         (PStr (lit "b3050922-520f-426e-9a9c-cfe728bd178d"))
         (PStr (lit "data/test_plain-text"))
         (PStr (lit "sample"))
         (PStr (lit "rst"))
         PNone PNone PNone PNone [].

(** [repr] of a list whose strings are printable and hold no quote and
    no backslash. *)
Definition repr_atom (a : atom) : str :=
  match a with
  | AStr s => lit "'" ++ s ++ lit "'"
  | _ => str_of_atom a
  end.
Definition repr_list (l : list atom) : str :=
  lit "[" ++ Py.join (lit ", ") (map repr_atom l) ++ lit "]".

(** A string between double quotes. *)
Definition quoted (s : str) : str :=
  ascii_of_nat 34 :: s ++ [ascii_of_nat 34].

(** [CMD_PF_WAV] and [CMD_DF_MP3]: [ffmpeg -i "{source}" "{target}"]. *)
Definition CMD_PF_WAV : str :=
  lit "ffmpeg -i " ++ quoted (lit "{source}") ++ lit " "
  ++ quoted (lit "{target}").
Definition CMD_DF_MP3 : str := CMD_PF_WAV.

(** [CMD_DF_PDF_HTML] *)
Definition CMD_DF_PDF_HTML : str :=
  lit "read -r URL < " ++ quoted (lit "{source}") ++ lit "; wkhtmltopdf "
  ++ quoted (lit "$URL") ++ lit " " ++ quoted (lit "{target}").

(** [globals()] restricted to these rules. *)
Definition globals (name : str) : option str :=
  if Py.eqb name (lit "CMD_PF_WAV") then Some CMD_PF_WAV
  else if Py.eqb name (lit "CMD_DF_MP3") then Some CMD_DF_MP3
  else if Py.eqb name (lit "CMD_DF_PDF_HTML") then Some CMD_DF_PDF_HTML
  else None.

(** The same object once its name is the composed one. *)
Definition plain_text_renamed : File :=
  set_filename
    (lit "data/test_plain-text.sample.b3050922-520f-426e-9a9c-cfe728bd178d.rst")
    plain_text.

(** The path of the [DF_PDF_HTML] derivative of [plain_text]. *)
Definition plain_text_pdf : str :=
  lit "data/deriv/test_plain-text.df-pdf-html.b3050922-520f-426e-9a9c-cfe728bd178d.pdf".

(** [plain_text.derive('DF_PDF_HTML', 'pdf')] with the shell [sh]. *)
Definition derive_pdf (sh : Disk.t -> str -> nat -> option Z * Disk.t)
           (w : World Disk.t (list str)) :=
  derive Disk.exists_ Disk.isfile sh globals repr_list plain_text
         (lit "DF_PDF_HTML") (lit "pdf") PNone false None w.

End Sample.

(** ** [textwrap.wrap]

    [textwrap.wrap(text, width=70, subsequent_indent='    ',
    break_on_hyphens=False, break_long_words=False)], as [_make_tags]
    calls it (the other options keep their defaults: tabs are expanded,
    whitespace is replaced and dropped at line ends). *)

Module Textwrap.

Definition TAB : ascii := ascii_of_nat 9.
Definition LF : ascii := ascii_of_nat 10.
Definition CR : ascii := ascii_of_nat 13.

(** [textwrap._whitespace]: TAB, LF, VT, FF, CR and SPACE. *)
Definition whitespace (c : ascii) : bool :=
  let n := Py.ord c in ((9 <=? n) && (n <=? 13)) || (n =? 32).

(** [str.expandtabs(8)], at column [col]. *)
Fixpoint expandtabs (col : nat) (s : str) : str :=
  match s with
  | [] => []
  | c :: t =>
      if Ascii.eqb c TAB then
        let incr := 8 - col mod 8 in
        repeat " "%char incr ++ expandtabs (col + incr) t
      else
        c :: expandtabs (if Ascii.eqb c LF || Ascii.eqb c CR then 0
                         else S col) t
  end.

(** [_munge_whitespace] *)
Definition munge_whitespace (text : str) : str :=
  map (fun c => if whitespace c then " "%char else c) (expandtabs 0 text).

(** [_split] with [break_on_hyphens=False]: the maximal runs of whitespace
    and of other characters, in order. *)
Fixpoint split_chunks (s : str) : list str :=
  match s with
  | [] => []
  | c :: t =>
      match split_chunks t with
      | (d :: w) :: r =>
          if Bool.eqb (whitespace c) (whitespace d) then (c :: d :: w) :: r
          else [c] :: (d :: w) :: r
      | _ => [[c]]
      end
  end.

(** [chunk.strip() == ''] *)
Definition blank (chunk : str) : bool := forallb Py.isspace_char chunk.

(** The inner loop of [_wrap_chunks]: the chunks that fit on the line. *)
Fixpoint take_fit (width cur_len : nat) (chunks : list str)
  : list str * list str :=
  match chunks with
  | [] => ([], [])
  | c :: rest =>
      if cur_len + length c <=? width then
        let (l, r) := take_fit width (cur_len + length c) rest in (c :: l, r)
      else ([], chunks)
  end.

(** [_handle_long_word] with [break_long_words=False]: a chunk wider than
    the line goes on a line of its own. *)
Definition handle_long_word (width : nat) (cur_line chunks : list str)
  : list str * list str :=
  match chunks with
  | c :: rest =>
      if (width <? length c) then
        match cur_line with
        | [] => ([c], rest)
        | _ => (cur_line, chunks)
        end
      else (cur_line, chunks)
  | [] => (cur_line, chunks)
  end.

(** Drop the last chunk of the line when it is whitespace. *)
Definition drop_trailing (cur_line : list str) : list str :=
  match rev cur_line with
  | c :: _ => if blank c then removelast cur_line else cur_line
  | [] => cur_line
  end.

(** [_wrap_chunks]; [started] tells whether [lines] is non-empty.  Every
    round consumes a chunk, so [S (length chunks)] rounds are enough. *)
Fixpoint wrap_chunks (fuel : nat) (width : nat) (subsequent_indent : str)
         (started : bool) (chunks : list str) : list str :=
  match fuel with
  | 0 => []
  | S fuel' =>
      match chunks with
      | [] => []
      | c0 :: rest0 =>
          let indent := if started then subsequent_indent else [] in
          let w := width - length indent in
          let chunks := if blank c0 && started then rest0 else chunks in
          let (cur_line, chunks) := take_fit w 0 chunks in
          let (cur_line, chunks) := handle_long_word w cur_line chunks in
          let cur_line := drop_trailing cur_line in
          match cur_line with
          | [] => wrap_chunks fuel' width subsequent_indent started chunks
          | _ =>
              (indent ++ concat cur_line)
              :: wrap_chunks fuel' width subsequent_indent true chunks
          end
      end
  end.

Definition wrap (text : str) (width : nat) (subsequent_indent : str)
  : list str :=
  let chunks := split_chunks (munge_whitespace text) in
  wrap_chunks (S (length chunks)) width subsequent_indent false chunks.

End Textwrap.

(** ** The tag-file codec *)

(** A metadata dict: keys in insertion order, no key twice. *)
Definition dict := list (str * pyval).

Fixpoint dict_get (d : dict) (k : str) : option pyval :=
  match d with
  | [] => None
  | (k', v) :: r => if Py.eqb k' k then Some v else dict_get r k
  end.

(** [d[k] = v] *)
Fixpoint dict_set (d : dict) (k : str) (v : pyval) : dict :=
  match d with
  | [] => [(k, v)]
  | (k', v') :: r =>
      if Py.eqb k' k then (k', v) :: r else (k', v') :: dict_set r k v
  end.

Definition keys (d : dict) : list str := map fst d.

(** [x in l] for a list of strings. *)
Definition str_in (x : str) (l : list str) : bool := existsb (Py.eqb x) l.

(** String order of [sorted]: by code point, shorter prefix first. *)
Fixpoint str_leb (a b : str) : bool :=
  match a, b with
  | [], _ => true
  | _ :: _, [] => false
  | x :: a', y :: b' =>
      if Py.ord x <? Py.ord y then true
      else if Py.ord y <? Py.ord x then false
      else str_leb a' b'
  end.

Fixpoint insert_sorted (x : str) (l : list str) : list str :=
  match l with
  | [] => [x]
  | y :: r => if str_leb x y then x :: l else y :: insert_sorted x r
  end.

(** [sorted(l)] *)
Definition sorted (l : list str) : list str :=
  fold_right insert_sorted [] l.

(** [re.sub(r"(\r\n)|\n|\r", " ", s)] *)
Fixpoint strip_newlines (s : str) : str :=
  match s with
  | [] => []
  | c :: t =>
      if Ascii.eqb c Textwrap.CR then
        " "%char :: match t with
                    | c' :: t' =>
                        if Ascii.eqb c' Textwrap.LF then strip_newlines t'
                        else strip_newlines t
                    | [] => []
                    end
      else if Ascii.eqb c Textwrap.LF then " "%char :: strip_newlines t
      else c :: strip_newlines t
  end.

Definition CRLF : str := [Textwrap.CR; Textwrap.LF].

(** [values in ("None", "null")] *)
Definition is_null_token (values : pyval) : bool :=
  match values with
  | PAtom (AStr s) => Py.eqb s (lit "None") || Py.eqb s (lit "null")
  | _ => false
  end.

(** [values is None] *)
Definition is_None (values : pyval) : bool :=
  match values with
  | PAtom ANone => true
  | _ => false
  end.

(** The header order of [_make_tags]: the keys whose lowercase is in
    [TERMS], in dict order, then the other keys, sorted. *)
Definition headers (metadata : dict) : list str :=
  let hs := filter (fun t => str_in (Py.lower t) TERMS) (keys metadata) in
  hs ++ filter (fun t => negb (str_in t hs)) (sorted (keys metadata)).

(** The wrapped text of one value of the field [h]. *)
Definition tag_text (h : str) (v : atom) : str :=
  let v := strip_newlines (str_of_atom v) in
  Py.join CRLF (Textwrap.wrap (h ++ lit ": " ++ v) 70 (lit "    ")).

(** The entries [_make_tags] appends for one header. *)
Definition header_tags (strip_nulls : bool) (h : str) (values : pyval)
  : list str :=
  if (strip_nulls && is_None values) || is_null_token values then []
  else
    let h := Py.replace_char "_" " " (Py.lower h) in
    let values := match values with
                  | PList l => l
                  | PAtom a => [a]
                  end in
    map (tag_text h) values.

(** [_make_tags] *)
Definition _make_tags (metadata : dict) (strip_nulls : bool) : str :=
  let tags :=
    flat_map (fun h => match dict_get metadata h with
                       | Some values => header_tags strip_nulls h values
                       | None => []
                       end)
             (headers metadata) in
  Py.join CRLF tags.

(** Reading a text file: newline translation of [open(name, "r")] ... *)
Fixpoint universal_newlines (s : str) : str :=
  match s with
  | [] => []
  | c :: t =>
      if Ascii.eqb c Textwrap.CR then
        Textwrap.LF :: match t with
                       | c' :: t' =>
                           if Ascii.eqb c' Textwrap.LF
                           then universal_newlines t'
                           else universal_newlines t
                       | [] => []
                       end
      else c :: universal_newlines t
  end.

(** ... and iteration over its lines, each with its newline. *)
Fixpoint lines_from (cur : str) (s : str) : list str :=
  match s with
  | [] => match cur with [] => [] | _ => [rev cur] end
  | c :: t =>
      if Ascii.eqb c Textwrap.LF then rev (c :: cur) :: lines_from [] t
      else lines_from (c :: cur) t
  end.

Definition file_lines (text : str) : list str :=
  lines_from [] (universal_newlines text).

(** The fields whose folded lines are joined without a space. *)
Definition unbroken_fields : list str :=
  map lit ["filename"; "basename"; "sha512"; "source"]%string.

(** [if tag_name:] *)
Definition name_set (tag_name : option str) : bool :=
  match tag_name with
  | Some (_ :: _) => true
  | _ => false
  end.

(** What [_parse_tags] yields for the tag read so far. *)
Definition yield_tag (tag_name tag_value : option str) : list (str * str) :=
  match tag_name, tag_value with
  | Some n, Some v => if name_set tag_name then [(n, Py.strip v)] else []
  | _, _ => []
  end.

(** [_parse_tags]: the pairs the generator yields over the lines of the
    file, or the error it raises. *)
Fixpoint _parse_tags (tag_name tag_value : option str) (lines : list str)
  : result (list (str * str)) :=
  match lines with
  | [] => Ok (yield_tag tag_name tag_value)
  | line :: rest =>
      let new_tag :=
        if negb (Py.mem ":" line) then
          Raise (BagValidationError (lit "invalid tag: " ++ line))
        else
          match Py.split1 ":" (Py.strip line) with
          | [name; value] =>
              bind (_parse_tags
                      (Some (Py.replace_char " " "_"
                               (Py.lower (Py.strip name))))
                      (Some value) rest)
                   (fun r => Ok (yield_tag tag_name tag_value ++ r))
          | _ => Raise IndexError
          end in
      if (length line =? 0) || Py.isspace line then
        _parse_tags tag_name tag_value rest
      else
        match tag_value with
        | Some v =>
            if Py.isspace_char (hd " "%char line) then
              let joined :=
                if match tag_name with
                   | Some n => str_in n unbroken_fields
                   | None => false
                   end
                then v ++ Py.strip line
                else v ++ lit " " ++ Py.strip line in
              _parse_tags tag_name (Some joined) rest
            else new_tag
        | None => new_tag
        end
  end.

(** The loop body of [_load_tag_file]: repeated names accumulate into a
    list, in order. *)
Definition add_tag (tags : dict) (name value : str) : dict :=
  let value :=
    if Py.eqb value (lit "None") || Py.eqb value (lit "null") then ANone
    else AStr value in
  match dict_get tags name with
  | None => dict_set tags name (PAtom value)
  | Some (PAtom a) => dict_set tags name (PList [a; value])
  | Some (PList l) => dict_set tags name (PList (l ++ [value]))
  end.

(** [_load_tag_file], on the text of the file. *)
Definition _load_tag_file (text : str) : result dict :=
  bind (_parse_tags None None (file_lines text)) (fun pairs =>
    Ok (fold_left (fun tags nv => add_tag tags (fst nv) (snd nv)) pairs [])).

(** ** Loading a [File] *)

(** [setattr(f, key, v)].  The record keeps [filename] as a string;
    [load_file] never sets it. *)
Definition setattr (f : File) (key : str) (v : pyval) : File :=
  let key_is name := Py.eqb key (lit name) in
  if key_is "filename"%string then
    match v with PAtom (AStr s) => set_filename s f | _ => f end
  else if key_is "identifier"%string then set_identifier v f
  else if key_is "basename"%string then set_basename v f
  else if key_is "format"%string then set_format v f
  else if key_is "ext"%string then set_ext v f
  else if key_is "sha512"%string then
    mkFile f.(filename) v f.(sha256) f.(size) f.(mtime) f.(identifier)
           f.(basename) f.(format) f.(ext) f.(thumb) f.(preview)
           f.(dimensions) f.(duration) f.(extra)
  else if key_is "sha256"%string then
    mkFile f.(filename) f.(sha512) v f.(size) f.(mtime) f.(identifier)
           f.(basename) f.(format) f.(ext) f.(thumb) f.(preview)
           f.(dimensions) f.(duration) f.(extra)
  else if key_is "size"%string then
    mkFile f.(filename) f.(sha512) f.(sha256) v f.(mtime) f.(identifier)
           f.(basename) f.(format) f.(ext) f.(thumb) f.(preview)
           f.(dimensions) f.(duration) f.(extra)
  else if key_is "mtime"%string then
    mkFile f.(filename) f.(sha512) f.(sha256) f.(size) v f.(identifier)
           f.(basename) f.(format) f.(ext) f.(thumb) f.(preview)
           f.(dimensions) f.(duration) f.(extra)
  else if key_is "thumb"%string then
    mkFile f.(filename) f.(sha512) f.(sha256) f.(size) f.(mtime)
           f.(identifier) f.(basename) f.(format) f.(ext) v f.(preview)
           f.(dimensions) f.(duration) f.(extra)
  else if key_is "preview"%string then
    mkFile f.(filename) f.(sha512) f.(sha256) f.(size) f.(mtime)
           f.(identifier) f.(basename) f.(format) f.(ext) f.(thumb) v
           f.(dimensions) f.(duration) f.(extra)
  else if key_is "dimensions"%string then
    mkFile f.(filename) f.(sha512) f.(sha256) f.(size) f.(mtime)
           f.(identifier) f.(basename) f.(format) f.(ext) f.(thumb)
           f.(preview) v f.(duration) f.(extra)
  else if key_is "duration"%string then
    mkFile f.(filename) f.(sha512) f.(sha256) f.(size) f.(mtime)
           f.(identifier) f.(basename) f.(format) f.(ext) f.(thumb)
           f.(preview) f.(dimensions) v f.(extra)
  else
    mkFile f.(filename) f.(sha512) f.(sha256) f.(size) f.(mtime)
           f.(identifier) f.(basename) f.(format) f.(ext) f.(thumb)
           f.(preview) f.(dimensions) f.(duration) (dict_set f.(extra) key v).

(** The keys [load_file] does not take from the tag file. *)
Definition path_keys : list str :=
  map lit ["filename"; "basename"; "format"; "ext"]%string.

(** The loop of [load_file] over the tags of the sidecar file. *)
Definition overlay (f : File) (tags : dict) : File :=
  fold_left (fun f kv =>
               if str_in (fst kv) path_keys then f
               else setattr f (fst kv) (snd kv))
            tags f.

Section Load.

Variable FS : Type.
Variable path_exists : FS -> str -> bool.
(** The text of a file, as [open(name, "r")] gives it before newline
    translation. *)
Variable read_text : FS -> str -> str.
(** [get_root(path)] *)
Variable get_root : FS -> str -> option str.
(** [os.chdir(root)] *)
Variable chdir : FS -> str -> FS.
(** [str(pathlib.Path(filename).resolve().relative_to(root))] *)
Variable relative_to : FS -> str -> str -> result str.
Variable RNG : Type.
Variable uuid4 : RNG -> str * RNG.

(** The sidecar path of a file: [file_metadata/<identifier>.<format>.txt]. *)
Definition sidecar_path (id fmt : str) : str :=
  Py.path_join FILE_METADATA_DIR (id ++ lit "." ++ fmt ++ lit ".txt").

(** [load_file]; the result [None] is [Ok None]. *)
Definition load_file (filename : str) (w : World FS RNG)
  : result (option File) * World FS RNG :=
  match get_root w.(fs) filename with
  | None =>
      (Ok None,
       logger ERROR (lit "load file " ++ filename
                     ++ lit ": Could not locate bag root") w)
  | Some root =>
      let w := set_fs (chdir w.(fs) root) w in
      match relative_to w.(fs) filename root with
      | Raise e => (Raise e, w)
      | Ok filename =>
          let '(_, f, w) := get_uuid uuid4 (new_File filename) w in
          match as_str f.(identifier) with
          | Raise e => (Raise e, w)
          | Ok id =>
              if negb (Py.contains id filename) then (Ok (Some f), w)
              else
                match get_filename_parts f with
                | Raise e => (Raise e, w)
                | Ok f =>
                    match f.(format) with
                    | PAtom (AStr (c :: fmt)) =>
                        let tag_file := sidecar_path id (c :: fmt) in
                        if path_exists w.(fs) tag_file then
                          match _load_tag_file (read_text w.(fs) tag_file) with
                          | Raise e => (Raise e, w)
                          | Ok tags => (Ok (Some (overlay f tags)), w)
                          end
                        else (Ok (Some f), w)
                    | _ => (Ok (Some f), w)
                    end
                end
          end
      end
  end.

End Load.

Arguments load_file {FS} path_exists read_text get_root chdir relative_to
  {RNG} uuid4 filename w.

(** ** Sample files *)

Module Names.

Definition uuid : str := lit "48342ee3-9080-407e-9862-12ce05143499".
Definition zeros : str := lit "00000000-0000-0000-0000-000000000000".

(** A name in which [zeros] starts at two places that overlap. *)
Definition overlapping : str :=
  lit "data/x.00000000-0000-0000-0000-000000000000-0000-0000-0000-000000000000.txt".

(** A name that carries the same identifier twice. *)
Definition doubled : str :=
  lit "data/x.48342ee3-9080-407e-9862-12ce05143499.48342ee3-9080-407e-9862-12ce05143499.txt".

(** [load_file] on a disk [d] whose working directory is the bag root. *)
Definition load (d : Disk.t) (filename : str) :=
  load_file Disk.exists_ Disk.read Disk.get_root Disk.chdir Disk.relative_to
            Disk.uuid4 filename (mkWorld d [] [] []).

(** A file on disk whose name carries [uuid], and its sidecar, which
    records another identifier, an old basename and a size. *)
Definition spam : str :=
  lit "data/spam.SRC.48342ee3-9080-407e-9862-12ce05143499.txt".

Definition spam_sidecar : str :=
  lit "file_metadata/48342ee3-9080-407e-9862-12ce05143499.SRC.txt".

Definition stale_tags : str :=
  lit "identifier: 11111111-1111-1111-1111-111111111111" ++ CRLF
  ++ lit "basename: data/old" ++ CRLF
  ++ lit "size: 12".

Definition spam_disk : Disk.t :=
  Disk.mk [(spam, []); (spam_sidecar, stale_tags)] [].

(** Components with a dot in the basename. *)
Definition dotted : File :=
  mkFile [] PNone PNone PNone PNone (PStr uuid)
         (PStr (lit "data/notes.2019")) (PStr (lit "SRC")) (PStr (lit "txt"))
         PNone PNone PNone PNone [].

End Names.

(** ** [slugify]

    [File.slug] calls [slugify] of the python-slugify package, which
    [setup.py] installs.  [slugify] and [smart_truncate] follow that
    package, for the arguments [File.slug] passes ([max_length=60],
    [regex_pattern]; every other argument at its default, in particular
    [word_boundary=False]) and for ASCII text without [&]: on such text the
    transliteration ([unidecode], NFKD) and the three character-reference
    substitutions leave the text as it is. *)

Module Slugify.

(** The texts the embedding covers. *)
Definition plain (text : str) : Prop :=
  Forall (fun c => Py.ord c < 128 /\ c <> "&"%char) text.

Definition DEFAULT_SEPARATOR : ascii := "-"%char.

(** [re.sub(p+, rep, s)] for a character class [p]: every maximal run of
    [p] becomes [rep].  [in_run] tells whether the previous character was
    in the class. *)
Fixpoint sub_runs (p : ascii -> bool) (rep : str) (in_run : bool) (s : str)
  : str :=
  match s with
  | [] => []
  | c :: t =>
      if p c then
        if in_run then sub_runs p rep true t
        else rep ++ sub_runs p rep true t
      else c :: sub_runs p rep false t
  end.

Definition is_quote (c : ascii) : bool := Ascii.eqb c (ascii_of_nat 39).
Definition is_digit (c : ascii) : bool := Py.in_range "0" "9" c.
Definition is_dash (c : ascii) : bool := Ascii.eqb c DEFAULT_SEPARATOR.

(** [NUMBERS_PATTERN.sub('', s)], the pattern being [(?<=\d),(?=\d)]: a
    comma between two digits goes.  [prev] is the character before. *)
Fixpoint cleanup_numbers (prev : ascii) (s : str) : str :=
  match s with
  | [] => []
  | c :: t =>
      if Ascii.eqb c ","
         && is_digit prev
         && match t with
            | n :: _ => is_digit n
            | [] => false
            end
      then cleanup_numbers c t
      else c :: cleanup_numbers c t
  end.

(** [smart_truncate(string, max_length, word_boundary=False,
    separator='-')] *)
Definition smart_truncate (string : str) (max_length : nat) : str :=
  let string := Py.strip_by is_dash string in
  if max_length =? 0 then string
  else if length string <? max_length then string
  else Py.strip_by is_dash (firstn max_length string).

(** [slugify(text, max_length=max_length, regex_pattern=[^allowed]+)] *)
Definition slugify (text : str) (max_length : nat) (allowed : ascii -> bool)
  : str :=
  (* replace quotes with dashes: QUOTE_PATTERN is ['\'']+ *)
  let text := sub_runs is_quote [DEFAULT_SEPARATOR] false text in
  (* make the text lowercase *)
  let text := Py.lower text in
  (* remove generated quotes *)
  let text := filter (fun c => negb (is_quote c)) text in
  (* cleanup numbers *)
  let text := cleanup_numbers " "%char text in
  (* replace all other unwanted characters *)
  let text :=
    sub_runs (fun c => negb (allowed c)) [DEFAULT_SEPARATOR] false text in
  (* remove redundant dashes: DUPLICATE_DASH_PATTERN is -{2,} *)
  let text :=
    Py.strip_by is_dash (sub_runs is_dash [DEFAULT_SEPARATOR] false text) in
  (* smart truncate if requested *)
  if 0 <? max_length then smart_truncate text max_length else text.

End Slugify.

(** The class [[-a-z0-9_/.]] of [File.slug]. *)
Definition slug_allowed (c : ascii) : bool :=
  Ascii.eqb c "-" || Py.in_range "a" "z" c || Py.in_range "0" "9" c
  || Ascii.eqb c "_" || Ascii.eqb c "/" || Ascii.eqb c ".".

(** [File.slug] *)
Definition slug (self : File) : result str :=
  bind (as_str self.(basename)) (fun b =>
    Ok (Slugify.slugify b 60 slug_allowed)).

(** Sample records: the one of the specification's scenario, one with a
    long note and a null, and one with a long [source]. *)
Definition record_AB : dict :=
  [(lit "title", PStr (lit "A"));
   (lit "note", PList [AStr (lit "x"); AStr (lit "y")])].

Definition record_long : dict :=
  [(lit "dcmi_type", PStr (lit "Sound"));
   (lit "description",
    PStr (lit "Interview recorded by the author in Ulaanbaatar, Mongolia, during fieldwork in 2019"));
   (lit "rights", PNone)].

Definition record_source : dict :=
  [(lit "source",
    PStr (lit "Interview recorded by the author in Ulaanbaatar, Mongolia, during fieldwork in 2019"))].


(** ** The records that round-trip

    The domain on which decoding what [_make_tags] wrote gives the record
    back. *)

(** A word: a non-empty string without whitespace. *)
Definition word (w : str) : Prop :=
  w <> [] /\ Forall (fun c => Py.isspace_char c = false) w.

(** A field name: at most 68 characters, none of them whitespace, a colon
    or a capital, and no underscore at either end. *)
Definition key_char (c : ascii) : Prop :=
  Py.isspace_char c = false /\ c <> ":"%char /\ Py.lower_char c = c.

Definition wf_key (k : str) : Prop :=
  k <> [] /\ length k <= 68 /\ Forall key_char k
  /\ hd "_"%char k <> "_"%char /\ last k "_"%char <> "_"%char.

(** A text value of the field [key]: words separated by single spaces,
    other than the tokens [None] and [null]; in a field whose folded lines
    are joined without a space, at most one word, or a text that fits on
    the first line. *)
Definition wf_text (key s : str) : Prop :=
  exists ws,
    Forall word ws /\ s = Py.join (lit " ") ws
    /\ s <> lit "None" /\ s <> lit "null"
    /\ (str_in key unbroken_fields = true ->
        length ws <= 1 \/ length key + 2 + length s <= 70).

Definition wf_atom (key : str) (a : atom) : Prop :=
  match a with
  | ANone => True
  | AStr s => wf_text key s
  | AInt _ => False
  end.

(** A value: one atom (not [None] when nulls are stripped), or a list of
    at least two atoms. *)
Definition wf_value (strip_nulls : bool) (key : str) (v : pyval) : Prop :=
  match v with
  | PAtom a => wf_atom key a /\ (strip_nulls = true -> a <> ANone)
  | PList l => 2 <= length l /\ Forall (wf_atom key) l
  end.

Definition wf_record (strip_nulls : bool) (m : dict) : Prop :=
  NoDup (keys m)
  /\ Forall (fun kv => wf_key (fst kv)
                       /\ wf_value strip_nulls (fst kv) (snd kv)) m.

(** A text whose only whitespace is the space character. *)
Definition tidy (s : str) : Prop :=
  Forall (fun c => Textwrap.whitespace c = true -> c = " "%char) s.

(** The chunks of words separated by single spaces. *)
Fixpoint chunks_of (ws : list str) : list str :=
  match ws with
  | [] => []
  | [w] => [w]
  | w :: rest => w :: lit " " :: chunks_of rest
  end.

(** The header text of a field: [h.lower().replace("_", " ")]. *)
Definition header_text (k : str) : str :=
  Py.replace_char "_" " " (Py.lower k).

(** The value text (after [h:]) on the first line of a tag, [g] being the
    words it holds. *)
Definition first_tail (g : list str) : str :=
  match g with
  | [] => []
  | _ => lit " " ++ Py.join (lit " ") g
  end.

(** The lines of one tag: the header with a first group of words, then
    one indented line per further group. *)
Definition block_lines (k : str) (g : list str) (gs : list (list str))
  : list str :=
  (header_text k ++ lit ":" ++ first_tail g)
  :: map (fun x => lit "    " ++ Py.join (lit " ") x) gs.

(** What the parser appends for a folded line of the field [k]. *)
Definition fold_line (k v body : str) : str :=
  if str_in k unbroken_fields then v ++ body else v ++ lit " " ++ body.

(** The value the parser has read at the end of the tag. *)
Definition folded_value (k : str) (g : list str) (gs : list (list str))
  : str :=
  fold_left (fun v x => fold_line k v (Py.join (lit " ") x)) gs (first_tail g).

(** The atom [_load_tag_file] stores for a parsed value. *)
Definition token_atom (value : str) : atom :=
  if Py.eqb value (lit "None") || Py.eqb value (lit "null") then ANone
  else AStr value.

(** The atoms [_make_tags] writes for a value. *)
Definition atoms_of (v : pyval) : list atom :=
  match v with
  | PAtom a => [a]
  | PList l => l
  end.

(** A tag as it is written: the field, the words on its first line and
    the groups of words on its folded lines. *)
Definition block : Type := str * list str * list (list str).

Definition block_key (b : block) : str := fst (fst b).

Definition block_text (b : block) : str :=
  Py.join CRLF (block_lines (fst (fst b)) (snd (fst b)) (snd b)).

(** The pair the parser yields for a tag. *)
Definition block_pair (b : block) : str * str :=
  (fst (fst b),
   Py.strip (folded_value (fst (fst b)) (snd (fst b)) (snd b))).

Definition wf_block (b : block) : Prop :=
  wf_key (fst (fst b)) /\ Forall word (snd (fst b))
  /\ Forall (fun x => x <> [] /\ Forall word x) (snd b).

(** [metadata[h]] *)
Definition value_of (m : dict) (h : str) : pyval :=
  match dict_get m h with
  | Some v => v
  | None => PNone
  end.

(** A text without carriage return and line feed. *)
Definition no_newline (s : str) : Prop :=
  Forall (fun c => c <> Textwrap.CR /\ c <> Textwrap.LF) s.

(** A line as the file iterator gives it: with or without its newline. *)
Definition read_as (L l : str) : Prop := L = l \/ L = l ++ [Textwrap.LF].

(** The length of a line made of the chunks [l]. *)
Definition total_length (l : list str) : nat :=
  fold_right (fun c n => length c + n) 0 l.

(** The names a loaded tag file holds: non-empty, without a space, in
    lower case. *)
Definition loaded_name (k : str) : Prop :=
  k <> [] /\ ~ In " "%char k /\ Py.lower k = k.

(** The values a loaded tag file holds: [None], a stripped string other
    than the null tokens, or a list of at least two of these. *)
Definition loaded_atom (a : atom) : Prop :=
  match a with
  | ANone => True
  | AStr s => Py.strip s = s /\ s <> lit "None" /\ s <> lit "null"
  | AInt _ => False
  end.

Definition loaded_value (v : pyval) : Prop :=
  match v with
  | PAtom a => loaded_atom a
  | PList l => 2 <= length l /\ Forall loaded_atom l
  end.

(** A text without two dashes in a row. *)
Fixpoint no_double_dash (s : str) : Prop :=
  match s with
  | c :: t =>
      (Slugify.is_dash c = true -> Slugify.is_dash (hd " "%char t) = false)
      /\ no_double_dash t
  | [] => True
  end.

(** ** More string methods *)

Module Str.

(** [s.rfind(sub)] for a non-empty [sub]: index of the rightmost
    occurrence. *)
Fixpoint rfind (sub s : str) : option nat :=
  match s with
  | [] => None
  | _ :: t =>
      match rfind sub t with
      | Some i => Some (S i)
      | None => if Py.startswith sub s then Some 0 else None
      end
  end.

(** [s.rpartition(sep)] for a non-empty [sep]: the text before the
    rightmost occurrence, the separator and the text behind it; two empty
    strings and [s] when there is none. *)
Definition rpartition (sep s : str) : str * str * str :=
  match rfind sep s with
  | Some i => (firstn i s, sep, skipn (i + length sep) s)
  | None => ([], [], s)
  end.

(** [s.rsplit(c, 1)] for a one-character separator. *)
Definition rsplit1 (c : ascii) (s : str) : list str :=
  match Py.rfind_char c s with
  | Some i => [firstn i s; skipn (S i) s]
  | None => [s]
  end.

(** [s[:n]]; a negative [n] counts from the end. *)
Definition slice_to (s : str) (n : Z) : str :=
  if (n <? 0)%Z then firstn (length s - Z.to_nat (- n)) s
  else firstn (Z.to_nat n) s.

End Str.

(** ** Descriptions on index pages *)

(** [_truncate(description, length)]; [description] is a string or
    [None]. *)
Definition _truncate (description : option str) (length_ : Z) : str :=
  match description with
  | None => []
  | Some description =>
      if (length_ =? -1)%Z || (Z.of_nat (length description) <=? length_)%Z
      then description
      else
        let parts := Str.rpartition (lit ". ")
                                    (Str.slice_to description length_) in
        match fst (fst parts) with
        | [] => Str.slice_to description length_ ++ lit " ..."
        | _ =>
            let d := fst (fst parts) ++ snd (fst parts) in
            hd [] (Str.rsplit1 " " d)
        end
  end.

(** ** The bag root *)

Section Root.

Variable FS : Type.
(** [os.path.isdir], [os.path.isfile] *)
Variable path_isdir : FS -> str -> bool.
Variable path_isfile : FS -> str -> bool.
(** [str(pathlib.Path(path).resolve())] *)
Variable resolve : FS -> str -> str.

(** [is_root] *)
Definition is_root (fs : FS) (path : str) : bool :=
  if negb (path_isdir fs path) then false
  else if negb (path_isfile fs (Py.path_join path (lit "bagit.txt")))
  then false
  else if negb (path_isdir fs (Py.path_join path (lit "data"))) then false
  else true.

(** [get_root] *)
Definition get_root (fs : FS) (path : str) : option str :=
  let p := resolve fs path in
  if is_root fs p then Some p
  else
    let match_ := lit "/" ++ DATA_DIR in
    let subpath := fst (fst (Str.rpartition match_ p)) in
    if is_root fs subpath then Some subpath else None.

End Root.

Arguments is_root {FS} path_isdir path_isfile fs path.
Arguments get_root {FS} path_isdir path_isfile resolve fs path.

(** A line of a tag file as [_make_tags] writes it: without a newline
    inside, and at most [width] characters long unless it is one word,
    which holds no whitespace, behind the indent or at the start. *)
Definition tag_line (width : nat) (indent l : str) : Prop :=
  no_newline l
  /\ (length l <= width
      \/ exists w,
          (l = w \/ l = indent ++ w)
          /\ Forall (fun c => Textwrap.whitespace c = false) w).

(** The value as the tag file shows it: [None] stays, a number becomes
    its digits, and newlines in a text become spaces. *)
Definition written_atom (a : atom) : atom :=
  match a with
  | ANone => ANone
  | _ => AStr (strip_newlines (str_of_atom a))
  end.

Definition written (v : pyval) : pyval :=
  match v with
  | PAtom a => PAtom (written_atom a)
  | PList l => PList (map written_atom l)
  end.

(** ** The command line ([cli.py]) *)

(** A command-line function returns, or ends the program with
    [sys.exit(message)]. *)
Inductive outcome (A : Type) :=
| Return (a : A)
| SystemExit (message : str).
Arguments Return {A} a.
Arguments SystemExit {A} message.

(** [re.search(p, s)] for a fixed-length, non-empty pattern: the leftmost
    match. *)
Fixpoint re_search (p : Re.pattern) (s : str) : option str :=
  if Re.match_prefix p s then Some (firstn (length p) s)
  else match s with
       | [] => None
       | _ :: t => re_search p t
       end.

Section Cli.

Variable FS : Type.
(** [os.path.isfile] *)
Variable path_isfile : FS -> str -> bool.
(** [str(pathlib.Path(fn).resolve().parents[0])]: the directory of the
    resolved path of a regular file. *)
Variable resolved_parent : FS -> str -> str.

(** [check_file]; [fn] is a string or [None]. *)
Definition check_file (fs : FS) (fn : option str) : outcome str :=
  match fn with
  | None => SystemExit (lit "No input file")
  | Some [] => SystemExit (lit "No input file")
  | Some fn =>
      if path_isfile fs fn then
        match re_search RE_UUID (resolved_parent fs fn) with
        | Some _ => Return (lit "subfile")
        | None => Return (lit "file")
        end
      else SystemExit (lit "Specify a valid input filename.")
  end.

End Cli.

Arguments check_file {FS} path_isfile resolved_parent fs fn.

(* ================================================================== *)
(** * Properties *)

(** ** Strings *)

Lemma eqb_eq (a b : str) : Py.eqb a b = true <-> a = b.
Proof.
  revert b; induction a as [|x a IH]; destruct b as [|y b]; simpl;
    try (split; [discriminate | congruence]); try tauto.
  rewrite andb_true_iff, Ascii.eqb_eq, IH.
  split; [intros [-> ->]; reflexivity | intros H; inversion H; auto].
Qed.

Lemma eqb_refl (a : str) : Py.eqb a a = true.
Proof. apply eqb_eq; reflexivity. Qed.

Lemma eqb_neq (a b : str) : Py.eqb a b = false <-> a <> b.
Proof.
  rewrite <- eqb_eq. destruct (Py.eqb a b); split; congruence.
Qed.

(** ** Renaming *)

Section RenameFacts.

Context {FS RNG : Type}.
Variable os_rename : FS -> str -> str -> option FS.

(** C7. Rename failure semantics.  When the composed name [fn] differs
    from the current filename and the file-system rename fails, [rename]
    logs one error, leaves the object (hence its filename) and the file
    system unchanged and returns the current filename; when the composed
    name equals the current filename, [rename] does not touch the file
    system or the object (it only logs at INFO level) and returns the same
    filename. *)
Theorem rename_failure_semantics (self : File) (w : World FS RNG) (fn : str) :
  compose self = Ok fn ->
  (fn <> self.(filename) ->
   os_rename w.(fs) self.(filename) fn = None ->
   rename os_rename self w
   = (Ok self.(filename), self,
      mkWorld w.(fs) w.(rng)
        (w.(log) ++ [mkLog false ERROR
                       (lit "Error renaming " ++ self.(filename)
                        ++ lit " -> " ++ fn)])
        w.(calls)))
  /\ (fn = self.(filename) ->
      rename os_rename self w
      = (Ok self.(filename), self,
         mkWorld w.(fs) w.(rng)
           (w.(log) ++ [mkLog false INFO (lit "Filename unchanged: " ++ fn)])
           w.(calls))).
Proof.
  intros Hc. unfold rename. rewrite Hc. split.
  - intros Hne Hfail.
    assert (E : Py.eqb self.(filename) fn = false)
      by (apply eqb_neq; congruence).
    rewrite E, Hfail. reflexivity.
  - intros ->. rewrite eqb_refl. reflexivity.
Qed.

End RenameFacts.

Lemma rename_failure_semantics_witness :
  rename Disk.rename Sample.plain_text (Sample.world Disk.empty)
  = (Ok (lit "data/test_plain-text.txt"), Sample.plain_text,
     mkWorld Disk.empty [] 
       [mkLog false ERROR
          (lit "Error renaming data/test_plain-text.txt -> data/test_plain-text.sample.b3050922-520f-426e-9a9c-cfe728bd178d.rst")]
       [])
  /\ rename Disk.rename Sample.plain_text_renamed (Sample.world Disk.empty)
     = (Ok (lit "data/test_plain-text.sample.b3050922-520f-426e-9a9c-cfe728bd178d.rst"),
        Sample.plain_text_renamed,
        mkWorld Disk.empty []
          [mkLog false INFO
             (lit "Filename unchanged: data/test_plain-text.sample.b3050922-520f-426e-9a9c-cfe728bd178d.rst")]
          []).
Proof.
  split.
  - apply (proj1 (rename_failure_semantics Disk.rename Sample.plain_text
                    (Sample.world Disk.empty) _ eq_refl)).
    + vm_compute. discriminate.
    + reflexivity.
  - apply (proj2 (rename_failure_semantics Disk.rename
                    Sample.plain_text_renamed
                    (Sample.world Disk.empty) _ eq_refl)).
    reflexivity.
Defined.

(** ** Derivation *)

Lemma log_append_neq {FS RNG} (lvl : level) (msg : str) (w : World FS RNG) :
  logger lvl msg w <> w.
Proof.
  destruct w as [f r l c]. unfold logger; simpl. intros H.
  assert (E : length (l ++ [mkLog false lvl msg]) = length l)
    by (injection H as ->; reflexivity).
  rewrite length_app in E. simpl in E. lia.
Qed.

Section DeriveFacts.

Context {FS RNG : Type}.
Variables (path_exists path_isfile : FS -> str -> bool).
Variable subprocess_run : FS -> str -> nat -> option Z * FS.
Variable globals : str -> option str.
Variable repr_list : list atom -> str.

Let derive_ := derive (RNG:=RNG) path_exists path_isfile subprocess_run
                      globals repr_list.

(** Once the target is computed and the short cut does not apply,
    [derive] runs the command and decides on its outcome. *)
Lemma derive_runs self target ext frame overwrite target_dir
      (w : World FS RNG) t cmd :
  truthy self.(basename) = true ->
  derive_target repr_list self target ext target_dir = Ok t ->
  (overwrite = true \/ path_exists w.(fs) t = false) ->
  derive_cmd globals repr_list self target frame t = Some (Ok cmd) ->
  derive_ self target ext frame overwrite target_dir w
  = match run subprocess_run cmd (derive_timeout cmd) w with
    | (None, w') =>
        (Ok None, logger ERROR (lit "Process timed out: " ++ target) w')
    | (Some returncode, w') =>
        if Z.eqb returncode 0 then (Ok (Some t), w')
        else if path_isfile w'.(fs) t then
          (Ok (Some t),
           logger WARNING
             (lit "Conversion error for command: " ++ cmd ++ lit " (CODE: "
              ++ str_of_atom (AInt returncode) ++ lit ")") w')
        else
          (Ok None,
           logger ERROR
             (lit "Conversion failed for command: " ++ cmd ++ lit " (CODE: "
              ++ str_of_atom (AInt returncode) ++ lit ")") w')
    end.
Proof.
  intros Hb Ht Hov Hcmd. unfold derive_, derive, derive_cmd in *.
  rewrite Hb, Ht. simpl negb. cbv iota.
  assert (E : negb overwrite && path_exists (fs w) t = false)
    by (destruct Hov as [-> | ->]; [reflexivity | apply andb_false_r]).
  rewrite E.
  destruct (globals _) as [tpl|]; [|discriminate].
  injection Hcmd as Hcmd. rewrite Hcmd. reflexivity.
Qed.


(** C4. Conversion outcome tri-state.  When [derive] runs the external
    conversion [cmd] for target path [t]: return code zero returns [t] and
    logs nothing; a non-zero return code with [t] a file on disk returns
    [t] as well and logs one WARNING; a non-zero return code with no such
    file returns [None] and logs an ERROR; a timeout returns [None] and
    logs an ERROR.  The soft success differs from the full success by its
    log record and from the failure by its result. *)
Theorem conversion_outcome_tristate self target ext frame overwrite
        target_dir (w : World FS RNG) t cmd rc fs' :
  truthy self.(basename) = true ->
  derive_target repr_list self target ext target_dir = Ok t ->
  (overwrite = true \/ path_exists w.(fs) t = false) ->
  derive_cmd globals repr_list self target frame t = Some (Ok cmd) ->
  subprocess_run w.(fs) cmd (derive_timeout cmd) = (rc, fs') ->
  let w' := mkWorld fs' w.(rng) w.(log) (w.(calls) ++ [cmd]) in
  let d := derive_ self target ext frame overwrite target_dir w in
  let code c := lit " (CODE: " ++ str_of_atom (AInt c) ++ lit ")" in
  let soft c :=
    logger WARNING (lit "Conversion error for command: " ++ cmd ++ code c)
           w' in
  (rc = Some 0%Z -> d = (Ok (Some t), w'))
  /\ (forall c, rc = Some c -> c <> 0%Z -> path_isfile fs' t = true ->
      d = (Ok (Some t), soft c))
  /\ (forall c, rc = Some c -> c <> 0%Z -> path_isfile fs' t = false ->
      d = (Ok None,
           logger ERROR
             (lit "Conversion failed for command: " ++ cmd ++ code c) w'))
  /\ (rc = None ->
      d = (Ok None, logger ERROR (lit "Process timed out: " ++ target) w'))
  /\ (forall c, (Ok (Some t), soft c) <> (Ok (Some t), w')
                /\ @Ok (option str) (Some t) <> Ok None).
Proof.
  intros Hb Ht Hov Hcmd Hrun w' d code soft.
  assert (Hd := derive_runs self target ext frame overwrite target_dir
                  w t cmd Hb Ht Hov Hcmd).
  unfold run in Hd. rewrite Hrun in Hd. fold w' in Hd. fold d in Hd.
  split; [|split; [|split; [|split]]].
  - intros ->. exact Hd.
  - intros c -> Hc Hf. rewrite Hd.
    apply Z.eqb_neq in Hc. rewrite Hc. simpl fs. rewrite Hf. reflexivity.
  - intros c -> Hc Hf. rewrite Hd.
    apply Z.eqb_neq in Hc. rewrite Hc. simpl fs. rewrite Hf. reflexivity.
  - intros ->. exact Hd.
  - intros c. split; [|discriminate].
    intros H. apply (f_equal snd) in H. exact (log_append_neq _ _ _ H).
Qed.


End DeriveFacts.

Lemma conversion_outcome_tristate_witness :
  let sh := Disk.shell (Some 1%Z) [Sample.plain_text_pdf] in
  let d := Sample.derive_pdf sh (Sample.world Disk.empty) in
  fst d = Ok (Some Sample.plain_text_pdf)
  /\ map lg_level (log (snd d)) = [WARNING]
  /\ length (calls (snd d)) = 1.
Proof.
  intros sh d.
  destruct (conversion_outcome_tristate
              Disk.exists_ Disk.isfile sh Sample.globals Sample.repr_list
              Sample.plain_text (lit "DF_PDF_HTML") (lit "pdf") PNone false
              None (Sample.world Disk.empty) Sample.plain_text_pdf
              _ _ _ eq_refl eq_refl (or_intror eq_refl) eq_refl eq_refl)
    as (_ & Hsoft & _).
  specialize (Hsoft 1%Z eq_refl ltac:(discriminate) eq_refl).
  unfold d, Sample.derive_pdf. rewrite Hsoft.
  repeat split; reflexivity.
Defined.



(** ** Searching and splitting *)

Lemma startswith_app (p s : str) : Py.startswith p (p ++ s) = true.
Proof.
  induction p as [|c p IH]; simpl; [reflexivity|].
  rewrite Ascii.eqb_refl, IH. reflexivity.
Qed.

Lemma startswith_true (p s : str) :
  Py.startswith p s = true -> s = p ++ skipn (length p) s.
Proof.
  revert s; induction p as [|c p IH]; intros [|d s]; simpl;
    try reflexivity; try discriminate.
  rewrite andb_true_iff, Ascii.eqb_eq. intros [-> H].
  f_equal. apply IH, H.
Qed.

Lemma startswith_nil_r (p : str) : p <> [] -> Py.startswith p [] = false.
Proof. destruct p; [congruence | reflexivity]. Qed.

(** [find] returns the leftmost position where [sub] starts. *)
Lemma find_Some (sub s : str) (i : nat) :
  Py.find sub s = Some i ->
  Py.startswith sub (skipn i s) = true
  /\ i + length sub <= length s
  /\ forall j, j < i -> Py.startswith sub (skipn j s) = false.
Proof.
  revert i; induction s as [|c s IH]; intros i; cbn [Py.find].
  - destruct (Py.startswith sub []) eqn:E; [|discriminate].
    intros [= <-]. simpl. split; [exact E|]. split; [|lia].
    apply startswith_true in E. rewrite skipn_nil, app_nil_r in E.
    rewrite <- E. simpl. lia.
  - destruct (Py.startswith sub (c :: s)) eqn:E.
    + intros [= <-]. simpl skipn. split; [exact E|]. split; [|lia].
      apply startswith_true in E. apply (f_equal (@length _)) in E.
      rewrite length_app in E. simpl in *. lia.
    + destruct (Py.find sub s) as [k|] eqn:F; [|discriminate].
      intros [= <-]. destruct (IH k eq_refl) as (H1 & H2 & H3).
      simpl. split; [exact H1|]. split; [lia|].
      intros [|j] Hj; [exact E|]. simpl. apply H3. lia.
Qed.

Lemma find_None (sub s : str) :
  Py.find sub s = None -> forall j, Py.startswith sub (skipn j s) = false.
Proof.
  induction s as [|c s IH]; cbn [Py.find].
  - destruct (Py.startswith sub []) eqn:E; [discriminate|].
    intros _ j. rewrite skipn_nil. exact E.
  - destruct (Py.startswith sub (c :: s)) eqn:E; [discriminate|].
    destruct (Py.find sub s) eqn:F; [discriminate|].
    intros _ [|j]; [exact E|]. simpl. apply IH. reflexivity.
Qed.

Lemma split_fuel_not_nil (n : nat) (sep s : str) :
  Py.split_fuel n sep s <> [].
Proof.
  destruct n; simpl; [discriminate|].
  destruct (Py.find sep s); discriminate.
Qed.

(** [length s] cuts are enough: more fuel changes nothing. *)
Lemma split_fuel_enough (sep : str) :
  sep <> [] ->
  forall n s, length s <= n ->
              Py.split_fuel n sep s = Py.split_fuel (length s) sep s.
Proof.
  intros Hsep n. induction n as [n IH] using lt_wf_ind. intros s Hn.
  destruct n as [|n].
  - assert (length s = 0) as -> by lia. reflexivity.
  - simpl. destruct (Py.find sep s) as [i|] eqn:F.
    + destruct (find_Some _ _ _ F) as (_ & Hi & _).
      assert (Hl : 0 < length sep) by (destruct sep; simpl; [congruence|lia]).
      destruct (length s) as [|m] eqn:Em; [lia|].
      simpl. rewrite F. f_equal.
      assert (Hr : length (skipn (i + length sep) s) <= m)
        by (rewrite length_skipn; lia).
      assert (Hr' : length (skipn (i + length sep) s) <= n) by lia.
      rewrite (IH n (Nat.lt_succ_diag_r n) _ Hr').
      rewrite (IH m ltac:(lia) _ Hr). reflexivity.
    + destruct (length s); simpl; [reflexivity|]. rewrite F. reflexivity.
Qed.

(** What [split] yields when the separator is found: two pieces exactly
    when it does not occur again behind its leftmost occurrence. *)
Lemma split_found (sep s : str) (i : nat) :
  sep <> [] ->
  Py.find sep s = Some i ->
  let rest := skipn (i + length sep) s in
  (Py.contains sep rest = false ->
   Py.split sep s = Ok [firstn i s; rest])
  /\ (Py.contains sep rest = true ->
      exists a b c l, Py.split sep s = Ok (a :: b :: c :: l)).
Proof.
  intros Hsep F rest.
  destruct (find_Some _ _ _ F) as (_ & Hi & _).
  assert (Hl : 0 < length sep) by (destruct sep; simpl; [congruence|lia]).
  assert (Es : Py.split sep s = Ok (Py.split_fuel (length s) sep s))
    by (unfold Py.split; destruct sep; [congruence | reflexivity]).
  rewrite Es. clear Es.
  assert (Hr : length rest < length s)
    by (unfold rest; rewrite length_skipn; lia).
  destruct (length s) as [|m] eqn:Em; [lia|].
  cbn [Py.split_fuel]. rewrite F. fold rest.
  assert (Hr' : length rest <= m) by lia. clear Hr. rename Hr' into Hr.
  rewrite (split_fuel_enough sep Hsep m rest Hr).
  unfold Py.contains. split.
  - destruct (Py.find sep rest) eqn:F2; [discriminate|]. intros _.
    destruct (length rest); simpl; [reflexivity|]. rewrite F2. reflexivity.
  - destruct (Py.find sep rest) as [j|] eqn:F2; [|discriminate]. intros _.
    destruct (find_Some _ _ _ F2) as (_ & Hj & _).
    destruct (length rest) as [|k] eqn:Ek; [lia|].
    cbn [Py.split_fuel]. rewrite F2.
    destruct (Py.split_fuel k sep _) as [|x l] eqn:E3;
      [exact (False_ind _ (split_fuel_not_nil _ _ _ E3))|].
    exists (firstn i s), (firstn j rest), x, l. reflexivity.
Qed.

(** ** Decomposition of a filename *)

Lemma find_contains (sub s : str) (i : nat) :
  Py.find sub s = Some i -> Py.contains sub s = true.
Proof. unfold Py.contains. intros ->. reflexivity. Qed.

Lemma set_identifier_same (self : File) :
  set_identifier self.(identifier) self = self.
Proof. destruct self; reflexivity. Qed.

Lemma truthy_PStr (s : str) : s <> [] -> truthy (PStr s) = true.
Proof. destruct s; [congruence | reflexivity]. Qed.

(** With the identifier found at [i], [get_filename_parts] raises exactly
    when the identifier occurs again behind that occurrence. *)
Lemma get_filename_parts_split (self : File) (id : str) (i : nat) :
  self.(identifier) = PStr id -> id <> [] ->
  Py.find id self.(filename) = Some i ->
  let rest := skipn (i + length id) self.(filename) in
  (Py.contains id rest = true -> get_filename_parts self = Raise ValueError)
  /\ (Py.contains id rest = false ->
      exists f, get_filename_parts self = Ok f
                /\ f.(ext) = PStr (Py.strip_chars ["."%char] rest)
                /\ f.(identifier) = PStr id
                /\ f.(filename) = self.(filename)).
Proof.
  intros Hid Hne F rest. unfold get_filename_parts.
  rewrite Hid, (truthy_PStr id Hne). cbn [as_str bind].
  rewrite (find_contains _ _ _ F).
  destruct (split_found id self.(filename) i Hne F) as [H2 H3].
  fold rest in H2, H3. split.
  - intros Hc. destruct (H3 Hc) as (a & b & c & l & ->). reflexivity.
  - intros Hc. rewrite (H2 Hc). cbn [bind].
    destruct (Py.split1 "." _) as [|b [|f [|x l]]]; eexists;
      (split; [reflexivity|]); destruct self; simpl in *; auto.
Qed.

(** ** Scanning for the identifier *)

Lemma match_prefix_length (p : Re.pattern) (s : str) :
  Re.match_prefix p s = true -> length p <= length s.
Proof.
  revert s; induction p as [|k p IH]; intros [|c s]; simpl;
    try lia; try discriminate.
  rewrite andb_true_iff. intros [_ H]. apply IH in H. lia.
Qed.

Lemma match_prefix_firstn (p : Re.pattern) (s : str) :
  Re.match_prefix p (firstn (length p) s) = Re.match_prefix p s.
Proof.
  revert s; induction p as [|k p IH]; intros [|c s]; simpl; try reflexivity.
  rewrite IH. reflexivity.
Qed.

(** Two patterns whose classes agree on the characters of [s] match the
    same prefixes of [s]. *)
Lemma match_prefix_ext (p q : Re.pattern) (s : str) :
  Forall2 (fun k k' => forall c, In c s -> k c = k' c) p q ->
  Re.match_prefix p s = Re.match_prefix q s.
Proof.
  revert q s. induction p as [|k p IH]; intros q s H;
    inversion H as [|k0 k' p0 q' Hk Hr]; subst; [reflexivity|].
  destruct s as [|c s]; simpl; [reflexivity|].
  rewrite (Hk c (or_introl eq_refl)). f_equal. apply IH.
  eapply Forall2_impl; [|exact Hr]. simpl. intros a b Hab c0 Hc0.
  apply Hab. right. exact Hc0.
Qed.

Lemma findall_from_ext (p q : Re.pattern) :
  length p = length q ->
  forall s skip,
    Forall2 (fun k k' => forall c, In c s -> k c = k' c) p q ->
    Re.findall_from p skip s = Re.findall_from q skip s.
Proof.
  intros Hl s. induction s as [|c s IH]; intros skip H; [reflexivity|].
  assert (Hs : Forall2 (fun k k' => forall c0, In c0 s -> k c0 = k' c0) p q).
  { eapply Forall2_impl; [|exact H]. simpl. intros a b Hab c0 Hc0.
    apply Hab. right. exact Hc0. }
  cbn [Re.findall_from]. destruct skip as [|k]; [|apply IH, Hs].
  rewrite (match_prefix_ext p q (c :: s) H), Hl.
  destruct (Re.match_prefix q (c :: s)); [f_equal|]; apply IH, Hs.
Qed.

Lemma last_item_cons {A} (a x : A) (l : list A) :
  last_item (a :: x :: l) = last_item (x :: l).
Proof.
  unfold last_item. simpl. destruct (rev l) as [|y r]; reflexivity.
Qed.

(** Nothing found behind [skip] means no match behind [skip]. *)
Lemma findall_from_nil (p : Re.pattern) :
  p <> [] ->
  forall s skip,
    Re.findall_from p skip s = [] ->
    forall j, skip <= j -> Re.match_prefix p (skipn j s) = false.
Proof.
  intros Hp s. induction s as [|c s IH]; intros skip H j Hj.
  - rewrite skipn_nil. destruct p; [congruence | reflexivity].
  - cbn [Re.findall_from] in H. destruct skip as [|k].
    + destruct (Re.match_prefix p (c :: s)) eqn:E; [discriminate|].
      destruct j as [|j]; [exact E|]. simpl. apply (IH 0 H). lia.
    + destruct j as [|j]; [lia|]. simpl. apply (IH k H). lia.
Qed.

(** The last match found is a match at some position [k], and there is no
    match at or behind its end. *)
Lemma findall_from_last (p : Re.pattern) :
  p <> [] ->
  forall s skip m,
    last_item (Re.findall_from p skip s) = Ok m ->
    exists k,
      skip <= k
      /\ m = firstn (length p) (skipn k s)
      /\ Re.match_prefix p (skipn k s) = true
      /\ forall j, k + length p <= j -> Re.match_prefix p (skipn j s) = false.
Proof.
  intros Hp.
  assert (Hlen : 0 < length p) by (destruct p; simpl; [congruence | lia]).
  intros s. induction s as [|c s IH]; intros skip m H; [discriminate|].
  cbn [Re.findall_from] in H. destruct skip as [|sk].
  - destruct (Re.match_prefix p (c :: s)) eqn:E.
    + destruct (Re.findall_from p (length p - 1) s) as [|x l] eqn:F.
      * injection H as <-. exists 0. simpl skipn.
        split; [lia|]. split; [reflexivity|]. split; [exact E|].
        intros [|j] Hj; [lia|]. simpl.
        apply (findall_from_nil p Hp s _ F). lia.
      * rewrite last_item_cons, <- F in H. rename H into H'. destruct (IH _ _ H') as (k & Hk & -> & Hm & Hno).
        exists (S k). simpl skipn.
        split; [lia|]. split; [reflexivity|]. split; [exact Hm|].
        intros [|j] Hj; [lia|]. simpl. apply Hno. lia.
    + destruct (IH _ _ H) as (k & Hk & -> & Hm & Hno).
      exists (S k). simpl skipn.
      split; [lia|]. split; [reflexivity|]. split; [exact Hm|].
      intros [|j] Hj; [lia|]. simpl. apply Hno. lia.
  - destruct (IH _ _ H) as (k & Hk & -> & Hm & Hno).
    exists (S k). simpl skipn.
    split; [lia|]. split; [reflexivity|]. split; [exact Hm|].
    intros [|j] Hj; [lia|]. simpl. apply Hno. lia.
Qed.

(** The class [[0-F]] under [re.I] is the hexadecimal digits together
    with the seven characters from [:] to [@]. *)
Lemma range_0_F (c : ascii) :
  Re.range_ignorecase "0" "F" c = hexdigit c || Py.in_range ":" "@" c.
Proof.
  destruct c as [[] [] [] [] [] [] [] []]; vm_compute; reflexivity.
Qed.

Lemma RE_UUID_hex (s : str) :
  (forall c, In c s -> Py.in_range ":" "@" c = false) ->
  Forall2 (fun k k' => forall c, In c s -> k c = k' c) RE_UUID HEX_UUID.
Proof.
  intros Hs.
  assert (Hh : forall c, In c s -> Re.range_ignorecase "0" "F" c = hexdigit c).
  { intros c Hc. rewrite range_0_F, (Hs c Hc). apply orb_false_r. }
  unfold RE_UUID, HEX_UUID. cbv [repeat app].
  repeat (constructor; [first [exact Hh | intros; reflexivity]|]).
  constructor.
Qed.

Section IdentifierFacts.

Context {FS RNG : Type}.
Variable uuid4 : RNG -> str * RNG.

(** C8 (amended). Identifier recognition.  An identifier that is already
    set is returned unchanged, without a scan.  Otherwise, on a filename
    with none of the characters [: ; < = > ? @], [get_uuid] scans the
    filename from the left for non-overlapping matches of the hexadecimal
    8-4-4-4-12 pattern: when there is one, it stores and returns the last
    match found, which is a substring matching the pattern with no match
    starting at or behind its end; when no substring matches, it stores and
    returns the UUID drawn from the random source. *)
Theorem get_uuid_recognition (self : File) (w : World FS RNG) :
  (truthy self.(identifier) = true ->
   get_uuid uuid4 self w = (self.(identifier), self, w))
  /\ (truthy self.(identifier) = false ->
      (forall c, In c self.(filename) -> Py.in_range ":" "@" c = false) ->
      match last_item (Re.findall HEX_UUID self.(filename)) with
      | Ok m =>
          get_uuid uuid4 self w = (PStr m, set_identifier (PStr m) self, w)
          /\ exists k,
              m = firstn 36 (skipn k self.(filename))
              /\ Re.match_prefix HEX_UUID m = true
              /\ forall j, k + 36 <= j ->
                   Re.match_prefix HEX_UUID (skipn j self.(filename)) = false
      | Raise _ =>
          (forall j, Re.match_prefix HEX_UUID (skipn j self.(filename)) = false)
          /\ get_uuid uuid4 self w
             = (PStr (fst (uuid4 w.(rng))),
                set_identifier (PStr (fst (uuid4 w.(rng)))) self,
                mkWorld w.(fs) (snd (uuid4 w.(rng))) w.(log) w.(calls))
      end).
Proof.
  split.
  - intros Ht. unfold get_uuid. rewrite Ht. reflexivity.
  - intros Ht Hs. unfold get_uuid. rewrite Ht. simpl negb. cbv iota.
    unfold Re.findall.
    rewrite (findall_from_ext RE_UUID HEX_UUID eq_refl _ 0
               (RE_UUID_hex _ Hs)).
    assert (Hp : HEX_UUID <> []) by discriminate.
    destruct (last_item (Re.findall_from HEX_UUID 0 (filename self)))
      as [m|e] eqn:L.
    + split; [reflexivity|].
      destruct (findall_from_last HEX_UUID Hp _ _ _ L) as (k & _ & Hm & Hk & Hno).
      exists k. split; [exact Hm|]. split; [|exact Hno].
      rewrite Hm. change 36 with (length HEX_UUID).
      rewrite match_prefix_firstn. exact Hk.
    + split.
      * intros j. apply (findall_from_nil HEX_UUID Hp _ 0); [|lia].
        revert L. unfold last_item.
        destruct (Re.findall_from HEX_UUID 0 (filename self)) as [|x l];
          [reflexivity|].
        simpl. destruct (rev l); discriminate.
      * unfold _generate_uuid. destruct (uuid4 (rng w)) as [u r].
        reflexivity.
Qed.

End IdentifierFacts.

Lemma get_uuid_recognition_witness :
  get_uuid Disk.uuid4
    (new_File (lit "data/spam.48342ee3-9080-407e-9862-12ce05143499.txt"))
    (mkWorld Disk.empty [] [] [])
  = (PStr Names.uuid,
     set_identifier (PStr Names.uuid)
       (new_File (lit "data/spam.48342ee3-9080-407e-9862-12ce05143499.txt")),
     mkWorld Disk.empty [] [] []).
Proof.
  pose proof (proj2 (get_uuid_recognition Disk.uuid4
    (new_File (lit "data/spam.48342ee3-9080-407e-9862-12ce05143499.txt"))
    (mkWorld Disk.empty [] [] [])) eq_refl) as H.
  assert (Hs : forall c,
             In c (lit "data/spam.48342ee3-9080-407e-9862-12ce05143499.txt") ->
             Py.in_range ":" "@" c = false).
  { intros c Hc. vm_compute in Hc.
    repeat (destruct Hc as [<- | Hc]; [reflexivity|]). destruct Hc. }
  specialize (H Hs). exact (proj1 H).
Defined.

(** C8, as stated, fails: in this name the last substring matching the
    hexadecimal pattern starts at position 28, overlapping the match at
    position 0, and [get_uuid] returns the match at position 0. *)
Lemma get_uuid_last_substring_counterexample :
  let fn := lit "00000000-0000-0000-0000-000011111111-2222-2222-2222-222222222222" in
  Re.last_match HEX_UUID fn
  = Some (lit "11111111-2222-2222-2222-222222222222")
  /\ fst (fst (get_uuid Disk.uuid4 (new_File fn) (mkWorld Disk.empty [] [] [])))
     = PStr (lit "00000000-0000-0000-0000-000011111111")
  /\ lit "00000000-0000-0000-0000-000011111111"
     <> lit "11111111-2222-2222-2222-222222222222".
Proof.
  repeat split; try (vm_compute; reflexivity). vm_compute. discriminate.
Qed.

Section DecompositionFacts.

Context {FS RNG : Type}.
Variable path_exists : FS -> str -> bool.
Variable read_text : FS -> str -> str.
Variable get_root : FS -> str -> option str.
Variable chdir : FS -> str -> FS.
Variable relative_to : FS -> str -> str -> result str.
Variable uuid4 : RNG -> str * RNG.

Let load_file_ := load_file path_exists read_text get_root chdir relative_to
                            uuid4.

(** C10 (amended). Decomposition is partial on repeated identifiers.  Let
    the identifier of a File be set and occur in its filename, leftmost at
    position [i].  When it occurs again in what follows that occurrence
    (a second occurrence that does not overlap the first),
    [get_filename_parts] raises [ValueError], and so do [tag] and, for a
    path whose bag-relative name is this filename and whose scanned
    identifier is this one, [load_file].  When it does not occur again
    there, [get_filename_parts] and [tag] succeed. *)
Theorem decomposition_repeated_identifier (self : File) (id : str) (i : nat) :
  self.(identifier) = PStr id -> id <> [] ->
  Py.find id self.(filename) = Some i ->
  let rest := skipn (i + length id) self.(filename) in
  (Py.contains id rest = true ->
   get_filename_parts self = Raise ValueError
   /\ (forall w : World FS RNG, fst (tag uuid4 self PNone w) = Raise ValueError)
   /\ (forall (w : World FS RNG) path root,
         get_root w.(fs) path = Some root ->
         relative_to (chdir w.(fs) root) path root = Ok self.(filename) ->
         last_item (Re.findall RE_UUID self.(filename)) = Ok id ->
         fst (load_file_ path w) = Raise ValueError))
  /\ (Py.contains id rest = false ->
      (exists f, get_filename_parts self = Ok f)
      /\ (forall w : World FS RNG,
            exists f, fst (tag uuid4 self PNone w) = Ok (self.(filename), f))).
Proof.
  intros Hid Hne F rest.
  destruct (get_filename_parts_split self id i Hid Hne F) as [Hbad Hgood].
  fold rest in Hbad, Hgood.
  assert (Htag : forall w : World FS RNG,
             tag uuid4 self PNone w
             = match get_filename_parts self with
               | Raise e => (Raise e, w)
               | Ok f =>
                   let f := if negb (truthy f.(format))
                            then set_format (PStr (lit "SRC")) f else f in
                   (Ok (f.(filename), f), w)
               end).
  { intros w. unfold tag, get_uuid. simpl truthy.
    rewrite Hid, (truthy_PStr id Hne). reflexivity. }
  split.
  - intros Hc. specialize (Hbad Hc). split; [exact Hbad|]. split.
    + intros w. rewrite Htag, Hbad. reflexivity.
    + intros w path root Hroot Hrel Hscan.
      unfold load_file_, load_file. rewrite Hroot. simpl fs. rewrite Hrel.
      unfold get_uuid. cbn [new_File identifier filename truthy negb].
      rewrite Hscan. cbn [set_identifier identifier new_File as_str filename].
      rewrite (find_contains _ _ _ F). simpl negb. cbv iota.
      assert (E : get_filename_parts
                    (set_identifier (PStr id) (new_File (filename self)))
                  = Raise ValueError).
      { destruct (get_filename_parts_split
                    (set_identifier (PStr id) (new_File (filename self)))
                    id i eq_refl Hne F) as [Hb _].
        apply Hb. exact Hc. }
      rewrite E. reflexivity.
  - intros Hc. destruct (Hgood Hc) as (f & Hf & _ & _ & Hfn).
    split; [exists f; exact Hf|].
    intros w. rewrite Htag, Hf. cbv zeta.
    destruct (negb (truthy (format f))); eexists; simpl; rewrite Hfn;
      reflexivity.
Qed.

End DecompositionFacts.

Lemma decomposition_repeated_identifier_witness :
  get_filename_parts (set_identifier (PStr Names.uuid) (new_File Names.doubled))
  = Raise ValueError
  /\ fst (Names.load Disk.empty Names.doubled) = Raise ValueError.
Proof.
  destruct (decomposition_repeated_identifier
              Disk.exists_ Disk.read Disk.get_root Disk.chdir
              Disk.relative_to Disk.uuid4
              (set_identifier (PStr Names.uuid) (new_File Names.doubled))
              Names.uuid 7 eq_refl ltac:(discriminate) eq_refl)
    as [Hbad _].
  destruct (Hbad eq_refl) as (H1 & _ & H3).
  split; [exact H1|].
  exact (H3 (mkWorld Disk.empty [] [] []) Names.doubled (lit "/bag")
            eq_refl eq_refl eq_refl).
Defined.

(** C10, as stated, fails: the identifier occurs at two (overlapping)
    places of this filename, and [get_filename_parts] does not raise. *)
Lemma decomposition_overlap_counterexample :
  let self := set_identifier (PStr Names.zeros) (new_File Names.overlapping) in
  ~ (1 < length (Py.occurrences Names.zeros Names.overlapping) ->
     get_filename_parts self = Raise ValueError).
Proof.
  intros self H.
  assert (E : 1 < length (Py.occurrences Names.zeros Names.overlapping))
    by (vm_compute; lia).
  specialize (H E). vm_compute in H. discriminate.
Qed.

(** ** Loading a file and its sidecar *)

(** The four keys of the guard are never taken from the sidecar. *)
Lemma overlay_path_fields (tags : dict) (f : File) :
  (overlay f tags).(filename) = f.(filename)
  /\ (overlay f tags).(basename) = f.(basename)
  /\ (overlay f tags).(format) = f.(format)
  /\ (overlay f tags).(ext) = f.(ext).
Proof.
  unfold overlay. revert f. induction tags as [|[k v] tags IH]; intros f;
    [repeat split|].
  cbn [fold_left fst snd].
  destruct (str_in k path_keys) eqn:E; [apply IH|].
  destruct (IH (setattr f k v)) as (H1 & H2 & H3 & H4).
  rewrite H1, H2, H3, H4. clear IH H1 H2 H3 H4.
  unfold str_in, path_keys in E. simpl in E.
  repeat rewrite orb_false_iff in E.
  destruct E as (E1 & E2 & E3 & E4 & _).
  unfold setattr. rewrite E1, E2, E3, E4.
  repeat match goal with
         | |- context [if ?b then _ else _] => destruct b
         end; repeat split; reflexivity.
Qed.

(** C6: [load_file] takes [identifier] from the sidecar.  The name on disk
    carries the identifier 48342ee3-..., the sidecar records
    11111111-...: the loaded File has the sidecar's identifier, while its
    basename still comes from the name. *)
Theorem load_file_identifier_overridden :
  exists f,
    fst (Names.load Names.spam_disk Names.spam) = Ok (Some f)
    /\ Re.findall RE_UUID Names.spam = [Names.uuid]
    /\ f.(identifier) = PStr (lit "11111111-1111-1111-1111-111111111111")
    /\ f.(identifier) <> PStr Names.uuid
    /\ f.(filename) = Names.spam
    /\ f.(basename) = PStr (lit "data/spam")
    /\ f.(format) = PStr (lit "SRC")
    /\ f.(ext) = PStr (lit "txt")
    /\ f.(size) = PStr (lit "12").
Proof.
  eexists. split; [vm_compute; reflexivity|].
  repeat split; try (vm_compute; reflexivity). vm_compute. discriminate.
Qed.

(** ** Null values in [_make_tags] *)

Lemma header_tags_strip (h : str) (values : pyval) :
  is_None values || is_null_token values = true ->
  header_tags true h values = [].
Proof.
  unfold header_tags. simpl andb. intros ->. reflexivity.
Qed.

Lemma header_tags_None (h : str) :
  header_tags false h PNone
  = [tag_text (Py.replace_char "_" " " (Py.lower h)) ANone].
Proof. reflexivity. Qed.

(** C5: the strings ["None"] and ["null"] are dropped although
    [strip_nulls] is [False]; only the value [None] is written as the
    [None] token then. *)
Theorem make_tags_null_token_dropped :
  _make_tags [(lit "note", PStr (lit "None"))] false = []
  /\ _make_tags [(lit "note", PStr (lit "null"))] false = []
  /\ _make_tags [(lit "note", PNone)] false = lit "note: None"
  /\ _make_tags [(lit "note", PNone)] true = [].
Proof. repeat split; vm_compute; reflexivity. Qed.

(** ** Stripping *)

Lemma dropwhile_all (p : ascii -> bool) (pre s : str) :
  Forall (fun c => p c = true) pre ->
  Py.dropwhile p (pre ++ s) = Py.dropwhile p s.
Proof.
  induction 1 as [|c pre Hc _ IH]; simpl; [reflexivity|].
  rewrite Hc. exact IH.
Qed.

Lemma dropwhile_stop (p : ascii -> bool) (s : str) (d : ascii) :
  s <> [] -> p (hd d s) = false -> Py.dropwhile p s = s.
Proof.
  destruct s as [|c s]; [congruence|]. simpl. intros _ ->. reflexivity.
Qed.

Lemma hd_rev (s : str) (d : ascii) : hd d (rev s) = last s d.
Proof.
  induction s as [|c s IH]; [reflexivity|].
  simpl rev. destruct s as [|c' s]; [reflexivity|].
  change (last (c :: c' :: s) d) with (last (c' :: s) d). rewrite <- IH.
  simpl rev. destruct (rev s ++ [c']) eqn:E; [|reflexivity].
  destruct (rev s); discriminate.
Qed.

(** Stripping removes exactly the strippable characters around a core
    that neither starts nor ends with one. *)
Lemma strip_by_core (p : ascii -> bool) (pre s post : str) (d : ascii) :
  Forall (fun c => p c = true) pre ->
  Forall (fun c => p c = true) post ->
  s <> [] -> p (hd d s) = false -> p (last s d) = false ->
  Py.strip_by p (pre ++ s ++ post) = s.
Proof.
  intros Hpre Hpost Hs Hh Hl.
  unfold Py.strip_by, Py.lstrip_by, Py.rstrip_by.
  rewrite (dropwhile_all p pre _ Hpre).
  assert (E : Py.dropwhile p (s ++ post) = s ++ post).
  { destruct s as [|c s]; [congruence|]. simpl in *. rewrite Hh.
    reflexivity. }
  rewrite E, rev_app_distr.
  rewrite (dropwhile_all p (rev post)); [|apply Forall_rev, Hpost].
  rewrite (dropwhile_stop p (rev s) d).
  - apply rev_involutive.
  - intros H. apply Hs. rewrite <- (rev_involutive s), H. reflexivity.
  - rewrite hd_rev. exact Hl.
Qed.

Lemma strip_by_all (p : ascii -> bool) (s : str) :
  Forall (fun c => p c = true) s -> Py.strip_by p s = [].
Proof.
  intros H. unfold Py.strip_by, Py.lstrip_by, Py.rstrip_by.
  rewrite <- (app_nil_r s) at 1. rewrite (dropwhile_all p s [] H).
  reflexivity.
Qed.

(** ** Occurrences in dotted names *)

Lemma startswith_dot (id u v : str) :
  ~ In "."%char id ->
  Py.startswith id (u ++ "."%char :: v) = Py.startswith id u.
Proof.
  revert u. induction id as [|c id IH]; intros u Hd; [reflexivity|].
  destruct u as [|x u]; simpl.
  - destruct (Ascii.eqb_spec c "."); [|reflexivity].
    exfalso. apply Hd. left. auto.
  - rewrite IH; [reflexivity|]. intros H. apply Hd. right. exact H.
Qed.

Lemma find_dot (id u v : str) :
  id <> [] -> ~ In "."%char id ->
  Py.find id (u ++ "."%char :: v)
  = match Py.find id u with
    | Some i => Some i
    | None => option_map (fun j => length u + 1 + j) (Py.find id v)
    end.
Proof.
  intros Hne Hd. induction u as [|x u IH].
  - cbn [app Py.find]. pose proof (startswith_dot id [] v Hd) as E.
    cbn [app] in E. rewrite E, (startswith_nil_r id Hne).
    destruct (Py.find id v); reflexivity.
  - change ((x :: u) ++ "."%char :: v) with (x :: (u ++ "."%char :: v)).
    cbn [Py.find].
    change (x :: (u ++ "."%char :: v)) with ((x :: u) ++ "."%char :: v).
    rewrite (startswith_dot id (x :: u) v Hd).
    destruct (Py.startswith id (x :: u)); [reflexivity|].
    rewrite IH. destruct (Py.find id u); [reflexivity|].
    destruct (Py.find id v); reflexivity.
Qed.

Lemma contains_false_find (sub s : str) :
  Py.contains sub s = false -> Py.find sub s = None.
Proof. unfold Py.contains. destruct (Py.find sub s); congruence. Qed.

Lemma find_nil_r (id : str) : id <> [] -> Py.find id [] = None.
Proof. intros H. simpl. rewrite (startswith_nil_r id H). reflexivity. Qed.

(** The identifier behind a stem that does not hold it is found right
    after the stem's dot, and not again before the next dot. *)
Lemma find_after_stem (id stem y : str) :
  id <> [] -> ~ In "."%char id ->
  Py.contains id stem = false ->
  Py.find id (stem ++ "."%char :: id ++ y) = Some (length stem + 1).
Proof.
  intros Hne Hd Hc. rewrite (find_dot id stem _ Hne Hd).
  rewrite (contains_false_find _ _ Hc).
  assert (E : Py.find id (id ++ y) = Some 0).
  { destruct id as [|c id]; [congruence|].
    cbn [app Py.find].
    change (c :: id ++ y) with ((c :: id) ++ y).
    rewrite startswith_app. reflexivity. }
  rewrite E. simpl. f_equal. lia.
Qed.

Lemma find_char_fresh (c : ascii) (b f : str) :
  ~ In c b -> Py.find [c] (b ++ c :: f) = Some (length b).
Proof.
  induction b as [|x b IH]; intros Hb.
  - simpl. rewrite Ascii.eqb_refl. reflexivity.
  - simpl. destruct (Ascii.eqb_spec c x) as [->|Hx].
    + exfalso. apply Hb. left. reflexivity.
    + simpl. simpl in IH. rewrite IH; [reflexivity|].
      intros H. apply Hb. right. exact H.
Qed.

Lemma find_char_none (c : ascii) (b : str) :
  ~ In c b -> Py.find [c] b = None.
Proof.
  induction b as [|x b IH]; intros Hb; [reflexivity|].
  simpl. destruct (Ascii.eqb_spec c x) as [->|Hx].
  - exfalso. apply Hb. left. reflexivity.
  - simpl. simpl in IH. rewrite IH; [reflexivity|].
    intros H. apply Hb. right. exact H.
Qed.

Lemma firstn_length_app {A} (b r : list A) : firstn (length b) (b ++ r) = b.
Proof. induction b as [|x b IH]; simpl; [reflexivity | rewrite IH]; auto. Qed.

Lemma skipn_length_app {A} (b r : list A) (n : nat) :
  skipn (length b + n) (b ++ r) = skipn n r.
Proof. induction b as [|x b IH]; simpl; auto. Qed.

Lemma split1_fresh (c : ascii) (b f : str) :
  ~ In c b -> Py.split1 c (b ++ c :: f) = [b; f].
Proof.
  intros Hb. unfold Py.split1. rewrite (find_char_fresh c b f Hb).
  rewrite firstn_length_app.
  change (S (length b)) with (1 + length b). rewrite Nat.add_comm.
  rewrite (skipn_length_app b (c :: f) 1). reflexivity.
Qed.

Lemma split1_none (c : ascii) (b : str) :
  ~ In c b -> Py.split1 c b = [b].
Proof.
  intros Hb. unfold Py.split1. rewrite (find_char_none c b Hb). reflexivity.
Qed.

Lemma mem_dot (c : ascii) : Py.mem c ["."%char] = Ascii.eqb c ".".
Proof. unfold Py.mem. simpl. apply orb_false_r. Qed.

Lemma not_dot (c : ascii) : c <> "."%char -> Py.mem c ["."%char] = false.
Proof. intros H. rewrite mem_dot. apply Ascii.eqb_neq. exact H. Qed.

(** Decomposition of [stem.id.e]: the stem is what precedes the
    identifier, the extension what follows it. *)
Lemma get_filename_parts_stem (self : File) (stem id e : str) :
  self.(identifier) = PStr id ->
  id <> [] -> ~ In "."%char id ->
  Py.contains id stem = false -> Py.contains id e = false ->
  stem <> [] -> hd "."%char stem <> "."%char -> last stem "."%char <> "."%char ->
  e <> [] -> hd "."%char e <> "."%char -> last e "."%char <> "."%char ->
  self.(filename) = stem ++ "."%char :: id ++ "."%char :: e ->
  get_filename_parts self
  = Ok (let self' := set_ext (PStr e) self in
        match Py.split1 "." stem with
        | [b; f] => set_format (PStr f) (set_basename (PStr b) self')
        | _ => set_basename (PStr stem) (set_format PNone self')
        end).
Proof.
  intros Hid Hne Hd Hcs Hce Hs Hsh Hsl He Heh Hel Hfn.
  assert (F : Py.find id self.(filename) = Some (length stem + 1))
    by (rewrite Hfn; apply find_after_stem; assumption).
  assert (Hrest : skipn (length stem + 1 + length id) self.(filename)
                  = "."%char :: e).
  { rewrite Hfn. rewrite <- Nat.add_assoc.
    rewrite (skipn_length_app stem _ (1 + length id)).
    simpl skipn. rewrite <- (Nat.add_0_r (length id)).
    rewrite (skipn_length_app id _ 0). reflexivity. }
  assert (Hfirst : firstn (length stem + 1) self.(filename)
                   = stem ++ ["."%char]).
  { rewrite Hfn.
    change (stem ++ "."%char :: id ++ "."%char :: e)
      with (stem ++ ["."%char] ++ (id ++ "."%char :: e)).
    rewrite app_assoc.
    replace (length stem + 1) with (length (stem ++ ["."%char]))
      by (rewrite length_app; reflexivity).
    apply firstn_length_app. }
  assert (Hc : Py.contains id ("."%char :: e) = false).
  { unfold Py.contains. pose proof (find_dot id [] e Hne Hd) as E.
    cbn [app] in E. rewrite E, (find_nil_r id Hne).
    rewrite (contains_false_find _ _ Hce). reflexivity. }
  destruct (split_found id self.(filename) _ Hne F) as [H2 _].
  rewrite Hrest in H2. specialize (H2 Hc). rewrite Hfirst in H2.
  unfold get_filename_parts.
  rewrite Hid, (truthy_PStr id Hne). cbn [as_str bind].
  rewrite (find_contains _ _ _ F), H2. cbn [bind].
  assert (E1 : Py.strip_chars ["."%char] (stem ++ ["."%char]) = stem).
  { unfold Py.strip_chars.
    apply (strip_by_core _ [] stem ["."%char] "."%char);
      try (repeat constructor); auto using not_dot. }
  assert (E2 : Py.strip_chars ["."%char] ("."%char :: e) = e).
  { unfold Py.strip_chars.
    pose proof (strip_by_core (fun c => Py.mem c ["."%char])
                  ["."%char] e [] "."%char) as E.
    rewrite app_nil_r in E. apply E;
      try (repeat constructor); auto using not_dot. }
  rewrite E1, E2. cbv zeta.
  destruct (Py.split1 "." stem) as [|b [|f [|x l]]]; reflexivity.
Qed.

Lemma last_app_cons {A} (l r : list A) (x d : A) :
  last (l ++ x :: r) d = last (x :: r) d.
Proof.
  induction l as [|y l IH]; [reflexivity|].
  change ((y :: l) ++ x :: r) with (y :: (l ++ x :: r)).
  destruct (l ++ x :: r) eqn:E; [destruct l; discriminate|].
  rewrite <- E at 1. simpl. rewrite E in *. exact IH.
Qed.

Lemma hd_not_in (c d : ascii) (s : str) :
  s <> [] -> ~ In c s -> hd d s <> c.
Proof.
  destruct s as [|x s]; [congruence|]. simpl. intros _ H E.
  apply H. left. exact E.
Qed.

Lemma last_not_in (c d : ascii) (s : str) :
  s <> [] -> ~ In c s -> last s d <> c.
Proof.
  intros Hs H E. apply H. rewrite <- E.
  destruct s as [|x s]; [congruence|].
  clear. revert x. induction s as [|y s IH]; intros x; [left; reflexivity|].
  right. apply IH.
Qed.

(** C2 (amended). Filename round-trip.  Let the basename be non-empty and
    hold no dot, the extension be non-empty and neither start nor end with
    a dot, the format be absent or non-empty and not ending with a dot, and
    the identifier be non-empty, hold no dot and occur in none of the other
    components.  Then the name [rename] composes is the components joined
    by dots, and [get_filename_parts] on that name, with the same
    identifier, recovers the basename, the format and the extension. *)
Theorem filename_roundtrip (self : File) (b id e : str) (f : option str) :
  self.(basename) = PStr b ->
  self.(identifier) = PStr id ->
  self.(ext) = PStr e ->
  self.(format) = match f with Some x => PStr x | None => PNone end ->
  b <> [] -> ~ In "."%char b -> Py.contains id b = false ->
  id <> [] -> ~ In "."%char id ->
  e <> [] -> hd "."%char e <> "."%char -> last e "."%char <> "."%char ->
  Py.contains id e = false ->
  (forall x, f = Some x ->
             x <> [] /\ last x "."%char <> "."%char
             /\ Py.contains id x = false) ->
  exists fn self',
    compose self = Ok fn
    /\ fn = Py.join ["."%char]
              (b :: match f with Some x => [x] | None => [] end ++ [id; e])
    /\ get_filename_parts (set_filename fn self) = Ok self'
    /\ self'.(basename) = PStr b
    /\ self'.(format) = self.(format)
    /\ self'.(identifier) = PStr id
    /\ self'.(ext) = PStr e
    /\ self'.(filename) = fn.
Proof.
  intros Hb Hid He Hf Hbn Hbd Hbc Hin Hidd Hen Heh Hel Hec Hfmt.
  assert (Tb := truthy_PStr b Hbn). assert (Ti := truthy_PStr id Hin).
  assert (Te := truthy_PStr e Hen).
  destruct f as [x|].
  - destruct (Hfmt x eq_refl) as (Hxn & Hxl & Hxc).
    assert (Tx := truthy_PStr x Hxn).
    exists (b ++ "."%char :: x ++ "."%char :: id ++ "."%char :: e).
    eexists. split.
    { unfold compose. rewrite Hb, Hid, He, Hf. cbn [filter].
      rewrite Tb, Ti, Te, Tx. cbn [as_strs as_str bind Py.join].
      destruct x as [|x0 x]; [congruence|].
      destruct id as [|i0 id]; [congruence|].
      destruct e as [|e0 e]; [congruence|]. reflexivity. }
    split.
    { cbn [app Py.join]. destruct x as [|x0 x]; [congruence|].
      destruct id as [|i0 id]; [congruence|].
      destruct e as [|e0 e]; [congruence|]. reflexivity. }
    assert (Hstem : Py.contains id (b ++ "."%char :: x) = false).
    { unfold Py.contains. rewrite (find_dot id b x Hin Hidd).
      rewrite (contains_false_find _ _ Hbc), (contains_false_find _ _ Hxc).
      reflexivity. }
    assert (H1 : identifier
                   (set_filename
                      (b ++ "."%char :: x ++ "."%char :: id ++ "."%char :: e)
                      self) = PStr id) by (destruct self; exact Hid).
    assert (Hsn : b ++ "."%char :: x <> []) by (destruct b; discriminate).
    assert (Hsh : hd "."%char (b ++ "."%char :: x) <> "."%char).
    { destruct b as [|b0 b]; [congruence|]. simpl. intros E.
      apply Hbd. left. auto. }
    assert (Hsl : last (b ++ "."%char :: x) "."%char <> "."%char).
    { rewrite last_app_cons. destruct x as [|x0 x]; [congruence|]. exact Hxl. }
    assert (Hfn : filename
                    (set_filename
                       (b ++ "."%char :: x ++ "."%char :: id ++ "."%char :: e)
                       self)
                  = (b ++ "."%char :: x) ++ "."%char :: id ++ "."%char :: e).
    { destruct self; simpl. rewrite <- app_assoc. reflexivity. }
    rewrite (get_filename_parts_stem _ _ id e H1 Hin Hidd Hstem Hec Hsn Hsh
               Hsl Hen Heh Hel Hfn).
    rewrite (split1_fresh "." b x Hbd). split; [reflexivity|].
    destruct self; simpl in *. subst. repeat split; reflexivity.
  - exists (b ++ "."%char :: id ++ "."%char :: e). eexists. split.
    { unfold compose. rewrite Hb, Hid, He, Hf. cbn [filter].
      rewrite Tb, Ti, Te. change (truthy PNone) with false.
      cbn [as_strs as_str bind Py.join].
      destruct id as [|i0 id]; [congruence|].
      destruct e as [|e0 e]; [congruence|]. reflexivity. }
    split.
    { cbn [app Py.join]. destruct id as [|i0 id]; [congruence|].
      destruct e as [|e0 e]; [congruence|]. reflexivity. }
    assert (H1 : identifier
                   (set_filename (b ++ "."%char :: id ++ "."%char :: e) self)
                 = PStr id) by (destruct self; exact Hid).
    assert (Hfn : filename
                    (set_filename (b ++ "."%char :: id ++ "."%char :: e) self)
                  = b ++ "."%char :: id ++ "."%char :: e)
      by (destruct self; reflexivity).
    rewrite (get_filename_parts_stem _ _ id e H1 Hin Hidd Hbc Hec Hbn
               (hd_not_in _ _ _ Hbn Hbd) (last_not_in _ _ _ Hbn Hbd)
               Hen Heh Hel Hfn).
    rewrite (split1_none "." b Hbd). split; [reflexivity|].
    destruct self; simpl in *. subst. repeat split; reflexivity.
Qed.

Ltac no_such_char :=
  let H := fresh in
  intros H; vm_compute in H;
  repeat (destruct H as [H | H]; [discriminate|]); exact H.

Lemma filename_roundtrip_witness :
  exists self',
    compose Sample.plain_text
    = Ok (lit "data/test_plain-text.sample.b3050922-520f-426e-9a9c-cfe728bd178d.rst")
    /\ get_filename_parts Sample.plain_text_renamed = Ok self'
    /\ self'.(basename) = PStr (lit "data/test_plain-text")
    /\ self'.(format) = PStr (lit "sample")
    /\ self'.(ext) = PStr (lit "rst").
Proof.
  destruct (filename_roundtrip Sample.plain_text
              (lit "data/test_plain-text")
              (lit "b3050922-520f-426e-9a9c-cfe728bd178d")
              (lit "rst") (Some (lit "sample"))
              eq_refl eq_refl eq_refl eq_refl)
    as (fn & self' & Hc & Hfn & Hg & Hb & Hf & _ & He & _).
  - discriminate.
  - no_such_char.
  - reflexivity.
  - discriminate.
  - no_such_char.
  - discriminate.
  - vm_compute. discriminate.
  - vm_compute. discriminate.
  - reflexivity.
  - intros x [= <-]. split; [discriminate|].
    split; [vm_compute; discriminate | reflexivity].
  - exists self'. rewrite Hfn in Hc, Hg.
    split; [exact Hc|]. split; [exact Hg|].
    split; [exact Hb|]. split; [exact Hf | exact He].
Defined.

(** C2, as stated, fails: with a dot in the basename, the name composed
    from (data/notes.2019, SRC, uuid, txt) decomposes into the basename
    data/notes and the format 2019.SRC. *)
Lemma filename_roundtrip_counterexample :
  ~ (exists fn self',
       compose Names.dotted = Ok fn
       /\ get_filename_parts (set_filename fn Names.dotted) = Ok self'
       /\ self'.(basename) = Names.dotted.(basename)
       /\ self'.(format) = Names.dotted.(format)
       /\ self'.(ext) = Names.dotted.(ext)).
Proof.
  intros (fn & self' & Hc & Hg & Hb & _).
  vm_compute in Hc. injection Hc as <-.
  vm_compute in Hg. injection Hg as <-.
  vm_compute in Hb. discriminate.
Qed.

(** ** More on stripping *)

Lemma dropwhile_split (p : ascii -> bool) (s : str) (d : ascii) :
  exists pre,
    s = pre ++ Py.dropwhile p s
    /\ Forall (fun c => p c = true) pre
    /\ (Py.dropwhile p s = [] \/ p (hd d (Py.dropwhile p s)) = false).
Proof.
  induction s as [|c s (pre & E & Hp & Hh)].
  - exists []. repeat split; auto.
  - simpl. destruct (p c) eqn:Pc.
    + exists (c :: pre). simpl. split; [f_equal; exact E|].
      split; [constructor; assumption | exact Hh].
    + exists []. repeat split; auto.
Qed.

(** [strip_by] removes a prefix and a suffix made of strippable
    characters, and what remains is empty or starts and ends with a
    character that is not strippable. *)
Lemma strip_by_spec (p : ascii -> bool) (s : str) (d : ascii) :
  exists pre post,
    s = pre ++ Py.strip_by p s ++ post
    /\ Forall (fun c => p c = true) pre
    /\ Forall (fun c => p c = true) post
    /\ (Py.strip_by p s = []
        \/ (p (hd d (Py.strip_by p s)) = false
            /\ p (last (Py.strip_by p s) d) = false)).
Proof.
  unfold Py.strip_by, Py.lstrip_by, Py.rstrip_by.
  destruct (dropwhile_split p s d) as (pre & E & Hpre & Hh).
  set (Y := Py.dropwhile p s) in *.
  destruct (dropwhile_split p (rev Y) d) as (post & E' & Hpost & Hh').
  set (Z := Py.dropwhile p (rev Y)) in *.
  assert (EY : Y = rev Z ++ rev post).
  { rewrite <- (rev_involutive Y), E', rev_app_distr. reflexivity. }
  exists pre, (rev post). split; [rewrite <- EY; exact E|].
  split; [exact Hpre|]. split; [apply Forall_rev, Hpost|].
  destruct Z as [|z Z'] eqn:EZ; [left; reflexivity|]. right. split.
  - assert (R : exists y r, rev (z :: Z') = y :: r).
    { simpl. destruct (rev Z'); simpl; eauto. }
    destruct R as (y & r & R). rewrite R in *.
    destruct Hh as [Hh|Hh]; rewrite EY in Hh; [discriminate | exact Hh].
  - rewrite <- hd_rev, rev_involutive.
    destruct Hh' as [Hh'|Hh']; [discriminate | exact Hh'].
Qed.

Lemma strip_by_idempotent (p : ascii -> bool) (s : str) :
  Py.strip_by p (Py.strip_by p s) = Py.strip_by p s.
Proof.
  destruct (strip_by_spec p s " "%char) as (pre & post & _ & _ & _ & H).
  destruct H as [-> | [Hh Hl]]; [reflexivity|].
  destruct (Py.strip_by p s) as [|c r] eqn:E0; [reflexivity|].
  pose proof (strip_by_core p [] (c :: r) [] " "%char) as E.
  rewrite app_nil_r in E. apply E; auto. discriminate.
Qed.

Lemma strip_by_length (p : ascii -> bool) (s : str) :
  length (Py.strip_by p s) <= length s.
Proof.
  destruct (strip_by_spec p s " "%char) as (pre & post & E & _).
  rewrite E at 2. rewrite !length_app. lia.
Qed.

Lemma strip_by_Forall (P : ascii -> Prop) (p : ascii -> bool) (s : str) :
  Forall P s -> Forall P (Py.strip_by p s).
Proof.
  destruct (strip_by_spec p s " "%char) as (pre & post & E & _).
  intros H. rewrite E in H.
  apply Forall_app in H. destruct H as [_ H].
  apply Forall_app in H. exact (proj1 H).
Qed.

Lemma Forall_firstn_keeps {A} (P : A -> Prop) (n : nat) (l : list A) :
  Forall P l -> Forall P (firstn n l).
Proof.
  intros H. rewrite <- (firstn_skipn n l) in H.
  apply Forall_app in H. exact (proj1 H).
Qed.

(** ** Slugs *)

Lemma sub_runs_Forall (Q : ascii -> Prop) (p : ascii -> bool) (rep : str) :
  Forall Q rep ->
  forall s in_run,
    Forall (fun c => p c = false -> Q c) s ->
    Forall Q (Slugify.sub_runs p rep in_run s).
Proof.
  intros Hrep s. induction s as [|c s IH]; intros in_run H; [constructor|].
  inversion H as [|c0 s0 Hc Hs]; subst. simpl.
  destruct (p c) eqn:Pc.
  - destruct in_run; [apply IH, Hs|].
    apply Forall_app. split; [exact Hrep | apply IH, Hs].
  - constructor; [apply Hc; reflexivity | apply IH, Hs].
Qed.

(** Whatever the text, the slug before truncation is made of allowed
    characters. *)
Lemma slugify_allowed (text : str) (n : nat) :
  Forall (fun c => slug_allowed c = true) (Slugify.slugify text n slug_allowed).
Proof.
  unfold Slugify.slugify.
  set (t := Slugify.cleanup_numbers _ _).
  assert (H : Forall (fun c => slug_allowed c = true)
                (Py.strip_by Slugify.is_dash
                   (Slugify.sub_runs Slugify.is_dash
                      [Slugify.DEFAULT_SEPARATOR] false
                      (Slugify.sub_runs (fun c => negb (slug_allowed c))
                         [Slugify.DEFAULT_SEPARATOR] false t)))).
  { apply strip_by_Forall. apply sub_runs_Forall; [repeat constructor|].
    eapply Forall_impl; [intros a Ha _; exact Ha|].
    apply sub_runs_Forall; [repeat constructor|].
    apply Forall_forall. intros c _ Hc.
    apply negb_false_iff in Hc. exact Hc. }
  destruct (0 <? n); [|exact H].
  unfold Slugify.smart_truncate.
  destruct (n =? 0); [apply strip_by_Forall, H|].
  destruct (_ <? n); [apply strip_by_Forall, H|].
  apply strip_by_Forall, Forall_firstn_keeps, strip_by_Forall, H.
Qed.




(** ** Wrapping: whitespace and chunks *)

Lemma whitespace_isspace (c : ascii) :
  Textwrap.whitespace c = true -> Py.isspace_char c = true.
Proof.
  destruct c as [[] [] [] [] [] [] [] []]; vm_compute; congruence.
Qed.

Lemma not_isspace_not_whitespace (c : ascii) :
  Py.isspace_char c = false -> Textwrap.whitespace c = false.
Proof.
  intros H. destruct (Textwrap.whitespace c) eqn:E; [|reflexivity].
  apply whitespace_isspace in E. congruence.
Qed.

Lemma expandtabs_tidy (s : str) (col : nat) :
  tidy s -> Textwrap.expandtabs col s = s.
Proof.
  intros H. revert col. induction H as [|c s Hc Hs IH]; intros col;
    [reflexivity|].
  simpl. destruct (Ascii.eqb_spec c Textwrap.TAB) as [->|_].
  - specialize (Hc eq_refl). discriminate.
  - rewrite IH. reflexivity.
Qed.

Lemma munge_whitespace_tidy (s : str) :
  tidy s -> Textwrap.munge_whitespace s = s.
Proof.
  intros H. unfold Textwrap.munge_whitespace.
  rewrite (expandtabs_tidy s 0 H).
  induction H as [|c s Hc Hs IH]; [reflexivity|].
  simpl. rewrite IH. destruct (Textwrap.whitespace c) eqn:E;
    [rewrite (Hc eq_refl)|]; reflexivity.
Qed.

Lemma split_chunks_hd (c : ascii) (t : str) :
  exists w r, Textwrap.split_chunks (c :: t) = (c :: w) :: r.
Proof.
  simpl. destruct (Textwrap.split_chunks t) as [|[|d w] r]; eauto.
  destruct (Bool.eqb _ _); eauto.
Qed.

Lemma concat_split_chunks (s : str) : concat (Textwrap.split_chunks s) = s.
Proof.
  induction s as [|c s IH]; [reflexivity|].
  simpl. destruct (Textwrap.split_chunks s) as [|[|d w] r] eqn:E.
  - simpl in *. subst. reflexivity.
  - destruct s as [|d s']; [reflexivity|].
    destruct (split_chunks_hd d s') as (w & r' & E'). congruence.
  - destruct (Bool.eqb _ _); simpl in *; rewrite IH; reflexivity.
Qed.

Lemma split_chunks_not_nil (s : str) :
  Forall (fun c => c <> []) (Textwrap.split_chunks s).
Proof.
  induction s as [|c s IH]; [constructor|].
  simpl. destruct (Textwrap.split_chunks s) as [|[|d w] r].
  - repeat constructor. discriminate.
  - repeat constructor. discriminate.
  - inversion IH; subst.
    destruct (Bool.eqb _ _); repeat constructor; auto; discriminate.
Qed.

(** Where the class of the characters changes, the chunks split. *)
Lemma split_chunks_app (a b : str) :
  a <> [] -> b <> [] ->
  Textwrap.whitespace (last a " "%char)
  <> Textwrap.whitespace (hd " "%char b) ->
  Textwrap.split_chunks (a ++ b)
  = Textwrap.split_chunks a ++ Textwrap.split_chunks b.
Proof.
  intros Ha Hb. induction a as [|c a IH]; [congruence|]. intros Hd.
  destruct a as [|c2 a].
  - destruct b as [|d b]; [congruence|]. simpl app.
    destruct (split_chunks_hd d b) as (w & r & E).
    cbn [Textwrap.split_chunks]. cbn [Textwrap.split_chunks] in E.
    rewrite E. simpl in Hd.
    destruct (Bool.eqb (Textwrap.whitespace c) (Textwrap.whitespace d)) eqn:Q;
      [apply Bool.eqb_prop in Q; congruence | reflexivity].
  - assert (IH' := IH ltac:(discriminate) Hd). clear IH.
    change ((c :: c2 :: a) ++ b) with (c :: ((c2 :: a) ++ b)).
    cbn [Textwrap.split_chunks]. cbn [Textwrap.split_chunks] in IH'.
    rewrite IH'.
    destruct (split_chunks_hd c2 a) as (w & r & E).
    cbn [Textwrap.split_chunks] in E. rewrite E. simpl.
    destruct (Bool.eqb _ _); reflexivity.
Qed.

Lemma split_chunks_word (w : str) :
  w <> [] -> Forall (fun c => Textwrap.whitespace c = false) w ->
  Textwrap.split_chunks w = [w].
Proof.
  intros Hw H. induction H as [|c w Hc Hs IH]; [congruence|].
  destruct w as [|d w]; [reflexivity|].
  cbn [Textwrap.split_chunks]. cbn [Textwrap.split_chunks] in IH.
  rewrite (IH ltac:(discriminate)).
  inversion Hs; subst. rewrite Hc.
  match goal with H : Textwrap.whitespace d = false |- _ => rewrite H end.
  reflexivity.
Qed.

Lemma word_no_whitespace (w : str) :
  word w -> Forall (fun c => Textwrap.whitespace c = false) w.
Proof.
  intros [_ H]. eapply Forall_impl; [|exact H].
  apply not_isspace_not_whitespace.
Qed.

Lemma last_Forall {A} (P : A -> Prop) (l : list A) (d : A) :
  l <> [] -> Forall P l -> P (last l d).
Proof.
  intros Hl H. induction H as [|x l Hx Hs IH]; [congruence|].
  destruct l as [|y l]; [exact Hx|]. apply IH. discriminate.
Qed.

Lemma join_cons (sep x : str) (t : list str) :
  t <> [] -> Py.join sep (x :: t) = x ++ sep ++ Py.join sep t.
Proof. destruct t; [congruence | reflexivity]. Qed.

Lemma join_words_hd (ws : list str) (w : str) :
  Forall word (w :: ws) ->
  exists c t, Py.join (lit " ") (w :: ws) = c :: t
              /\ Textwrap.whitespace c = false.
Proof.
  intros H. inversion H as [|x l Hw Hs]; subst.
  pose proof (word_no_whitespace w Hw) as Hn. destruct Hw as [Hne _].
  destruct w as [|c w]; [congruence|]. inversion Hn; subst.
  destruct ws as [|w2 ws]; simpl; eauto.
Qed.

(** The chunks of words joined by single spaces. *)
Lemma split_chunks_join (ws : list str) :
  Forall word ws ->
  Textwrap.split_chunks (Py.join (lit " ") ws) = chunks_of ws.
Proof.
  induction ws as [|w ws IH]; intros H; [reflexivity|].
  inversion H as [|x l Hw Hs]; subst.
  pose proof (word_no_whitespace w Hw) as Hn.
  destruct ws as [|w2 ws].
  - simpl. apply split_chunks_word; [apply Hw | exact Hn].
  - rewrite join_cons by discriminate.
    destruct (join_words_hd ws w2 Hs) as (c & t & Ej & Hc).
    rewrite split_chunks_app.
    + rewrite (split_chunks_word w (proj1 Hw) Hn).
      change (lit " " ++ Py.join (lit " ") (w2 :: ws))
        with ([" "%char] ++ Py.join (lit " ") (w2 :: ws)).
      rewrite split_chunks_app.
      * rewrite (IH Hs). reflexivity.
      * discriminate.
      * rewrite Ej. discriminate.
      * rewrite Ej. simpl. rewrite Hc. discriminate.
    + apply Hw.
    + discriminate.
    + pose proof (last_Forall _ w " "%char (proj1 Hw) Hn) as Hl.
      simpl in Hl. rewrite Hl. discriminate.
Qed.

(** ** Wrapping: filling lines *)

Lemma blank_space : Textwrap.blank (lit " ") = true.
Proof. reflexivity. Qed.

Lemma blank_word (w : str) : word w -> Textwrap.blank w = false.
Proof.
  intros [Hne H]. destruct w as [|c w]; [congruence|].
  inversion H; subst. simpl.
  match goal with E : Py.isspace_char c = false |- _ => rewrite E end.
  reflexivity.
Qed.

Lemma drop_trailing_snoc (X : list str) (c : str) :
  Textwrap.drop_trailing (X ++ [c])
  = if Textwrap.blank c then X else X ++ [c].
Proof.
  unfold Textwrap.drop_trailing. rewrite rev_app_distr. simpl.
  destruct (Textwrap.blank c); [apply removelast_last | reflexivity].
Qed.

Lemma chunks_of_cons (w : str) (ws : list str) :
  ws <> [] -> chunks_of (w :: ws) = w :: lit " " :: chunks_of ws.
Proof. destruct ws; [congruence | reflexivity]. Qed.

Lemma chunks_of_snoc (g : list str) :
  g <> [] -> Forall word g ->
  exists X w, chunks_of g = X ++ [w] /\ word w.
Proof.
  induction g as [|w g IH]; [congruence|]. intros _ H.
  inversion H as [|x l Hw Hs]; subst. destruct g as [|w2 g].
  - exists [], w. split; [reflexivity | exact Hw].
  - destruct (IH ltac:(discriminate) Hs) as (X & w' & E & Hw').
    exists (w :: lit " " :: X), w'. rewrite chunks_of_cons by discriminate.
    rewrite E. split; [reflexivity | exact Hw'].
Qed.

Lemma chunks_of_nil (r : list str) : chunks_of r = [] -> r = [].
Proof. destruct r as [|w [|w2 r]]; simpl; congruence. Qed.

Lemma concat_chunks_of (g : list str) :
  concat (chunks_of g) = Py.join (lit " ") g.
Proof.
  induction g as [|w g IH]; [reflexivity|]. destruct g as [|w2 g].
  - simpl. apply app_nil_r.
  - rewrite chunks_of_cons, join_cons by discriminate.
    cbn [concat]. rewrite IH. reflexivity.
Qed.

Lemma length_chunks_of (ws : list str) : length ws <= length (chunks_of ws).
Proof.
  induction ws as [|w ws IH]; [simpl; lia|]. destruct ws as [|w2 ws].
  - simpl. lia.
  - rewrite chunks_of_cons by discriminate. simpl in *. lia.
Qed.

Lemma total_length_concat (l : list str) :
  total_length l = length (concat l).
Proof.
  induction l as [|c l IH]; [reflexivity|].
  simpl. rewrite length_app, IH. reflexivity.
Qed.

(** Chunks that fit together are all taken. *)
Lemma take_fit_all (W : nat) (A B : list str) (cur : nat) :
  cur + total_length A <= W ->
  Textwrap.take_fit W cur (A ++ B)
  = (A ++ fst (Textwrap.take_fit W (cur + total_length A) B),
     snd (Textwrap.take_fit W (cur + total_length A) B)).
Proof.
  revert cur. induction A as [|c A IH]; intros cur H.
  - simpl. rewrite Nat.add_0_r. destruct (Textwrap.take_fit W cur B).
    reflexivity.
  - simpl in *.
    assert (E : (cur + length c <=? W) = true) by (apply Nat.leb_le; lia).
    rewrite E. rewrite IH by lia. rewrite Nat.add_assoc. reflexivity.
Qed.

(** The line filled from the chunks of words: a group [g] of words is
    taken, with or without the space behind it, and the other words [r]
    remain, with or without the space before them. *)
Lemma take_fit_words (W : nat) (ws : list str) :
  forall cur,
  exists g r t l,
    ws = g ++ r
    /\ Textwrap.take_fit W cur (chunks_of ws)
       = (chunks_of g ++ t, l ++ chunks_of r)
    /\ (t = [] \/ (t = [lit " "] /\ g <> []))
    /\ (l = [] \/ (l = [lit " "] /\ r <> [] /\ g <> []))
    /\ (g = [] -> match r with
                  | w :: _ => W < cur + length w
                  | [] => True
                  end).
Proof.
  induction ws as [|w ws IH]; intros cur.
  - exists [], [], [], []. simpl. auto 10.
  - destruct (cur + length w <=? W) eqn:Fit.
    + destruct ws as [|w2 ws].
      * exists [w], [], [], []. simpl. rewrite Fit.
        split; [reflexivity|]. split; [reflexivity|]. auto.
      * rewrite chunks_of_cons by discriminate.
        cbn [Textwrap.take_fit]. rewrite Fit.
        destruct (cur + length w + length (lit " ") <=? W) eqn:Fit2.
        -- destruct (IH (cur + length w + length (lit " ")))
             as (g & r & t & l & E & T & Ht & Hl & Hg).
           rewrite T. destruct g as [|g1 g].
           ++ assert (t = []) as -> by (destruct Ht as [?|[_ ?]]; congruence).
              assert (l = []) as ->
                  by (destruct Hl as [?|(_ & _ & ?)]; congruence).
              exists [w], r, [lit " "], []. simpl in E. subst r.
              split; [reflexivity|]. split; [reflexivity|].
              split; [right; split; [reflexivity | discriminate]|].
              split; [left; reflexivity | discriminate].
           ++ exists (w :: g1 :: g), r, t, l.
              split; [simpl; f_equal; exact E|].
              split; [rewrite (chunks_of_cons w (g1 :: g)) by discriminate;
                      reflexivity|].
              split; [destruct Ht as [?|[? _]]; [left | right; split];
                      auto; discriminate|].
              split; [destruct Hl as [?|(? & ? & _)];
                      [left | right; repeat split]; auto; discriminate|].
              discriminate.
        -- exists [w], (w2 :: ws), [], [lit " "].
           split; [reflexivity|]. split; [reflexivity|].
           split; [left; reflexivity|].
           split; [right; repeat split; discriminate | discriminate].
    + exists [], (w :: ws), [], [].
      split; [reflexivity|]. split.
      * destruct ws as [|w2 ws]; [simpl | rewrite chunks_of_cons by discriminate;
                                  cbn [Textwrap.take_fit]];
          rewrite Fit; reflexivity.
      * split; [left; reflexivity|]. split; [left; reflexivity|].
        intros _. apply Nat.leb_gt in Fit. exact Fit.
Qed.

Lemma handle_long_word_keeps (W : nat) (cur_line chunks : list str) :
  cur_line <> [] ->
  Textwrap.handle_long_word W cur_line chunks = (cur_line, chunks).
Proof.
  intros H. unfold Textwrap.handle_long_word.
  destruct chunks as [|c rest]; [reflexivity|].
  destruct (W <? length c); [|reflexivity].
  destruct cur_line; [congruence | reflexivity].
Qed.

Lemma drop_trailing_group (X g t : list str) :
  g <> [] -> Forall word g ->
  (t = [] \/ (t = [lit " "] /\ g <> [])) ->
  Textwrap.drop_trailing (X ++ chunks_of g ++ t) = X ++ chunks_of g.
Proof.
  intros Hg Hw Ht. destruct (chunks_of_snoc g Hg Hw) as (Y & w & E & Hword).
  destruct Ht as [-> | [-> _]].
  - rewrite app_nil_r, E, app_assoc, drop_trailing_snoc.
    rewrite (blank_word w Hword). reflexivity.
  - rewrite app_assoc, drop_trailing_snoc, blank_space. reflexivity.
Qed.

(** One round of [_wrap_chunks] on a line that is not the first: the
    space left at the start is dropped, then the line is filled. *)
Lemma wrap_chunks_step (fuel W : nat) (indent : str) (ws l : list str) :
  ws <> [] -> Forall word ws ->
  (l = [] \/ l = [lit " "]) ->
  Textwrap.wrap_chunks (S fuel) W indent true (l ++ chunks_of ws)
  = let w := W - length indent in
    let (cur_line, chunks) := Textwrap.take_fit w 0 (chunks_of ws) in
    let (cur_line, chunks) := Textwrap.handle_long_word w cur_line chunks in
    let cur_line := Textwrap.drop_trailing cur_line in
    match cur_line with
    | [] => Textwrap.wrap_chunks fuel W indent true chunks
    | _ => (indent ++ concat cur_line)
           :: Textwrap.wrap_chunks fuel W indent true chunks
    end.
Proof.
  intros Hne Hw Hl. destruct ws as [|w1 ws]; [congruence|].
  inversion Hw as [|x y Hw1 _]; subst.
  destruct Hl as [-> | ->].
  - assert (E : exists tl, chunks_of (w1 :: ws) = w1 :: tl)
      by (destruct ws; simpl; eauto).
    destruct E as (tl & E). rewrite E. cbn [app Textwrap.wrap_chunks].
    rewrite (blank_word w1 Hw1). reflexivity.
  - cbn [app Textwrap.wrap_chunks]. rewrite blank_space. reflexivity.
Qed.

(** The lines after the first: the remaining words in groups, one group
    per line, each line indented. *)
Lemma wrap_rest (W : nat) (indent : str) :
  forall fuel ws l,
    Forall word ws -> length ws <= fuel ->
    (l = [] \/ (l = [lit " "] /\ ws <> [])) ->
    exists gs,
      Textwrap.wrap_chunks fuel W indent true (l ++ chunks_of ws)
      = map (fun g => indent ++ Py.join (lit " ") g) gs
      /\ concat gs = ws
      /\ Forall (fun g => g <> []) gs.
Proof.
  induction fuel as [|fuel IH]; intros ws l Hw Hlen Hl.
  - destruct ws; [|simpl in Hlen; lia]. exists []. auto.
  - destruct ws as [|w1 rest].
    + destruct Hl as [-> | [_ ?]]; [|congruence]. exists []. auto.
    + assert (Hl' : l = [] \/ l = [lit " "]) by (destruct Hl as [?|[? _]]; auto).
      rewrite (wrap_chunks_step fuel W indent (w1 :: rest) l
                 ltac:(discriminate) Hw Hl').
      cbv zeta.
      destruct (take_fit_words (W - length indent) (w1 :: rest) 0)
        as (g & r & t & l2 & E & T & Ht & Hl2 & Hg).
      rewrite T.
      assert (Hwg : Forall word g /\ Forall word r)
        by (rewrite E in Hw; apply Forall_app; exact Hw).
      destruct Hwg as [Hwg Hwr].
      destruct g as [|g1 g].
      * (* the first word is wider than the line *)
        assert (t = []) as -> by (destruct Ht as [?|[_ ?]]; congruence).
        assert (l2 = []) as ->
            by (destruct Hl2 as [?|(_ & _ & ?)]; congruence).
        simpl in E. subst r. specialize (Hg eq_refl). simpl in Hg.
        inversion Hw as [|x y Hw1 Hwrest]; subst.
        assert (E2 : exists l3, chunks_of (w1 :: rest) = w1 :: l3 ++ chunks_of rest
                                /\ (l3 = [] \/ (l3 = [lit " "] /\ rest <> []))).
        { destruct rest as [|w2 rest].
          - exists []. auto.
          - exists [lit " "]. split; [reflexivity|]. right.
            split; [reflexivity | discriminate]. }
        destruct E2 as (l3 & E2 & Hl3).
        cbn [app]. rewrite E2. unfold Textwrap.handle_long_word.
        assert (Q : (W - length indent <? length w1) = true)
          by (apply Nat.ltb_lt; lia).
        rewrite Q. cbn [chunks_of app].
        change (Textwrap.drop_trailing [w1])
          with (Textwrap.drop_trailing ([] ++ [w1])).
        rewrite drop_trailing_snoc, (blank_word w1 Hw1). cbn [app].
        destruct (IH rest l3 Hwrest ltac:(simpl in Hlen; lia) Hl3)
          as (gs & Egs & Ec & Hne).
        exists ([w1] :: gs). rewrite Egs. simpl. rewrite app_nil_r.
        split; [reflexivity|]. split; [f_equal; exact Ec|].
        constructor; [discriminate | exact Hne].
      * rewrite handle_long_word_keeps
          by (destruct (chunks_of_snoc (g1 :: g) ltac:(discriminate) Hwg)
                as (X & w & -> & _); destruct X; discriminate).
        pose proof (drop_trailing_group [] (g1 :: g) t
                      ltac:(discriminate) Hwg Ht) as D.
        cbn [app] in D. rewrite D.
        assert (Hr : length r <= fuel).
        { apply (f_equal (@length _)) in E. rewrite length_app in E.
          simpl in E, Hlen. lia. }
        assert (Hl2' : l2 = [] \/ (l2 = [lit " "] /\ r <> []))
          by (destruct Hl2 as [?|(? & ? & _)]; auto).
        destruct (IH r l2 Hwr Hr Hl2') as (gs & Egs & Ec & Hne).
        exists ((g1 :: g) :: gs). rewrite Egs.
        destruct (chunks_of (g1 :: g)) as [|c0 cs] eqn:Ech;
          [apply chunks_of_nil in Ech; discriminate|].
        rewrite <- Ech, concat_chunks_of.
        split; [reflexivity|]. split; [simpl; rewrite Ec; symmetry; exact E|].
        constructor; [discriminate | exact Hne].
Qed.

Lemma tidy_words (ws : list str) :
  Forall word ws -> tidy (Py.join (lit " ") ws).
Proof.
  unfold tidy. induction ws as [|w ws IH]; intros H; [constructor|].
  inversion H as [|x y Hw Hs]; subst.
  assert (Tw : Forall (fun c => Textwrap.whitespace c = true -> c = " "%char) w).
  { eapply Forall_impl; [|apply (word_no_whitespace w Hw)].
    simpl. intros a Ha Hb. congruence. }
  destruct ws as [|w2 ws]; [exact Tw|].
  rewrite join_cons by discriminate.
  apply Forall_app. split; [exact Tw|].
  apply Forall_app. split; [repeat constructor | apply IH, Hs].
Qed.

Lemma concat_nonempty_nil {A} (gs : list (list A)) :
  Forall (fun g => g <> []) gs -> concat gs = [] -> gs = [].
Proof.
  destruct gs as [|g gs]; [reflexivity|]. intros H E.
  inversion H; subst. simpl in E. destruct g; [congruence | discriminate].
Qed.

(** Wrapping [H0 v] where [H0] is the header with its colon and [v] is
    made of words: the first line holds the header and a first group of
    words, every other line holds a further group; when all fits on one
    line, that line is the only one. *)
Lemma wrap_first (H0 : str) (vws : list str) (indent : str) (W : nat) :
  H0 <> [] -> tidy H0 ->
  Textwrap.whitespace (last H0 " "%char) = false ->
  length H0 + 1 <= W ->
  Forall word vws ->
  exists g gs,
    vws = g ++ concat gs
    /\ Forall (fun x => x <> []) gs
    /\ Textwrap.wrap (H0 ++ lit " " ++ Py.join (lit " ") vws) W indent
       = (H0 ++ first_tail g)
         :: map (fun x => indent ++ Py.join (lit " ") x) gs
    /\ (length H0 + 1 + length (Py.join (lit " ") vws) <= W -> gs = []).
Proof.
  intros Hne Ht Hlast Hfit Hw.
  set (J := Py.join (lit " ") vws).
  assert (Tt : tidy (H0 ++ lit " " ++ J)).
  { apply Forall_app. split; [exact Ht|].
    apply Forall_app. split; [repeat constructor | apply tidy_words, Hw]. }
  unfold Textwrap.wrap. rewrite (munge_whitespace_tidy _ Tt).
  set (Hc := Textwrap.split_chunks H0).
  assert (Es : Textwrap.split_chunks (H0 ++ lit " " ++ J)
               = (Hc ++ [lit " "]) ++ chunks_of vws).
  { rewrite split_chunks_app; [|exact Hne|discriminate|rewrite Hlast; discriminate].
    fold Hc. rewrite <- app_assoc. f_equal.
    destruct vws as [|w ws]; [reflexivity|].
    destruct (join_words_hd ws w Hw) as (c & t & Ej & Hcw).
    change (lit " " ++ J) with ([" "%char] ++ J). unfold J.
    rewrite split_chunks_app;
      [|discriminate|rewrite Ej; discriminate
       |rewrite Ej; simpl; rewrite Hcw; discriminate].
    rewrite (split_chunks_join _ Hw). reflexivity. }
  rewrite Es.
  assert (Hcne : exists c0 Hc', Hc = c0 :: Hc').
  { unfold Hc. destruct H0 as [|c h]; [congruence|].
    destruct (split_chunks_hd c h) as (w & r & E). rewrite E. eauto. }
  destruct Hcne as (c0 & Hc' & EHc).
  assert (Etl : total_length (Hc ++ [lit " "]) = length H0 + 1).
  { rewrite total_length_concat, concat_app, length_app.
    unfold Hc. rewrite concat_split_chunks. reflexivity. }
  assert (E0 : concat Hc = H0) by apply concat_split_chunks.
  clearbody Hc.
  set (fuel := length ((Hc ++ [lit " "]) ++ chunks_of vws)).
  assert (Hfuel : length vws <= fuel).
  { unfold fuel. rewrite length_app. pose proof (length_chunks_of vws). lia. }
  destruct (take_fit_words W vws (0 + total_length (Hc ++ [lit " "])))
    as (g & r & t & l & E & T & Htt & Hl & _).
  assert (Hwg : Forall word g /\ Forall word r)
    by (rewrite E in Hw; apply Forall_app; exact Hw).
  destruct Hwg as [Hwg Hwr].
  assert (Hr : length r <= fuel).
  { apply (f_equal (@length _)) in E. rewrite length_app in E. lia. }
  assert (Hl' : l = [] \/ (l = [lit " "] /\ r <> []))
    by (destruct Hl as [?|(? & ? & _)]; auto).
  destruct (wrap_rest W indent fuel r l Hwr Hr Hl') as (gs & Egs & Ec & Hgs).
  exists g, gs. split; [rewrite Ec; exact E|]. split; [exact Hgs|].
  assert (Step :
    Textwrap.wrap_chunks (S fuel) W indent false
      ((Hc ++ [lit " "]) ++ chunks_of vws)
    = (H0 ++ first_tail g)
      :: Textwrap.wrap_chunks fuel W indent true (l ++ chunks_of r)).
  { rewrite EHc at 1. cbn [app Textwrap.wrap_chunks].
    rewrite andb_false_r. cbn [length]. rewrite Nat.sub_0_r.
    change (c0 :: (Hc' ++ [lit " "]) ++ chunks_of vws)
      with (((c0 :: Hc') ++ [lit " "]) ++ chunks_of vws).
    rewrite <- EHc.
    rewrite (take_fit_all W (Hc ++ [lit " "]) (chunks_of vws) 0)
      by (rewrite Etl; lia).
    rewrite T. cbn [fst snd].
    rewrite handle_long_word_keeps
      by (rewrite EHc; discriminate).
    destruct g as [|g1 g].
    - assert (t = []) as -> by (destruct Htt as [?|[_ ?]]; congruence).
      cbn [chunks_of app]. rewrite app_nil_r, drop_trailing_snoc, blank_space.
      destruct Hc as [|c1 Hc1] eqn:Q; [discriminate|].
      unfold first_tail. rewrite app_nil_r, <- E0. reflexivity.
    - rewrite (drop_trailing_group (Hc ++ [lit " "]) (g1 :: g) t
                 ltac:(discriminate) Hwg Htt).
      destruct ((Hc ++ [lit " "]) ++ chunks_of (g1 :: g)) as [|c1 Hc1] eqn:Q;
        [rewrite EHc in Q; discriminate|]. rewrite <- Q.
      rewrite !concat_app, concat_chunks_of.
      rewrite E0. simpl concat at 1.
      rewrite <- app_assoc. reflexivity. }
  split.
  - unfold fuel in *. rewrite Step, Egs. reflexivity.
  - intros Hall. apply (concat_nonempty_nil gs Hgs). rewrite Ec.
    apply chunks_of_nil.
    assert (Q : Textwrap.take_fit W (0 + total_length (Hc ++ [lit " "]))
                  (chunks_of vws) = (chunks_of vws, [])).
    { rewrite <- (app_nil_r (chunks_of vws)) at 1.
      rewrite take_fit_all.
      - simpl. rewrite app_nil_r. reflexivity.
      - rewrite Etl, total_length_concat, concat_chunks_of. fold J.
        lia. }
    rewrite Q in T. injection T as _ T.
    destruct l; [simpl in T; symmetry; exact T | discriminate].
Qed.

(** ** Reading the lines of a tag file *)

Lemma universal_newlines_clean (s : str) :
  no_newline s -> universal_newlines s = s.
Proof.
  induction 1 as [|c s [Hc _] _ IH]; [reflexivity|].
  simpl. destruct (Ascii.eqb_spec c Textwrap.CR); [congruence|].
  rewrite IH. reflexivity.
Qed.

Lemma universal_newlines_crlf (l s : str) :
  no_newline l ->
  universal_newlines (l ++ CRLF ++ s) = l ++ Textwrap.LF :: universal_newlines s.
Proof.
  induction 1 as [|c l [Hc _] _ IH]; [reflexivity|].
  simpl. destruct (Ascii.eqb_spec c Textwrap.CR); [congruence|].
  simpl in IH. rewrite IH. reflexivity.
Qed.

Lemma lines_from_clean (l s cur : str) :
  no_newline l -> lines_from cur (l ++ s) = lines_from (rev l ++ cur) s.
Proof.
  intros H. revert cur. induction H as [|c l [_ Hc] _ IH]; intros cur;
    [reflexivity|].
  simpl. destruct (Ascii.eqb_spec c Textwrap.LF); [congruence|].
  rewrite IH, <- app_assoc. reflexivity.
Qed.

(** The lines read back from lines joined by CRLF are those lines, each
    but the last with a newline. *)
Lemma file_lines_join (ls : list str) :
  Forall (fun l => l <> [] /\ no_newline l) ls ->
  Forall2 read_as (file_lines (Py.join CRLF ls)) ls.
Proof.
  unfold file_lines. induction 1 as [|l ls [Hne Hl] Hs IH]; [constructor|].
  destruct ls as [|l2 ls].
  - simpl. rewrite (universal_newlines_clean l Hl).
    rewrite <- (app_nil_r l) at 1. rewrite lines_from_clean by exact Hl.
    simpl. rewrite app_nil_r.
    destruct (rev l) eqn:R.
    + apply (f_equal (@rev _)) in R. rewrite rev_involutive in R.
      simpl in R. congruence.
    + rewrite <- R, rev_involutive. constructor; [left; reflexivity|constructor].
  - rewrite join_cons by discriminate.
    rewrite (universal_newlines_crlf l _ Hl).
    rewrite lines_from_clean by exact Hl. rewrite app_nil_r.
    cbn [lines_from]. rewrite Ascii.eqb_refl.
    constructor; [|exact IH].
    right. simpl. rewrite rev_involutive. reflexivity.
Qed.

Lemma strip_by_snoc (p : ascii -> bool) (s : str) (c : ascii) :
  p c = true -> Py.strip_by p (s ++ [c]) = Py.strip_by p s.
Proof.
  intros Hc.
  destruct (strip_by_spec p s " "%char) as (pre & post & E & Hpre & Hpost & H).
  destruct (Py.strip_by p s) as [|x core] eqn:Es.
  - apply strip_by_all. rewrite E. simpl.
    repeat (apply Forall_app; split); auto.
  - rewrite E at 1. rewrite <- !app_assoc.
    destruct H as [H|[Hh Hl]]; [discriminate|].
    apply (strip_by_core p pre (x :: core) (post ++ [c]) " "%char); auto.
    + apply Forall_app. split; auto.
    + discriminate.
Qed.

Lemma isspace_snoc (l : str) :
  l <> [] -> Py.isspace (l ++ [Textwrap.LF]) = Py.isspace l.
Proof.
  destruct l as [|c l]; [congruence|]. intros _. simpl.
  rewrite forallb_app. simpl. rewrite andb_true_r. reflexivity.
Qed.

Lemma mem_snoc_lf (l : str) :
  Py.mem ":" (l ++ [Textwrap.LF]) = Py.mem ":" l.
Proof.
  unfold Py.mem. rewrite existsb_app. simpl. apply orb_false_r.
Qed.

(** The parser does not mind the newline at the end of a line. *)
Lemma parse_tags_read_as (ls Ls : list str) :
  Forall2 read_as Ls ls ->
  Forall (fun l => l <> []) ls ->
  forall tag_name tag_value r,
    _parse_tags tag_name tag_value ls = Ok r ->
    _parse_tags tag_name tag_value Ls = Ok r.
Proof.
  induction 1 as [|L l Ls ls HL _ IH]; intros Hne tn tv r; [auto|].
  inversion Hne as [|x y Hl Hrest]; subst. specialize (IH Hrest).
  destruct HL as [-> | ->].
  - cbn [_parse_tags]. cbv zeta.
    destruct ((length l =? 0) || Py.isspace l); [apply IH|].
    assert (New :
      (if negb (Py.mem ":" l)
       then Raise (BagValidationError (lit "invalid tag: " ++ l))
       else match Py.split1 ":" (Py.strip l) with
            | [name; value] =>
                bind (_parse_tags
                        (Some (Py.replace_char " " "_"
                                 (Py.lower (Py.strip name))))
                        (Some value) ls)
                     (fun r0 => Ok (yield_tag tn tv ++ r0))
            | _ => Raise IndexError
            end) = Ok r ->
      (if negb (Py.mem ":" l)
       then Raise (BagValidationError (lit "invalid tag: " ++ l))
       else match Py.split1 ":" (Py.strip l) with
            | [name; value] =>
                bind (_parse_tags
                        (Some (Py.replace_char " " "_"
                                 (Py.lower (Py.strip name))))
                        (Some value) Ls)
                     (fun r0 => Ok (yield_tag tn tv ++ r0))
            | _ => Raise IndexError
            end) = Ok r).
    { destruct (negb (Py.mem ":" l)); [discriminate|].
      destruct (Py.split1 ":" (Py.strip l)) as [|n [|v [|? ?]]];
        try discriminate.
      destruct (_parse_tags _ _ ls) as [r0|e] eqn:E; [|discriminate].
      rewrite (IH _ _ _ E). auto. }
    destruct tv as [v|]; [|exact New].
    destruct (Py.isspace_char (hd " "%char l)); [apply IH | exact New].
  - cbn [_parse_tags]. cbv zeta.
    assert (E1 : (length (l ++ [Textwrap.LF]) =? 0) = false)
      by (rewrite length_app; simpl; apply Nat.eqb_neq; lia).
    assert (E2 : (length l =? 0) = false)
      by (destruct l; [congruence | reflexivity]).
    rewrite E1, E2, (isspace_snoc l Hl), mem_snoc_lf.
    assert (E3 : Py.strip (l ++ [Textwrap.LF]) = Py.strip l)
      by (apply strip_by_snoc; reflexivity).
    assert (E4 : hd " "%char (l ++ [Textwrap.LF]) = hd " "%char l)
      by (destruct l; [congruence | reflexivity]).
    rewrite E3, E4. simpl orb.
    destruct (Py.isspace l); [apply IH|].
    assert (New :
      (if negb (Py.mem ":" l)
       then Raise (BagValidationError (lit "invalid tag: " ++ l))
       else match Py.split1 ":" (Py.strip l) with
            | [name; value] =>
                bind (_parse_tags
                        (Some (Py.replace_char " " "_"
                                 (Py.lower (Py.strip name))))
                        (Some value) ls)
                     (fun r0 => Ok (yield_tag tn tv ++ r0))
            | _ => Raise IndexError
            end) = Ok r ->
      (if negb (Py.mem ":" l)
       then Raise (BagValidationError
                     (lit "invalid tag: " ++ l ++ [Textwrap.LF]))
       else match Py.split1 ":" (Py.strip l) with
            | [name; value] =>
                bind (_parse_tags
                        (Some (Py.replace_char " " "_"
                                 (Py.lower (Py.strip name))))
                        (Some value) Ls)
                     (fun r0 => Ok (yield_tag tn tv ++ r0))
            | _ => Raise IndexError
            end) = Ok r).
    { destruct (negb (Py.mem ":" l)); [discriminate|].
      destruct (Py.split1 ":" (Py.strip l)) as [|n [|v [|? ?]]];
        try discriminate.
      destruct (_parse_tags _ _ ls) as [r0|e] eqn:E; [|discriminate].
      rewrite (IH _ _ _ E). auto. }
    destruct tv as [v|]; [|exact New].
    destruct (Py.isspace_char (hd " "%char l)); [apply IH | exact New].
Qed.

(** ** Field names *)

Lemma lower_space : Py.lower_char " " = " "%char.
Proof. reflexivity. Qed.

Lemma key_lower (k : str) : Forall key_char k -> Py.lower k = k.
Proof.
  unfold Py.lower. induction 1 as [|c k (_ & _ & Hc) _ IH]; [reflexivity|].
  simpl. rewrite Hc, IH. reflexivity.
Qed.

Lemma hd_map {A B} (f : A -> B) (l : list A) (d : A) :
  hd (f d) (map f l) = f (hd d l).
Proof. destruct l; reflexivity. Qed.

Lemma last_map {A B} (f : A -> B) (l : list A) (d : A) :
  last (map f l) (f d) = f (last l d).
Proof.
  induction l as [|x l IH]; [reflexivity|].
  destruct l as [|y l]; [reflexivity|]. exact IH.
Qed.

Lemma hd_Forall {A} (P : A -> Prop) (l : list A) (d : A) :
  l <> [] -> Forall P l -> P (hd d l).
Proof. intros Hl H. destruct H; [congruence | assumption]. Qed.

Section KeyFacts.

Variable k : str.
Hypothesis Hk : wf_key k.

Let h := header_text k.

Lemma header_text_eq : h = Py.replace_char "_" " " k.
Proof.
  unfold h, header_text. destruct Hk as (_ & _ & Hc & _).
  rewrite (key_lower k Hc). reflexivity.
Qed.

Lemma header_length : length h = length k.
Proof. rewrite header_text_eq. apply length_map. Qed.

Lemma header_not_nil : h <> [].
Proof.
  intros E. apply (f_equal (@length _)) in E. rewrite header_length in E.
  destruct Hk as (Hne & _). destruct k; [congruence | discriminate].
Qed.

Lemma header_hd : Py.isspace_char (hd " "%char h) = false.
Proof.
  destruct Hk as (Hne & _ & Hc & Hh & _). rewrite header_text_eq.
  destruct k as [|c k']; [congruence|]. simpl in *.
  inversion Hc as [|x y (Hs & _) _]; subst.
  destruct (Ascii.eqb_spec c "_"); [congruence | exact Hs].
Qed.

Lemma header_last : Py.isspace_char (last h " "%char) = false.
Proof.
  destruct Hk as (Hne & _ & Hc & _ & Hl). rewrite header_text_eq.
  unfold Py.replace_char.
  change " "%char with ((fun c => if Ascii.eqb c "_" then " "%char else c)
                          "_"%char) at 2.
  rewrite last_map.
  destruct (Ascii.eqb_spec (last k "_"%char) "_"); [congruence|].
  pose proof (last_Forall _ k "_"%char Hne Hc) as (Hs & _). exact Hs.
Qed.

Lemma header_chars (c : ascii) :
  In c h -> c = " "%char \/ (key_char c /\ c <> "_"%char).
Proof.
  rewrite header_text_eq. unfold Py.replace_char. intros Hc.
  apply in_map_iff in Hc. destruct Hc as (x & <- & Hx).
  destruct Hk as (_ & _ & Hkc & _).
  destruct (Ascii.eqb_spec x "_"); [left; reflexivity|].
  right. split; [|assumption].
  exact (proj1 (Forall_forall _ _) Hkc x Hx).
Qed.

Lemma header_no_colon : ~ In ":"%char h.
Proof.
  intros Hc. destruct (header_chars _ Hc) as [E | [(_ & E & _) _]];
    [discriminate | congruence].
Qed.

Lemma header_strip : Py.strip h = h.
Proof.
  pose proof (strip_by_core Py.isspace_char [] h [] " "%char) as E.
  rewrite app_nil_r in E. apply E; auto using header_not_nil, header_hd,
    header_last.
Qed.

Lemma header_lower : Py.lower h = h.
Proof.
  unfold Py.lower. rewrite <- (map_id h) at 2. apply map_ext_in.
  intros c Hc. destruct (header_chars c Hc) as [-> | [(_ & _ & E) _]];
    [reflexivity | exact E].
Qed.

Lemma header_back : Py.replace_char " " "_" h = k.
Proof.
  rewrite header_text_eq. unfold Py.replace_char. rewrite map_map.
  rewrite <- (map_id k) at 2. apply map_ext_in. intros c Hc.
  destruct Hk as (_ & _ & Hkc & _).
  pose proof (proj1 (Forall_forall _ _) Hkc c Hc) as (Hs & _).
  destruct (Ascii.eqb_spec c "_") as [->|Hn]; [reflexivity|].
  destruct (Ascii.eqb_spec c " ") as [->|_]; [discriminate | reflexivity].
Qed.

Lemma header_name : Py.replace_char " " "_" (Py.lower (Py.strip h)) = k.
Proof. rewrite header_strip, header_lower. apply header_back. Qed.

Lemma header_tidy : tidy (h ++ lit ":").
Proof.
  apply Forall_app. split; [|repeat constructor; discriminate].
  apply Forall_forall. intros c Hc Hw.
  destruct (header_chars c Hc) as [-> | [(Hs & _) _]]; [reflexivity|].
  apply whitespace_isspace in Hw. congruence.
Qed.

End KeyFacts.

(** ** Parsing the lines of a tag *)

Lemma join_words_edges (x : list str) :
  x <> [] -> Forall word x ->
  Py.join (lit " ") x <> []
  /\ Py.isspace_char (hd " "%char (Py.join (lit " ") x)) = false
  /\ Py.isspace_char (last (Py.join (lit " ") x) " "%char) = false.
Proof.
  induction x as [|w x IH]; [congruence|]. intros _ H.
  inversion H as [|a b Hw Hs]; subst. destruct Hw as [Hne Hsp].
  destruct x as [|w2 x].
  - simpl. split; [exact Hne|].
    split; [apply (hd_Forall _ w " "%char Hne Hsp)
           | apply (last_Forall _ w " "%char Hne Hsp)].
  - rewrite join_cons by discriminate.
    destruct (IH ltac:(discriminate) Hs) as (Jne & _ & Jl).
    destruct w as [|c w]; [congruence|]. split; [discriminate|].
    split; [inversion Hsp; assumption|].
    change ((c :: w) ++ lit " " ++ Py.join (lit " ") (w2 :: x))
      with ((c :: w) ++ " "%char :: Py.join (lit " ") (w2 :: x)).
    rewrite last_app_cons.
    destruct (Py.join (lit " ") (w2 :: x)) as [|j J] eqn:EJ; [congruence|].
    exact Jl.
Qed.

Lemma isspace_false (l : str) :
  Py.isspace_char (hd " "%char l) = false -> Py.isspace l = false.
Proof.
  destruct l as [|c l]; [reflexivity|]. simpl. intros ->. reflexivity.
Qed.

Lemma strip_stripped (l : str) :
  l <> [] ->
  Py.isspace_char (hd " "%char l) = false ->
  Py.isspace_char (last l " "%char) = false ->
  Py.strip l = l.
Proof.
  intros Hne Hh Hl.
  pose proof (strip_by_core Py.isspace_char [] l [] " "%char) as E.
  rewrite app_nil_r in E. apply E; auto.
Qed.

(** The first line of a tag starts a new tag named by the field, whose
    value so far is the text behind the colon; the tag read before is
    yielded. *)
Lemma parse_first_line (k : str) (g : list str) (rest : list str)
      (tag_name tag_value : option str) :
  wf_key k -> Forall word g ->
  _parse_tags tag_name tag_value
    ((header_text k ++ lit ":" ++ first_tail g) :: rest)
  = bind (_parse_tags (Some k) (Some (first_tail g)) rest)
         (fun r => Ok (yield_tag tag_name tag_value ++ r)).
Proof.
  intros Hk Hg.
  set (h := header_text k). set (line := h ++ lit ":" ++ first_tail g).
  pose proof (header_not_nil k Hk) as Hne. pose proof (header_hd k Hk) as Hh.
  cbv zeta in Hne, Hh. fold h in Hne, Hh.
  assert (Lhd : hd " "%char line = hd " "%char h)
    by (unfold line; destruct h; [congruence | reflexivity]).
  assert (Lne : line <> []) by (unfold line; destruct h; [congruence | discriminate]).
  assert (Llast : Py.isspace_char (last line " "%char) = false).
  { unfold line. change (lit ":" ++ first_tail g) with (":"%char :: first_tail g).
    rewrite last_app_cons. destruct g as [|w g]; [reflexivity|].
    unfold first_tail.
    destruct (join_words_edges (w :: g) ltac:(discriminate) Hg)
      as (Jne & _ & Jl).
    change (":"%char :: lit " " ++ Py.join (lit " ") (w :: g))
      with ([":"%char] ++ " "%char :: Py.join (lit " ") (w :: g)).
    rewrite last_app_cons.
    destruct (Py.join (lit " ") (w :: g)) as [|j J]; [congruence | exact Jl]. }
  assert (Lstrip : Py.strip line = line)
    by (apply strip_stripped; [exact Lne | rewrite Lhd; exact Hh | exact Llast]).
  assert (Lmem : Py.mem ":" line = true).
  { unfold line, Py.mem. rewrite existsb_app. simpl.
    apply orb_true_r. }
  assert (Lsplit : Py.split1 ":" line = [h; first_tail g]).
  { unfold line. apply (split1_fresh ":" h (first_tail g)).
    apply (header_no_colon k Hk). }
  cbn [_parse_tags]. cbv zeta. fold h. fold line.
  assert (E1 : (length line =? 0) = false)
    by (destruct line; [congruence | reflexivity]).
  rewrite E1, (isspace_false line) by (rewrite Lhd; exact Hh).
  simpl orb. cbv iota.
  rewrite Lmem, Lstrip, Lsplit. simpl negb. cbv iota.
  pose proof (header_name k Hk) as Hn. cbv zeta in Hn. fold h in Hn.
  rewrite Hn, Lhd, Hh.
  destruct tag_value; reflexivity.
Qed.

(** An indented line continues the value. *)
Lemma parse_folded_lines (k : str) (gs : list (list str)) (rest : list str) :
  Forall (fun x => x <> [] /\ Forall word x) gs ->
  forall v,
    _parse_tags (Some k) (Some v)
      (map (fun x => lit "    " ++ Py.join (lit " ") x) gs ++ rest)
    = _parse_tags (Some k)
        (Some (fold_left (fun v x => fold_line k v (Py.join (lit " ") x))
                         gs v))
        rest.
Proof.
  induction 1 as [|x gs [Hne Hw] _ IH]; intros v; [reflexivity|].
  destruct (join_words_edges x Hne Hw) as (Jne & Jh & Jl).
  cbn [map fold_left].
  change (((lit "    " ++ Py.join (lit " ") x)
           :: map (fun x0 => lit "    " ++ Py.join (lit " ") x0) gs) ++ rest)
    with ((lit "    " ++ Py.join (lit " ") x)
          :: (map (fun x0 => lit "    " ++ Py.join (lit " ") x0) gs ++ rest)).
  set (J := Py.join (lit " ") x) in *.
  cbn [_parse_tags]. cbv zeta.
  assert (E2 : Py.isspace (lit "    " ++ J) = false).
  { change (lit "    " ++ J)
      with (" "%char :: " "%char :: " "%char :: " "%char :: J).
    cbn [Py.isspace forallb]. change (Py.isspace_char " ") with true.
    cbn [andb]. destruct J as [|j J']; [congruence|].
    simpl in Jh. simpl. rewrite Jh. reflexivity. }
  assert (E3 : Py.strip (lit "    " ++ J) = J).
  { pose proof (strip_by_core Py.isspace_char (lit "    ") J [] " "%char) as E.
    rewrite app_nil_r in E. apply E; auto. repeat constructor. }
  rewrite E2, E3.
  change (length (lit "    " ++ J) =? 0) with false.
  change (hd " "%char (lit "    " ++ J)) with " "%char.
  change (Py.isspace_char " ") with true. cbn [orb].
  rewrite <- IH. unfold fold_line. reflexivity.
Qed.

(** The lines of a sequence of tags parse into one pair per tag. *)
Lemma parse_blocks (bs : list (str * list str * list (list str))) :
  Forall (fun b => wf_key (fst (fst b)) /\ Forall word (snd (fst b))
                   /\ Forall (fun x => x <> [] /\ Forall word x) (snd b)) bs ->
  forall tag_name tag_value,
    _parse_tags tag_name tag_value
      (flat_map (fun b => block_lines (fst (fst b)) (snd (fst b)) (snd b)) bs)
    = Ok (yield_tag tag_name tag_value
          ++ map (fun b => (fst (fst b),
                            Py.strip (folded_value (fst (fst b))
                                                   (snd (fst b)) (snd b))))
                 bs).
Proof.
  induction 1 as [|[[k g] gs] bs (Hk & Hg & Hgs) _ IH]; intros tn tv.
  - simpl. rewrite app_nil_r. reflexivity.
  - cbn [fst snd] in Hk, Hg, Hgs.
    cbn [flat_map fst snd map]. unfold block_lines at 1.
    rewrite <- app_comm_cons.
    rewrite (parse_first_line k g _ tn tv Hk Hg).
    rewrite (parse_folded_lines k gs _ Hgs).
    rewrite IH. cbn [bind]. unfold yield_tag at 2, name_set.
    destruct Hk as (Hne & _). destruct k as [|c k']; [congruence|].
    reflexivity.
Qed.

(** ** The value read back *)

Lemma join_app (sep : str) (a b : list str) :
  a <> [] -> b <> [] ->
  Py.join sep (a ++ b) = Py.join sep a ++ sep ++ Py.join sep b.
Proof.
  intros Ha Hb. induction a as [|x a IH]; [congruence|].
  destruct a as [|y a].
  - simpl app. rewrite join_cons by exact Hb. reflexivity.
  - change ((x :: y :: a) ++ b) with (x :: ((y :: a) ++ b)).
    rewrite join_cons by discriminate.
    rewrite (join_cons _ x (y :: a)) by discriminate.
    rewrite IH by discriminate. rewrite <- !app_assoc. reflexivity.
Qed.

Lemma first_tail_app (a b : list str) :
  first_tail a ++ first_tail b = first_tail (a ++ b).
Proof.
  destruct a as [|x a]; [reflexivity|].
  destruct b as [|y b]; [rewrite !app_nil_r; reflexivity|].
  unfold first_tail.
  change ((x :: a) ++ y :: b) with (x :: (a ++ y :: b)).
  change (x :: (a ++ y :: b)) with ((x :: a) ++ (y :: b)).
  rewrite join_app by discriminate. cbn [app].
  destruct ((x :: a) ++ y :: b) eqn:E; [discriminate|].
  rewrite <- !app_assoc. reflexivity.
Qed.

Lemma strip_first_tail (ws : list str) :
  Forall word ws -> Py.strip (first_tail ws) = Py.join (lit " ") ws.
Proof.
  intros H. destruct ws as [|w ws]; [reflexivity|].
  destruct (join_words_edges (w :: ws) ltac:(discriminate) H)
    as (Jne & Jh & Jl).
  unfold first_tail.
  pose proof (strip_by_core Py.isspace_char (lit " ")
                (Py.join (lit " ") (w :: ws)) [] " "%char) as E.
  rewrite app_nil_r in E. apply E; auto. repeat constructor.
Qed.

Lemma fold_spaced (gs : list (list str)) (v : str) :
  Forall (fun x => x <> [] /\ Forall word x) gs ->
  fold_left (fun v x => v ++ lit " " ++ Py.join (lit " ") x) gs v
  = v ++ first_tail (concat gs).
Proof.
  intros H. revert v. induction H as [|x gs [Hne _] _ IH]; intros v.
  - simpl. rewrite app_nil_r. reflexivity.
  - cbn [fold_left concat]. rewrite IH, <- first_tail_app, <- !app_assoc.
    f_equal. destruct x; [congruence | reflexivity].
Qed.

(** The value the parser reads is the words of the value, joined by single
    spaces: always so in a field whose folded lines get a space, and in the
    other fields when the value was left on one line or moved to the
    second line whole. *)
Lemma folded_value_words (k : str) (g : list str) (gs : list (list str)) :
  Forall word g ->
  Forall (fun x => x <> [] /\ Forall word x) gs ->
  (str_in k unbroken_fields = true ->
   gs = [] \/ (g = [] /\ exists w, gs = [[w]])) ->
  Py.strip (folded_value k g gs) = Py.join (lit " ") (g ++ concat gs).
Proof.
  intros Hg Hgs Hu. unfold folded_value, fold_line.
  assert (Hall : Forall word (g ++ concat gs)).
  { apply Forall_app. split; [exact Hg|].
    clear -Hgs. induction Hgs as [|x gs [_ Hx] _ IH]; [constructor|].
    simpl. apply Forall_app. split; assumption. }
  destruct (str_in k unbroken_fields).
  - destruct (Hu eq_refl) as [-> | (-> & w & ->)].
    + simpl. rewrite app_nil_r. apply strip_first_tail, Hg.
    + simpl. inversion Hgs as [|a b [_ Hw] _]; subst.
      inversion Hw as [|a b [Hne Hsp] _]; subst.
      apply strip_stripped; [exact Hne | |].
      * apply (hd_Forall _ w " "%char Hne Hsp).
      * apply (last_Forall _ w " "%char Hne Hsp).
  - rewrite (fold_spaced gs _ Hgs), first_tail_app.
    apply strip_first_tail, Hall.
Qed.

(** ** The dict read back *)

Lemma dict_get_app_absent (d : dict) (k : str) (v : pyval) :
  dict_get d k = None -> dict_get (d ++ [(k, v)]) k = Some v.
Proof.
  induction d as [|[k' v'] d IH]; simpl.
  - rewrite eqb_refl. reflexivity.
  - destruct (Py.eqb k' k); [discriminate | exact IH].
Qed.

Lemma dict_set_absent (d : dict) (k : str) (v : pyval) :
  dict_get d k = None -> dict_set d k v = d ++ [(k, v)].
Proof.
  induction d as [|[k' v'] d IH]; simpl; [reflexivity|].
  destruct (Py.eqb k' k); [discriminate|]. intros H. rewrite IH; auto.
Qed.

Lemma dict_set_last (d : dict) (k : str) (v v' : pyval) :
  dict_get d k = None -> dict_set (d ++ [(k, v)]) k v' = d ++ [(k, v')].
Proof.
  induction d as [|[k' x] d IH]; simpl.
  - rewrite eqb_refl. reflexivity.
  - destruct (Py.eqb k' k); [discriminate|]. intros H. rewrite IH; auto.
Qed.

(** The values of one field, read in a row, end up as one atom or as the
    list of the atoms. *)
Lemma add_tag_list (d : dict) (k : str) (ss : list str) (l : list atom) :
  dict_get d k = None ->
  fold_left (fun tags nv => add_tag tags (fst nv) (snd nv))
            (map (fun s => (k, s)) ss) (d ++ [(k, PList l)])
  = d ++ [(k, PList (l ++ map token_atom ss))].
Proof.
  intros Hd. revert l. induction ss as [|s ss IH]; intros l.
  - simpl. rewrite app_nil_r. reflexivity.
  - cbn [map fold_left fst snd]. unfold add_tag at 2.
    rewrite (dict_get_app_absent d k _ Hd), (dict_set_last d k _ _ Hd).
    fold (token_atom s). rewrite IH, <- app_assoc. reflexivity.
Qed.

Lemma add_tag_field (d : dict) (k : str) (s : str) (ss : list str) :
  dict_get d k = None ->
  fold_left (fun tags nv => add_tag tags (fst nv) (snd nv))
            (map (fun s => (k, s)) (s :: ss)) d
  = d ++ [(k, match ss with
              | [] => PAtom (token_atom s)
              | _ => PList (map token_atom (s :: ss))
              end)].
Proof.
  intros Hd. cbn [map fold_left fst snd]. unfold add_tag at 2.
  rewrite Hd, (dict_set_absent d k _ Hd). fold (token_atom s).
  destruct ss as [|s2 ss]; [reflexivity|].
  cbn [map fold_left fst snd]. unfold add_tag at 2.
  rewrite (dict_get_app_absent d k _ Hd), (dict_set_last d k _ _ Hd).
  fold (token_atom s2).
  rewrite (add_tag_list d k ss _ Hd). reflexivity.
Qed.

(** ** The header order *)

Lemma str_in_In (x : str) (l : list str) : str_in x l = true <-> In x l.
Proof.
  unfold str_in. rewrite existsb_exists. split.
  - intros (y & Hy & E). apply eqb_eq in E. subst. exact Hy.
  - intros H. exists x. split; [exact H | apply eqb_refl].
Qed.

Lemma insert_sorted_perm (x : str) (l : list str) :
  Permutation (insert_sorted x l) (x :: l).
Proof.
  induction l as [|y l IH]; simpl; [reflexivity|].
  destruct (str_leb x y); [reflexivity|].
  rewrite IH. apply perm_swap.
Qed.

Lemma sorted_perm (l : list str) : Permutation (sorted l) l.
Proof.
  unfold sorted. induction l as [|x l IH]; simpl; [reflexivity|].
  rewrite insert_sorted_perm. constructor. exact IH.
Qed.

Lemma headers_In (m : dict) (h : str) : In h (headers m) <-> In h (keys m).
Proof.
  unfold headers. rewrite in_app_iff, !filter_In. split.
  - intros [[H _] | [H _]]; [exact H|].
    exact (Permutation_in _ (sorted_perm _) H).
  - intros H.
    destruct (str_in (Py.lower h) TERMS) eqn:E; [left; auto|].
    right. split.
    + exact (Permutation_in _ (Permutation_sym (sorted_perm _)) H).
    + apply negb_true_iff. destruct (str_in h _) eqn:Q; [|reflexivity].
      apply str_in_In, filter_In in Q. destruct Q as [_ Q]. congruence.
Qed.

Lemma headers_NoDup (m : dict) : NoDup (keys m) -> NoDup (headers m).
Proof.
  intros H. unfold headers. apply NoDup_app.
  - apply NoDup_filter, H.
  - apply NoDup_filter.
    exact (Permutation_NoDup (Permutation_sym (sorted_perm _)) H).
  - intros a Ha Hb. apply filter_In in Hb. destruct Hb as [_ Hb].
    apply negb_true_iff in Hb.
    apply str_in_In in Ha. congruence.
Qed.

Lemma dict_get_In (m : dict) (k : str) :
  In k (keys m) -> exists v, dict_get m k = Some v /\ In (k, v) m.
Proof.
  induction m as [|[k' v'] m IH]; simpl; [tauto|].
  destruct (Py.eqb k' k) eqn:E.
  - apply eqb_eq in E. subst. eauto.
  - intros [->|H]; [rewrite eqb_refl in E; discriminate|].
    destruct (IH H) as (v & Hv & Hin). eauto.
Qed.

Lemma dict_get_not_In (m : dict) (k : str) :
  ~ In k (keys m) -> dict_get m k = None.
Proof.
  induction m as [|[k' v'] m IH]; simpl; [reflexivity|].
  intros H. destruct (Py.eqb k' k) eqn:E.
  - apply eqb_eq in E. subst. tauto.
  - apply IH. tauto.
Qed.

Lemma dict_get_map (f : str -> pyval) (hs : list str) (k : str) :
  dict_get (map (fun h => (h, f h)) hs) k
  = if str_in k hs then Some (f k) else None.
Proof.
  induction hs as [|h hs IH]; [reflexivity|].
  simpl. unfold str_in in *. simpl.
  destruct (Py.eqb h k) eqn:E.
  - apply eqb_eq in E. subst. rewrite eqb_refl. reflexivity.
  - assert (E' : Py.eqb k h = false)
      by (apply eqb_neq; apply eqb_neq in E; congruence).
    rewrite E'. exact IH.
Qed.

(** Looking a field up in the record listed in header order is looking it
    up in the record. *)
Lemma dict_get_headers (m : dict) (k : str) :
  dict_get (map (fun h => (h, value_of m h)) (headers m)) k = dict_get m k.
Proof.
  rewrite dict_get_map. destruct (str_in k (headers m)) eqn:E.
  - apply str_in_In, headers_In in E.
    destruct (dict_get_In m k E) as (v & Hv & _).
    unfold value_of. rewrite Hv. reflexivity.
  - symmetry. apply dict_get_not_In. intros H.
    apply headers_In, str_in_In in H. congruence.
Qed.

Lemma dict_get_app_other (d : dict) (h k : str) (v : pyval) :
  h <> k -> dict_get (d ++ [(h, v)]) k = dict_get d k.
Proof.
  intros Hn. induction d as [|[k' v'] d IH]; simpl.
  - apply eqb_neq in Hn. rewrite Hn. reflexivity.
  - destruct (Py.eqb k' k); [reflexivity | exact IH].
Qed.

(** ** One value, written and read back *)

Lemma not_space_no_newline (c : ascii) :
  Py.isspace_char c = false -> c <> Textwrap.CR /\ c <> Textwrap.LF.
Proof. intros H. split; intros ->; discriminate. Qed.

Lemma no_newline_words (ws : list str) :
  Forall word ws -> no_newline (Py.join (lit " ") ws).
Proof.
  unfold no_newline. induction ws as [|w ws IH]; intros H; [constructor|].
  inversion H as [|a b [_ Hw] Hs]; subst.
  assert (Nw : Forall (fun c => c <> Textwrap.CR /\ c <> Textwrap.LF) w).
  { eapply Forall_impl; [|exact Hw]. apply not_space_no_newline. }
  destruct ws as [|w2 ws]; [exact Nw|].
  rewrite join_cons by discriminate.
  apply Forall_app. split; [exact Nw|].
  apply Forall_app. split; [|apply IH, Hs].
  repeat constructor; discriminate.
Qed.

Lemma strip_newlines_clean (s : str) :
  no_newline s -> strip_newlines s = s.
Proof.
  induction 1 as [|c s [H1 H2] _ IH]; [reflexivity|].
  simpl. destruct (Ascii.eqb_spec c Textwrap.CR); [congruence|].
  destruct (Ascii.eqb_spec c Textwrap.LF); [congruence|].
  rewrite IH. reflexivity.
Qed.

Lemma no_newline_first_tail (g : list str) :
  Forall word g -> no_newline (first_tail g).
Proof.
  intros H. destruct g as [|w g]; [constructor|]. unfold first_tail.
  apply Forall_app. split; [repeat constructor; discriminate|].
  apply no_newline_words, H.
Qed.

Lemma block_lines_clean (k : str) (g : list str) (gs : list (list str)) :
  wf_block (k, g, gs) ->
  Forall (fun l => l <> [] /\ no_newline l) (block_lines k g gs).
Proof.
  intros (Hk & Hg & Hgs). cbn [fst snd] in *. unfold block_lines.
  constructor.
  - split.
    + pose proof (header_not_nil k Hk) as Hne. cbv zeta in Hne.
      destruct (header_text k); [congruence | discriminate].
    + apply Forall_app. split.
      * apply Forall_forall. intros c Hc.
        destruct (header_chars k Hk c Hc) as [-> | [(Hs & _) _]];
          [split; discriminate | apply not_space_no_newline, Hs].
      * apply Forall_app. split; [repeat constructor; discriminate|].
        apply no_newline_first_tail, Hg.
  - apply Forall_map. eapply Forall_impl; [|exact Hgs].
    intros x [Hne Hx]. split; [discriminate|].
    apply Forall_app. split; [repeat constructor; discriminate|].
    apply no_newline_words, Hx.
Qed.

Lemma token_atom_text (s : str) :
  s <> lit "None" -> s <> lit "null" -> token_atom s = AStr s.
Proof.
  intros H1 H2. unfold token_atom.
  apply eqb_neq in H1, H2. rewrite H1, H2. reflexivity.
Qed.

(** The words of the text written for an atom. *)
Lemma atom_words (k : str) (a : atom) :
  wf_atom k a ->
  exists ws,
    Forall word ws
    /\ str_of_atom a = Py.join (lit " ") ws
    /\ token_atom (str_of_atom a) = a
    /\ (str_in k unbroken_fields = true ->
        length ws <= 1 \/ length k + 2 + length (str_of_atom a) <= 70).
Proof.
  destruct a as [|s|z]; simpl; [intros _| |tauto].
  - exists [lit "None"]. split.
    + constructor; [|constructor]. split; [discriminate|].
      vm_compute. repeat constructor.
    + split; [reflexivity|]. split; [reflexivity|]. intros _. left.
      simpl. lia.
  - intros (ws & Hw & -> & H1 & H2 & Hu). exists ws.
    split; [exact Hw|]. split; [reflexivity|].
    split; [apply token_atom_text; assumption | exact Hu].
Qed.

Lemma concat_words (gs : list (list str)) :
  Forall word (concat gs) -> Forall (fun x => x <> []) gs ->
  Forall (fun x => x <> [] /\ Forall word x) gs.
Proof.
  induction gs as [|x gs IH]; intros Hw Hne; [constructor|].
  simpl in Hw. apply Forall_app in Hw. destruct Hw as [Hx Hs].
  inversion Hne; subst. constructor; [split; assumption|].
  apply IH; assumption.
Qed.

(** One value of a field is written as a tag whose lines parse back into
    that value. *)
Lemma tag_text_block (k : str) (a : atom) :
  wf_key k -> wf_atom k a ->
  exists g gs,
    wf_block (k, g, gs)
    /\ tag_text (header_text k) a = block_text (k, g, gs)
    /\ token_atom (snd (block_pair (k, g, gs))) = a.
Proof.
  intros Hk Ha.
  destruct (atom_words k a Ha) as (ws & Hw & Es & Et & Hu).
  pose proof (header_not_nil k Hk) as Hne. cbv zeta in Hne.
  pose proof (header_length k Hk) as Hlen. cbv zeta in Hlen.
  pose proof (header_tidy k Hk) as Htidy. cbv zeta in Htidy.
  pose proof Hk as (Kne & K68 & Kc & Kh & Kl).
  set (H0 := header_text k ++ lit ":").
  destruct (wrap_first H0 ws (lit "    ") 70) as (g & gs & E & Hgs & Wr & Hall).
  - unfold H0. destruct (header_text k); discriminate.
  - exact Htidy.
  - unfold H0. change (lit ":") with [":"%char].
    rewrite last_app_cons. reflexivity.
  - unfold H0. rewrite length_app, Hlen. simpl. lia.
  - exact Hw.
  - assert (Hwg : Forall word g /\ Forall word (concat gs))
      by (rewrite E in Hw; apply Forall_app; exact Hw).
    destruct Hwg as [Hwg Hwc].
    pose proof (concat_words gs Hwc Hgs) as Hgs'.
    exists g, gs. split; [repeat split; assumption|]. split.
    + unfold tag_text, block_text, block_lines. cbn [fst snd].
      rewrite Es, (strip_newlines_clean _ (no_newline_words ws Hw)).
      f_equal.
      change (header_text k ++ lit ": " ++ Py.join (lit " ") ws)
        with (header_text k ++ ([":"%char] ++ lit " " ++ Py.join (lit " ") ws)).
      rewrite app_assoc.
      change (header_text k ++ [":"%char]) with H0.
      rewrite Wr. unfold H0.
      rewrite <- app_assoc. reflexivity.
    + unfold block_pair. cbn [fst snd].
      rewrite folded_value_words; [rewrite <- E, <- Es; exact Et| | |];
        try assumption.
      intros Hub. destruct (Hu Hub) as [H1 | Hfit].
      * destruct ws as [|w [|w2 ws]]; [| |simpl in H1; lia].
        -- left. apply (concat_nonempty_nil gs Hgs).
           destruct g; [symmetry; exact E | discriminate].
        -- destruct g as [|g1 g].
           ++ right. split; [reflexivity|]. exists w.
              destruct gs as [|x gs]; [discriminate|].
              inversion Hgs as [|? ? Hx Hrest]; subst.
              destruct x as [|x1 x]; [congruence|].
              simpl in E. injection E as -> E.
              destruct x; [|discriminate]. simpl in E.
              rewrite (concat_nonempty_nil gs Hrest (eq_sym E)).
              reflexivity.
           ++ left. apply (concat_nonempty_nil gs Hgs).
              simpl in E. injection E as _ E.
              destruct g; [symmetry; exact E | discriminate].
      * left. apply Hall. unfold H0. rewrite length_app, Hlen, <- Es.
        simpl. lia.
Qed.

(** ** A record, written and read back *)

Lemma atoms_blocks (k : str) (l : list atom) :
  wf_key k -> Forall (wf_atom k) l ->
  exists bl,
    length bl = length l
    /\ Forall wf_block bl
    /\ Forall (fun b => block_key b = k) bl
    /\ map (tag_text (header_text k)) l = map block_text bl
    /\ map (fun b => token_atom (snd (block_pair b))) bl = l.
Proof.
  intros Hk. induction 1 as [|a l Ha _ (bl & Hlen & Hwf & Hkey & Ht & Hd)].
  - exists []. repeat split; constructor.
  - destruct (tag_text_block k a Hk Ha) as (g & gs & Hb & Et & Ed).
    exists ((k, g, gs) :: bl). cbn [map length].
    rewrite Hlen, Et, Ht, Ed, Hd.
    split; [reflexivity|]. split; [constructor; assumption|].
    split; [constructor; [reflexivity | assumption]|].
    split; reflexivity.
Qed.

(** The tags written for one field. *)
Lemma field_blocks (strip_nulls : bool) (k : str) (v : pyval) :
  wf_key k -> wf_value strip_nulls k v ->
  exists bl,
    bl <> []
    /\ Forall wf_block bl
    /\ Forall (fun b => block_key b = k) bl
    /\ header_tags strip_nulls k v = map block_text bl
    /\ map (fun b => token_atom (snd (block_pair b))) bl = atoms_of v
    /\ (length bl = 1 -> exists a, v = PAtom a).
Proof.
  intros Hk Hv.
  assert (Hatoms : Forall (wf_atom k) (atoms_of v)).
  { destruct v as [a|l];
      [constructor; [exact (proj1 Hv) | constructor] | exact (proj2 Hv)]. }
  assert (Hkeep : (strip_nulls && is_None v) || is_null_token v = false).
  { destruct v as [[|s|z]|l]; simpl in *.
    - destruct strip_nulls; [|reflexivity]. destruct Hv as [_ Hv].
      exfalso. apply (Hv eq_refl). reflexivity.
    - destruct Hv as [(ws & _ & _ & H1 & H2 & _) _].
      apply eqb_neq in H1, H2. rewrite H1, H2.
      destruct strip_nulls; reflexivity.
    - tauto.
    - destruct strip_nulls; reflexivity. }
  destruct (atoms_blocks k (atoms_of v) Hk Hatoms)
    as (bl & Hlen & Hwf & Hkey & Ht & Hd).
  exists bl. split.
  - intros ->. destruct v as [a|l]; simpl in *; [discriminate|].
    destruct Hv as [Hv _]. lia.
  - split; [exact Hwf|]. split; [exact Hkey|]. split.
    + unfold header_tags. rewrite Hkeep. fold (header_text k).
      fold (atoms_of v). exact Ht.
    + split; [exact Hd|]. intros H1. rewrite H1 in Hlen.
      destruct v as [a|l]; [eauto|]. simpl in *. destruct Hv as [Hv _]. lia.
Qed.

Lemma join_join (sep : str) (Ls : list (list str)) :
  Forall (fun l => l <> []) Ls ->
  Py.join sep (map (Py.join sep) Ls) = Py.join sep (concat Ls).
Proof.
  induction 1 as [|l Ls Hl Hs IH]; [reflexivity|].
  destruct Ls as [|l2 Ls].
  - simpl. rewrite app_nil_r. reflexivity.
  - cbn [map]. rewrite join_cons by discriminate.
    cbn [map] in IH. rewrite IH.
    change (concat (l :: l2 :: Ls)) with (l ++ concat (l2 :: Ls)).
    rewrite (join_app sep l (concat (l2 :: Ls))); [reflexivity | exact Hl|].
    inversion Hs; subst. simpl. destruct l2; [congruence | discriminate].
Qed.

Lemma map_block_pair (k : str) (bl : list block) :
  Forall (fun b => block_key b = k) bl ->
  map block_pair bl = map (fun s => (k, s)) (map (fun b => snd (block_pair b)) bl).
Proof.
  induction 1 as [|b bl Hb _ IH]; [reflexivity|].
  simpl. rewrite IH. f_equal. unfold block_pair, block_key in *.
  simpl. rewrite Hb. reflexivity.
Qed.

(** The fields in header order: their tags, and the dict that reading the
    tags back builds. *)
Lemma fields_blocks (strip_nulls : bool) (m : dict) (hs : list str) :
  NoDup hs ->
  (forall h, In h hs ->
             wf_key h /\ exists v, dict_get m h = Some v
                                   /\ wf_value strip_nulls h v) ->
  exists bs,
    Forall wf_block bs
    /\ flat_map (fun h => match dict_get m h with
                          | Some values => header_tags strip_nulls h values
                          | None => []
                          end) hs
       = map block_text bs
    /\ forall d,
        (forall h, In h hs -> dict_get d h = None) ->
        fold_left (fun tags nv => add_tag tags (fst nv) (snd nv))
                  (map block_pair bs) d
        = d ++ map (fun h => (h, value_of m h)) hs.
Proof.
  induction 1 as [|h hs Hnot Hnd IH]; intros Hall.
  - exists []. split; [constructor|]. split; [reflexivity|].
    intros d _. simpl. rewrite app_nil_r. reflexivity.
  - destruct (Hall h (or_introl eq_refl)) as (Hk & v & Hv & Hwf).
    destruct (field_blocks strip_nulls h v Hk Hwf)
      as (bl & Hne & Hbl & Hkey & Ht & Hd & H1).
    destruct (IH (fun h' Hh' => Hall h' (or_intror Hh')))
      as (bs & Hbs & Ets & Hfold).
    exists (bl ++ bs). split; [apply Forall_app; split; assumption|]. split.
    + cbn [flat_map]. rewrite Hv, Ht, Ets, map_app. reflexivity.
    + intros d Hd0. rewrite map_app, fold_left_app.
      rewrite (map_block_pair h bl Hkey).
      assert (Hdh : dict_get d h = None) by (apply Hd0; left; reflexivity).
      assert (Ev : value_of m h = v) by (unfold value_of; rewrite Hv; reflexivity).
      destruct (map (fun b => snd (block_pair b)) bl) as [|s ss] eqn:Ess.
      { destruct bl; [congruence | discriminate]. }
      rewrite (add_tag_field d h s ss Hdh).
      assert (Evalue : match ss with
                       | [] => PAtom (token_atom s)
                       | _ => PList (map token_atom (s :: ss))
                       end = v).
      { assert (Em : map token_atom (s :: ss) = atoms_of v).
        { rewrite <- Ess, map_map. exact Hd. }
        destruct ss as [|s2 ss].
        - assert (length bl = 1).
          { apply (f_equal (@length _)) in Ess. rewrite length_map in Ess.
            exact Ess. }
          destruct (H1 H) as (a & ->). cbn [map atoms_of] in Em.
          injection Em as Em. rewrite Em. reflexivity.
        - destruct v as [a|l]; [discriminate|]. cbn [atoms_of] in Em.
          rewrite Em. reflexivity. }
      rewrite Evalue, Hfold.
      * cbn [map]. rewrite Ev, <- app_assoc. reflexivity.
      * intros h' Hh'. rewrite dict_get_app_other; [apply Hd0; right; exact Hh'|].
        intros ->. contradiction.
Qed.

Lemma blocks_lines_clean (bs : list block) :
  Forall wf_block bs ->
  Forall (fun l => l <> [] /\ no_newline l)
         (flat_map (fun b => block_lines (fst (fst b)) (snd (fst b)) (snd b)) bs).
Proof.
  induction 1 as [|[[k g] gs] bs Hb _ IH]; [constructor|].
  cbn [flat_map fst snd]. apply Forall_app. split; [|exact IH].
  apply block_lines_clean, Hb.
Qed.

(** C1 (amended). Tag-file round-trip.  Let [m] be a record whose field
    names are distinct, at most 68 characters long, free of whitespace,
    colons and capitals, with no underscore at either end, and whose
    values are [None] (when nulls are not stripped), a text, or a list of
    at least two of these, a text being words separated by single spaces,
    other than the tokens [None] and [null], and, in the fields
    [filename], [basename], [sha512] and [source], one word at most or
    short enough for the first line.  Then reading back what [_make_tags]
    writes succeeds and gives a dict that has, for every field name, the
    value [m] has: every field, every value, repeated values as a list in
    their order.  Its keys come in the header order of [_make_tags]. *)
Theorem tag_file_roundtrip (strip_nulls : bool) (m : dict) :
  wf_record strip_nulls m ->
  exists d,
    _load_tag_file (_make_tags m strip_nulls) = Ok d
    /\ (forall k, dict_get d k = dict_get m k)
    /\ keys d = headers m.
Proof.
  intros [Hnd Hall].
  destruct (fields_blocks strip_nulls m (headers m) (headers_NoDup m Hnd))
    as (bs & Hbs & Etags & Hfold).
  { intros h Hh. apply headers_In in Hh.
    destruct (dict_get_In m h Hh) as (v & Hv & Hin).
    pose proof (proj1 (Forall_forall _ _) Hall (h, v) Hin) as [Hk Hw].
    split; [exact Hk | exists v; split; [exact Hv | exact Hw]]. }
  exists (map (fun h => (h, value_of m h)) (headers m)).
  split; [|split].
  - unfold _make_tags, _load_tag_file. rewrite Etags.
    assert (Etext : Py.join CRLF (map block_text bs)
                    = Py.join CRLF
                        (flat_map (fun b => block_lines (fst (fst b))
                                              (snd (fst b)) (snd b)) bs)).
    { rewrite flat_map_concat_map, <- join_join.
      - rewrite map_map. reflexivity.
      - apply Forall_map, Forall_forall. intros b _. discriminate. }
    rewrite Etext.
    pose proof (blocks_lines_clean bs Hbs) as Hclean.
    assert (Hparse :
      _parse_tags None None
        (file_lines
           (Py.join CRLF
              (flat_map (fun b => block_lines (fst (fst b)) (snd (fst b))
                                              (snd b)) bs)))
      = Ok (map block_pair bs)).
    { apply (parse_tags_read_as _ _ (file_lines_join _ Hclean)).
      - eapply Forall_impl; [|exact Hclean]. intros l [Hl _]. exact Hl.
      - rewrite (parse_blocks bs Hbs None None). reflexivity. }
    rewrite Hparse. cbn [bind]. rewrite (Hfold []); [reflexivity|].
    reflexivity.
  - intros k. apply dict_get_headers.
  - unfold keys. rewrite map_map. apply map_id.
Qed.

Lemma words_check (ws : list str) :
  forallb (fun w => match w with
                    | [] => false
                    | _ => forallb (fun c => negb (Py.isspace_char c)) w
                    end) ws = true ->
  Forall word ws.
Proof.
  intros H. apply Forall_forall. intros w Hw.
  pose proof (proj1 (forallb_forall _ _) H w Hw) as Hc.
  destruct w as [|c w]; [discriminate|]. split; [discriminate|].
  apply Forall_forall. intros x Hx.
  pose proof (proj1 (forallb_forall _ _) Hc x Hx) as Hn.
  apply negb_true_iff in Hn. exact Hn.
Qed.

Lemma key_check (k : str) :
  forallb (fun c => negb (Py.isspace_char c)
                    && negb (Ascii.eqb c ":")
                    && Ascii.eqb (Py.lower_char c) c) k = true ->
  Forall key_char k.
Proof.
  intros H. apply Forall_forall. intros c Hc.
  pose proof (proj1 (forallb_forall _ _) H c Hc) as Hn.
  apply andb_true_iff in Hn. destruct Hn as [Hn H3].
  apply andb_true_iff in Hn. destruct Hn as [H1 H2].
  apply negb_true_iff in H1, H2. apply Ascii.eqb_neq in H2.
  apply Ascii.eqb_eq in H3. repeat split; assumption.
Qed.

Ltac wf_key_tac :=
  split; [discriminate|];
  split; [simpl; lia|];
  split; [apply key_check; reflexivity|];
  split; vm_compute; discriminate.

Ltac wf_text_tac ws :=
  exists (map lit ws);
  split; [apply words_check; reflexivity|];
  split; [reflexivity|];
  split; [vm_compute; discriminate|];
  split; [vm_compute; discriminate|];
  let H := fresh in
  intros H; first [ vm_compute in H; discriminate
                  | left; simpl; lia
                  | right; simpl; lia ].

Lemma tag_file_roundtrip_witness :
  (exists d,
      _load_tag_file (_make_tags record_long false) = Ok d
      /\ forall k, dict_get d k = dict_get record_long k)
  /\ (exists d,
         _load_tag_file (_make_tags record_AB false) = Ok d
         /\ dict_get d (lit "note") = Some (PList [AStr (lit "x"); AStr (lit "y")])
         /\ dict_get d (lit "title") = Some (PStr (lit "A"))).
Proof.
  split.
  - destruct (tag_file_roundtrip false record_long) as (d & H1 & H2 & _).
    + split.
      * repeat constructor; vm_compute; intuition discriminate.
      * unfold record_long.
        constructor; [|constructor; [|constructor; [|constructor]]];
          cbn [fst snd]; (split; [wf_key_tac|]).
        -- split; [|discriminate]. wf_text_tac ["Sound"%string].
        -- split; [|discriminate].
           wf_text_tac ["Interview"; "recorded"; "by"; "the"; "author";
                        "in"; "Ulaanbaatar,"; "Mongolia,"; "during";
                        "fieldwork"; "in"; "2019"]%string.
        -- split; [exact I | discriminate].
    + exists d. split; assumption.
  - destruct (tag_file_roundtrip false record_AB) as (d & H1 & H2 & _).
    + split.
      * repeat constructor; vm_compute; intuition discriminate.
      * unfold record_AB.
        constructor; [|constructor; [|constructor]];
          cbn [fst snd]; (split; [wf_key_tac|]).
        -- split; [|discriminate]. wf_text_tac ["A"%string].
        -- split; [simpl; lia|].
           constructor; [wf_text_tac ["x"%string]|].
           constructor; [wf_text_tac ["y"%string] | constructor].
    + exists d. split; [exact H1|].
      rewrite !H2. split; reflexivity.
Defined.

(** C1, as stated, fails: the value of [source] is wrapped at a space and
    read back without that space. *)
Lemma tag_file_roundtrip_counterexample :
  ~ (exists d,
       _load_tag_file (_make_tags record_source false) = Ok d
       /\ forall k, dict_get d k = dict_get record_source k).
Proof.
  intros (d & H & Hk). vm_compute in H. injection H as <-.
  specialize (Hk (lit "source")). vm_compute in Hk. discriminate.
Qed.

(** ** Lines the parser rejects or skips *)

Lemma mem_app (c : ascii) (a b : str) :
  Py.mem c (a ++ b) = Py.mem c a || Py.mem c b.
Proof. unfold Py.mem. apply existsb_app. Qed.

Lemma mem_Forall_false (c : ascii) (p : ascii -> bool) (s : str) :
  p c = false -> Forall (fun x => p x = true) s -> Py.mem c s = false.
Proof.
  intros Hc. induction 1 as [|x s Hx _ IH]; [reflexivity|].
  simpl. rewrite IH, orb_false_r.
  destruct (Ascii.eqb c x) eqn:E; [|reflexivity].
  apply Ascii.eqb_eq in E. congruence.
Qed.

Lemma mem_strip_by (c : ascii) (p : ascii -> bool) (s : str) :
  p c = false -> Py.mem c (Py.strip_by p s) = Py.mem c s.
Proof.
  intros Hc.
  destruct (strip_by_spec p s " "%char) as (pre & post & E & Hpre & Hpost & _).
  rewrite E at 2. rewrite !mem_app.
  rewrite (mem_Forall_false c p pre Hc Hpre),
          (mem_Forall_false c p post Hc Hpost).
  rewrite orb_false_r. reflexivity.
Qed.

Lemma find_char_mem (c : ascii) (s : str) :
  Py.mem c s = true -> exists i, Py.find [c] s = Some i.
Proof.
  induction s as [|x s IH]; [discriminate|].
  simpl. destruct (Ascii.eqb c x) eqn:E.
  - intros _. exists 0. reflexivity.
  - simpl. intros H. destruct (IH H) as [i ->]. exists (S i). reflexivity.
Qed.

Lemma split1_mem (c : ascii) (s : str) :
  Py.mem c s = true -> exists a b, Py.split1 c s = [a; b].
Proof.
  intros H. destruct (find_char_mem c s H) as [i E].
  unfold Py.split1. rewrite E. eauto.
Qed.

(** One round of [_parse_tags] on a line that starts a tag. *)
Lemma parse_tags_new_tag (line : str) (rest : list str)
      (tag_name tag_value : option str) :
  line <> [] -> Py.isspace line = false ->
  (tag_value = None \/ Py.isspace_char (hd " "%char line) = false) ->
  Py.mem ":" line = true ->
  exists name value,
    Py.split1 ":" (Py.strip line) = [name; value]
    /\ _parse_tags tag_name tag_value (line :: rest)
       = bind (_parse_tags
                 (Some (Py.replace_char " " "_" (Py.lower (Py.strip name))))
                 (Some value) rest)
              (fun r => Ok (yield_tag tag_name tag_value ++ r)).
Proof.
  intros Hne Hsp Hst Hc.
  assert (Hc' : Py.mem ":" (Py.strip line) = true)
    by (unfold Py.strip; rewrite mem_strip_by; [exact Hc | reflexivity]).
  destruct (split1_mem _ _ Hc') as (name & value & E).
  exists name, value. split; [exact E|].
  cbn [_parse_tags]. rewrite Hsp, Hc, E.
  destruct line as [|c l]; [congruence|]. cbn [length Nat.eqb orb negb].
  destruct tag_value as [v|]; [|reflexivity].
  destruct Hst as [Hst | Hst]; [discriminate|].
  rewrite Hst. reflexivity.
Qed.

Lemma parse_tags_bad_line (pre : list str) (line : str) (rest : list str) :
  Py.isspace_char (hd " "%char line) = false ->
  Py.mem ":" line = false ->
  forall tag_name tag_value,
  exists bad,
    In bad (pre ++ line :: rest)
    /\ _parse_tags tag_name tag_value (pre ++ line :: rest)
       = Raise (BagValidationError (lit "invalid tag: " ++ bad)).
Proof.
  intros Hhd Hc.
  assert (Hne : line <> []) by (intros ->; discriminate).
  induction pre as [|p pre IH]; intros tag_name tag_value.
  - exists line. split; [left; reflexivity|].
    cbn [app _parse_tags]. rewrite (isspace_false _ Hhd), Hc, Hhd.
    destruct line as [|c l]; [congruence|]. cbn [length Nat.eqb orb negb].
    destruct tag_value; reflexivity.
  - cbn [app].
    destruct ((length p =? 0) || Py.isspace p) eqn:Eb.
    { destruct (IH tag_name tag_value) as (bad & Hin & E).
      exists bad. split; [right; exact Hin|].
      cbn [_parse_tags]. rewrite Eb. exact E. }
    apply orb_false_iff in Eb. destruct Eb as [El Es].
    assert (Hp : p <> []) by (intros ->; discriminate).
    destruct (match tag_value with
              | Some _ => Py.isspace_char (hd " "%char p)
              | None => false
              end) eqn:Ef.
    { destruct tag_value as [v|]; [|discriminate].
      cbn [_parse_tags]. rewrite El, Es, Ef. cbn [orb].
      match goal with
      | |- context [_parse_tags tag_name (Some ?j) _] =>
          destruct (IH tag_name (Some j)) as (bad & Hin & E)
      end.
      exists bad. split; [right; exact Hin | exact E]. }
    destruct (Py.mem ":" p) eqn:Em.
    + assert (Hst : tag_value = None \/ Py.isspace_char (hd " "%char p) = false)
        by (destruct tag_value; [right; exact Ef | left; reflexivity]).
      destruct (parse_tags_new_tag p (pre ++ line :: rest) tag_name tag_value
                  Hp Es Hst Em) as (name & value & _ & E).
      rewrite E.
      match goal with
      | |- context [_parse_tags (Some ?n) (Some value) _] =>
          destruct (IH (Some n) (Some value)) as (bad & Hin & E')
      end.
      exists bad. split; [right; exact Hin|]. rewrite E'. reflexivity.
    + exists p. split; [left; reflexivity|].
      cbn [_parse_tags]. rewrite El, Es, Em. cbn [orb negb].
      destruct tag_value as [v|]; [|reflexivity].
      rewrite Ef. reflexivity.
Qed.

(** X1. A tag file with a non-blank line that does not start with
    whitespace and holds no colon does not load: [_load_tag_file] raises
    [BagValidationError] with the message [invalid tag: ] followed by a
    line of the file. *)
Theorem load_tag_file_invalid_line (text line : str) :
  In line (file_lines text) ->
  Py.isspace_char (hd " "%char line) = false ->
  Py.mem ":" line = false ->
  exists bad,
    In bad (file_lines text)
    /\ _load_tag_file text
       = Raise (BagValidationError (lit "invalid tag: " ++ bad)).
Proof.
  intros Hin Hhd Hc. apply in_split in Hin. destruct Hin as (pre & rest & E).
  destruct (parse_tags_bad_line pre line rest Hhd Hc None None)
    as (bad & Hb & Hp).
  exists bad. unfold _load_tag_file. rewrite E. split; [exact Hb|].
  rewrite Hp. reflexivity.
Qed.

Lemma load_tag_file_invalid_line_witness :
  exists bad,
    In bad (file_lines (lit "title: A" ++ CRLF ++ lit "no colon here" ++ CRLF
                        ++ lit "note: x"))
    /\ _load_tag_file (lit "title: A" ++ CRLF ++ lit "no colon here" ++ CRLF
                       ++ lit "note: x")
       = Raise (BagValidationError (lit "invalid tag: " ++ bad)).
Proof.
  apply (load_tag_file_invalid_line _ (lit "no colon here" ++ [Textwrap.LF])).
  - vm_compute. right. left. reflexivity.
  - reflexivity.
  - reflexivity.
Defined.

(** X2. Blank lines are skipped wherever they stand: a tag file parses
    to the same tags, or to the same error, with or without an empty or
    all-whitespace line, also between a tag and its folded lines. *)
Theorem parse_tags_skips_blank_lines (pre rest : list str) (blank : str)
        (tag_name tag_value : option str) :
  blank = [] \/ Py.isspace blank = true ->
  _parse_tags tag_name tag_value (pre ++ blank :: rest)
  = _parse_tags tag_name tag_value (pre ++ rest).
Proof.
  intros Hb. revert tag_name tag_value.
  induction pre as [|p pre IH]; intros tag_name tag_value.
  - cbn [app _parse_tags].
    destruct Hb as [-> | ->]; [reflexivity|]. rewrite orb_true_r. reflexivity.
  - cbn [app _parse_tags].
    destruct ((length p =? 0) || Py.isspace p); [apply IH|].
    destruct (Py.split1 ":" (Py.strip p)) as [|name [|value [|x l]]];
      destruct tag_value as [v|]; rewrite ?IH; reflexivity.
Qed.

Lemma parse_tags_skips_blank_lines_witness :
  _parse_tags None None
    [lit "note: a"; lit "   "; lit "  folded"; lit "title: T"]
  = _parse_tags None None [lit "note: a"; lit "  folded"; lit "title: T"].
Proof.
  apply (parse_tags_skips_blank_lines [lit "note: a"]
           [lit "  folded"; lit "title: T"] (lit "   ") None None).
  right. reflexivity.
Defined.

(** ** What a loaded tag file holds *)

Lemma lower_char_idempotent (c : ascii) :
  Py.lower_char (Py.lower_char c) = Py.lower_char c.
Proof. destruct c as [[] [] [] [] [] [] [] []]; reflexivity. Qed.

Lemma normal_name (x : str) :
  let n := Py.replace_char " " "_" (Py.lower x) in
  ~ In " "%char n /\ Py.lower n = n.
Proof.
  induction x as [|c x [IH1 IH2]]; [split; [intros [] | reflexivity]|].
  cbn [Py.lower Py.replace_char map] in *.
  split.
  - intros [H | H]; [|exact (IH1 H)].
    destruct (Ascii.eqb (Py.lower_char c) " ") eqn:E; [discriminate|].
    apply Ascii.eqb_neq in E. congruence.
  - f_equal; [|exact IH2].
    destruct (Ascii.eqb (Py.lower_char c) " "); [reflexivity|].
    apply lower_char_idempotent.
Qed.

Lemma strip_idempotent (s : str) : Py.strip (Py.strip s) = Py.strip s.
Proof. apply strip_by_idempotent. Qed.

Lemma yield_tag_loaded (tag_name tag_value : option str) :
  match tag_name with
  | Some x => ~ In " "%char x /\ Py.lower x = x
  | None => True
  end ->
  Forall (fun nv => loaded_name (fst nv) /\ Py.strip (snd nv) = snd nv)
         (yield_tag tag_name tag_value).
Proof.
  intros Hn. unfold yield_tag.
  destruct tag_name as [n|]; [|constructor].
  destruct tag_value as [v|]; [|constructor].
  destruct n as [|c n]; [constructor|]. cbn [name_set].
  constructor; [|constructor]. cbn [fst snd].
  split; [|apply strip_idempotent].
  destruct Hn as [H1 H2]. split; [discriminate|]. split; assumption.
Qed.

Lemma parse_tags_loaded (lines : list str) :
  forall tag_name tag_value r,
    match tag_name with
    | Some x => ~ In " "%char x /\ Py.lower x = x
    | None => True
    end ->
    _parse_tags tag_name tag_value lines = Ok r ->
    Forall (fun nv => loaded_name (fst nv) /\ Py.strip (snd nv) = snd nv) r.
Proof.
  induction lines as [|p lines IH]; intros tag_name tag_value r Hn.
  - cbn [_parse_tags]. intros H. injection H as <-.
    apply yield_tag_loaded, Hn.
  - cbn [_parse_tags].
    destruct ((length p =? 0) || Py.isspace p); [apply IH, Hn|].
    assert (Hnew :
      (if negb (Py.mem ":" p)
       then Raise (BagValidationError (lit "invalid tag: " ++ p))
       else
         match Py.split1 ":" (Py.strip p) with
         | [name; value] =>
             bind (_parse_tags
                     (Some (Py.replace_char " " "_"
                              (Py.lower (Py.strip name))))
                     (Some value) lines)
                  (fun r0 => Ok (yield_tag tag_name tag_value ++ r0))
         | _ => Raise IndexError
         end) = Ok r ->
      Forall (fun nv => loaded_name (fst nv) /\ Py.strip (snd nv) = snd nv) r).
    { destruct (negb (Py.mem ":" p)); [discriminate|].
      destruct (Py.split1 ":" (Py.strip p)) as [|name [|value [|x l]]];
        try discriminate.
      destruct (_parse_tags _ (Some value) lines) as [r0|e] eqn:E;
        [|discriminate].
      cbn [bind]. intros H. injection H as <-.
      apply Forall_app. split; [apply yield_tag_loaded, Hn|].
      exact (IH (Some _) _ _ (normal_name (Py.strip name)) E). }
    destruct tag_value as [v|]; [|exact Hnew].
    destruct (Py.isspace_char (hd " "%char p)); [apply IH, Hn | exact Hnew].
Qed.

Lemma eqb_sym (a b : str) : Py.eqb a b = Py.eqb b a.
Proof.
  destruct (Py.eqb a b) eqn:E.
  - apply eqb_eq in E. subst. symmetry. apply eqb_refl.
  - symmetry. apply eqb_neq. apply eqb_neq in E. congruence.
Qed.

Lemma keys_dict_set (d : dict) (k : str) (v : pyval) :
  keys (dict_set d k v)
  = if str_in k (keys d) then keys d else keys d ++ [k].
Proof.
  induction d as [|[k' v'] d IH]; [reflexivity|].
  unfold keys, str_in in *. cbn [dict_set map fst existsb].
  rewrite (eqb_sym k k').
  destruct (Py.eqb k' k) eqn:E; [reflexivity|].
  cbn [orb map fst]. rewrite IH.
  destruct (existsb (Py.eqb k) (map fst d)); reflexivity.
Qed.

Lemma dict_set_Forall (Q : str -> pyval -> Prop) (d : dict) (k : str)
      (v : pyval) :
  Forall (fun kv => Q (fst kv) (snd kv)) d -> Q k v ->
  Forall (fun kv => Q (fst kv) (snd kv)) (dict_set d k v).
Proof.
  intros Hd Hk. induction Hd as [|[k' v'] d H Hd IH];
    [constructor; [exact Hk | constructor]|].
  cbn [dict_set]. destruct (Py.eqb k' k) eqn:E.
  - apply eqb_eq in E. subst k'. constructor; [exact Hk | exact Hd].
  - constructor; [exact H | exact IH].
Qed.

Lemma dict_get_Forall (Q : str -> pyval -> Prop) (d : dict) (k : str)
      (v : pyval) :
  Forall (fun kv => Q (fst kv) (snd kv)) d -> dict_get d k = Some v -> Q k v.
Proof.
  induction 1 as [|[k' v'] d H _ IH]; [discriminate|].
  cbn [dict_get]. destruct (Py.eqb k' k) eqn:E; [|exact IH].
  apply eqb_eq in E. subst k'. intros H'. injection H' as <-. exact H.
Qed.

(** The dicts [_load_tag_file] builds. *)
Lemma add_tag_loaded (d : dict) (name value : str) :
  NoDup (keys d) ->
  Forall (fun kv => loaded_name (fst kv) /\ loaded_value (snd kv)) d ->
  loaded_name name -> Py.strip value = value ->
  NoDup (keys (add_tag d name value))
  /\ Forall (fun kv => loaded_name (fst kv) /\ loaded_value (snd kv))
            (add_tag d name value).
Proof.
  intros Hnd Hd Hname Hv. unfold add_tag.
  set (a := if Py.eqb value (lit "None") || Py.eqb value (lit "null")
            then ANone else AStr value).
  assert (Ha : loaded_atom a).
  { unfold a. destruct (Py.eqb value (lit "None")) eqn:E1; [exact I|].
    destruct (Py.eqb value (lit "null")) eqn:E2; [exact I|].
    cbn [orb loaded_atom]. apply eqb_neq in E1, E2. auto. }
  clearbody a.
  assert (Hk : forall v, NoDup (keys (dict_set d name v))).
  { intros v. rewrite keys_dict_set.
    destruct (str_in name (keys d)) eqn:E; [exact Hnd|].
    apply NoDup_app; [exact Hnd | repeat constructor; intros [] |].
    intros x Hx [<- | []].
    apply str_in_In in Hx. congruence. }
  split; [destruct (dict_get d name) as [[b|l]|]; apply Hk|].
  destruct (dict_get d name) as [[b|l]|] eqn:E;
    apply (dict_set_Forall (fun k v => loaded_name k /\ loaded_value v));
    try exact Hd; (split; [exact Hname|]).
  - pose proof (dict_get_Forall
                  (fun k v => loaded_name k /\ loaded_value v) _ _ _ Hd E)
      as [_ Hb].
    cbn [loaded_value length]. split; [lia|]. repeat constructor; assumption.
  - pose proof (dict_get_Forall
                  (fun k v => loaded_name k /\ loaded_value v) _ _ _ Hd E)
      as [_ [Hl1 Hl2]].
    cbn [loaded_value]. rewrite length_app. cbn [length]. split; [lia|].
    apply Forall_app. split; [exact Hl2 | repeat constructor; exact Ha].
  - exact Ha.
Qed.

Lemma load_tag_file_loaded (text : str) (d : dict) :
  _load_tag_file text = Ok d ->
  NoDup (keys d)
  /\ Forall (fun kv => loaded_name (fst kv) /\ loaded_value (snd kv)) d.
Proof.
  unfold _load_tag_file.
  destruct (_parse_tags None None (file_lines text)) as [pairs|e] eqn:E;
    [|discriminate].
  cbn [bind]. intros H. injection H as <-.
  assert (Hp := parse_tags_loaded _ None None _ I E).
  clear E.
  assert (G : forall d0,
             NoDup (keys d0) ->
             Forall (fun kv => loaded_name (fst kv) /\ loaded_value (snd kv)) d0 ->
             NoDup (keys (fold_left (fun tags nv => add_tag tags (fst nv) (snd nv))
                                    pairs d0))
             /\ Forall (fun kv => loaded_name (fst kv) /\ loaded_value (snd kv))
                       (fold_left (fun tags nv => add_tag tags (fst nv) (snd nv))
                                  pairs d0)).
  { induction Hp as [|[n v] pairs [Hn Hv] _ IH]; intros d0 H1 H2;
      [split; assumption|].
    cbn [fold_left fst snd] in *.
    destruct (add_tag_loaded d0 n v H1 H2 Hn Hv) as [H3 H4].
    apply IH; assumption. }
  apply G; constructor.
Qed.

(** X3. The names of a loaded tag file are normalised: whatever the text
    of the file, when [_load_tag_file] returns a dict, no key occurs twice
    in it, and every key is non-empty, holds no space and is in lower
    case. *)
Theorem load_tag_file_names (text : str) (d : dict) :
  _load_tag_file text = Ok d ->
  NoDup (keys d)
  /\ forall k, In k (keys d) ->
               k <> [] /\ ~ In " "%char k /\ Py.lower k = k.
Proof.
  intros H. destruct (load_tag_file_loaded text d H) as [H1 H2].
  split; [exact H1|]. intros k Hk.
  unfold keys in Hk. apply in_map_iff in Hk. destruct Hk as ([k' v] & <- & Hin).
  rewrite Forall_forall in H2. exact (proj1 (H2 _ Hin)).
Qed.

Lemma load_tag_file_names_witness :
  let d := [(lit "dc_title", PStr (lit "A"));
            (lit "note", PList [AStr (lit "x"); ANone])] in
  NoDup (keys d)
  /\ forall k, In k (keys d) ->
               k <> [] /\ ~ In " "%char k /\ Py.lower k = k.
Proof.
  apply (load_tag_file_names
           (lit "DC Title:  A " ++ CRLF ++ lit "Note: x" ++ CRLF
            ++ lit "note: null")).
  vm_compute. reflexivity.
Defined.

(** X4. The values of a loaded tag file: whatever the text of the file,
    when [_load_tag_file] returns a dict, each of its values is [None], a
    string without whitespace at its ends that is neither [None] nor
    [null], or a list of at least two of these; a list never has fewer
    than two elements, and no value is a number. *)
Theorem load_tag_file_values (text : str) (d : dict) (k : str) (v : pyval) :
  _load_tag_file text = Ok d ->
  dict_get d k = Some v ->
  loaded_value v.
Proof.
  intros H G. destruct (load_tag_file_loaded text d H) as [_ H2].
  exact (proj2 (dict_get_Forall
                  (fun k v => loaded_name k /\ loaded_value v) _ _ _ H2 G)).
Qed.

Lemma load_tag_file_values_witness :
  loaded_value (PList [AStr (lit "x"); ANone])
  /\ loaded_value (PStr (lit "12")).
Proof.
  split.
  - apply (load_tag_file_values
             (lit "size: 12" ++ CRLF ++ lit "Note: x" ++ CRLF
              ++ lit "note: null")
             [(lit "size", PStr (lit "12"));
              (lit "note", PList [AStr (lit "x"); ANone])]
             (lit "note")); vm_compute; reflexivity.
  - apply (load_tag_file_values
             (lit "size: 12" ++ CRLF ++ lit "Note: x" ++ CRLF
              ++ lit "note: null")
             [(lit "size", PStr (lit "12"));
              (lit "note", PList [AStr (lit "x"); ANone])]
             (lit "size")); vm_compute; reflexivity.
Defined.

(** ** The order of the fields in a tag file *)








(** ** The parts of a filename *)

Lemma find_char_prefix (c : ascii) (s : str) (i : nat) :
  Py.find [c] s = Some i -> ~ In c (firstn i s).
Proof.
  revert i. induction s as [|x s IH]; intros i; [discriminate|].
  cbn [Py.find Py.startswith].
  destruct (Ascii.eqb c x) eqn:E; cbn [andb].
  - intros H. injection H as <-. intros [].
  - destruct (Py.find [c] s) as [j|]; [|discriminate].
    cbn [option_map]. intros H. injection H as <-.
    cbn [firstn]. intros [H | H]; [|exact (IH j eq_refl H)].
    apply Ascii.eqb_neq in E. congruence.
Qed.

Lemma find_char_absent (c : ascii) (s : str) :
  Py.find [c] s = None -> ~ In c s.
Proof.
  induction s as [|x s IH]; [intros _ []|].
  cbn [Py.find Py.startswith].
  destruct (Ascii.eqb c x) eqn:E; cbn [andb]; [discriminate|].
  destruct (Py.find [c] s) as [j|]; [discriminate|].
  intros _ [H | H]; [|exact (IH eq_refl H)].
  apply Ascii.eqb_neq in E. congruence.
Qed.

Lemma strip_dots_edges (e : str) :
  hd " "%char (Py.strip_chars ["."%char] e) <> "."%char
  /\ last (Py.strip_chars ["."%char] e) " "%char <> "."%char.
Proof.
  unfold Py.strip_chars.
  destruct (strip_by_spec (fun c => Py.mem c ["."%char]) e " "%char)
    as (pre & post & _ & _ & _ & [-> | [H1 H2]]).
  - split; discriminate.
  - rewrite mem_dot in H1, H2. apply Ascii.eqb_neq in H1, H2.
    split; assumption.
Qed.

(** What [get_filename_parts] leaves behind: the object with a new
    basename, format and extension. *)
Lemma get_filename_parts_record (self f : File) :
  get_filename_parts self = Ok f ->
  exists b fmt e,
    f = mkFile self.(filename) self.(sha512) self.(sha256) self.(size)
               self.(mtime) self.(identifier) (PStr b) fmt (PStr e)
               self.(thumb) self.(preview) self.(dimensions)
               self.(duration) self.(extra)
    /\ ~ In "."%char b
    /\ (fmt = PNone \/ exists x, fmt = PStr x)
    /\ hd " "%char e <> "."%char /\ last e " "%char <> "."%char.
Proof.
  unfold get_filename_parts.
  match goal with
  | |- bind ?x _ = _ -> _ => destruct x as [[base e]|err]
  end; [|discriminate].
  cbn [bind]. unfold Py.split1.
  destruct (Py.find ["."%char] base) as [i|] eqn:E;
    intros H; injection H as <-.
  - exists (firstn i base), (PStr (skipn (S i) base)),
      (Py.strip_chars ["."%char] e).
    split; [reflexivity|]. split; [apply find_char_prefix, E|].
    split; [right; eauto | apply strip_dots_edges].
  - exists base, PNone, (Py.strip_chars ["."%char] e).
    split; [reflexivity|]. split; [apply find_char_absent, E|].
    split; [left; reflexivity | apply strip_dots_edges].
Qed.



Lemma get_filename_parts_same (a b fa : File) :
  a.(filename) = b.(filename) -> a.(identifier) = b.(identifier) ->
  get_filename_parts a = Ok fa ->
  get_filename_parts b
  = Ok (mkFile b.(filename) b.(sha512) b.(sha256) b.(size) b.(mtime)
               b.(identifier) fa.(basename) fa.(format) fa.(ext)
               b.(thumb) b.(preview) b.(dimensions) b.(duration) b.(extra)).
Proof.
  intros Hf Hi. unfold get_filename_parts. rewrite <- Hf, <- Hi.
  match goal with
  | |- bind ?x _ = _ -> _ => destruct x as [[base e]|err]
  end; [|discriminate].
  cbn [bind].
  destruct (Py.split1 "." base) as [|x [|y [|z l]]];
    intros H; injection H as <-; destruct a, b; cbn in *; subst; reflexivity.
Qed.

Section FileFacts.

Context {FS RNG : Type}.
Variable uuid4 : RNG -> str * RNG.
Variable os_rename : FS -> str -> str -> option FS.

Lemma get_uuid_frame (self : File) (w : World FS RNG) :
  let r := get_uuid uuid4 self w in
  (snd (fst r)).(filename) = self.(filename)
  /\ (snd r).(fs) = w.(fs) /\ (snd r).(log) = w.(log)
  /\ (snd r).(calls) = w.(calls)
  /\ snd (fst r) = set_identifier (snd (fst r)).(identifier) self
  /\ fst (fst r) = (snd (fst r)).(identifier).
Proof.
  unfold get_uuid.
  destruct (negb (truthy (identifier self))).
  - destruct (last_item _) as [m|e].
    + cbn. repeat split; reflexivity.
    + unfold _generate_uuid. destruct (uuid4 (rng w)) as [u r].
      cbn. repeat split; reflexivity.
  - cbn. repeat split; try reflexivity. symmetry. apply set_identifier_same.
Qed.


End FileFacts.


Section TagFacts.

Context {FS RNG : Type}.
Variable uuid4 : RNG -> str * RNG.
Variable os_rename : FS -> str -> str -> option FS.

(** The identifier [get_uuid] returns is set, as long as the random source
    hands out non-empty strings. *)
Lemma get_uuid_truthy (self : File) (w : World FS RNG) :
  (forall r, fst (uuid4 r) <> []) ->
  truthy (fst (fst (get_uuid uuid4 self w))) = true.
Proof.
  intros Hu. unfold get_uuid.
  destruct (truthy (identifier self)) eqn:Ht; cbn [negb]; [exact Ht|].
  destruct (last_item (Re.findall RE_UUID (filename self))) as [m|e] eqn:L.
  - cbn [fst]. apply truthy_PStr.
    assert (Hp : RE_UUID <> []) by discriminate.
    destruct (findall_from_last RE_UUID Hp _ _ _ L) as (k & _ & Hm & Hk & _).
    apply match_prefix_length in Hk. intros Hnil.
    apply (f_equal (@length ascii)) in Hm. rewrite Hnil, length_firstn in Hm.
    change (length RE_UUID) with 36 in *. cbn [length] in Hm. lia.
  - unfold _generate_uuid. specialize (Hu (rng w)).
    destruct (uuid4 (rng w)) as [u r]. cbn [fst] in *.
    apply truthy_PStr, Hu.
Qed.

(** X8. Tagging twice changes nothing more: with a random source that
    hands out non-empty strings, after a successful [tag] a second [tag]
    (without an explicit identifier) returns the same filename and leaves
    the object and the world, random source included, as the first call
    left them. *)
Theorem tag_idempotent (self : File) (_uuid : pyval) (w : World FS RNG)
        (fn : str) (self' : File) (w' : World FS RNG) :
  (forall r, fst (uuid4 r) <> []) ->
  tag uuid4 self _uuid w = (Ok (fn, self'), w') ->
  tag uuid4 self' PNone w' = (Ok (fn, self'), w').
Proof.
  intros Hu. unfold tag at 1.
  pose proof (get_uuid_truthy self w Hu) as Ht.
  destruct (get_uuid_frame uuid4 self w) as (_ & _ & _ & _ & G5 & G6).
  destruct (get_uuid uuid4 self w) as [[v s1] w1]. cbn [fst snd] in *.
  set (p := if truthy _uuid then (set_identifier _uuid self, w)
            else (s1, w1)).
  assert (Hp : truthy (fst p).(identifier) = true).
  { unfold p. destruct (truthy _uuid) eqn:E; cbn [fst]; [exact E|].
    rewrite <- G6. exact Ht. }
  destruct p as [s2 w2]. cbn [fst] in Hp. clear Ht G5 G6 v s1 w1.
  destruct (get_filename_parts s2) as [f|e] eqn:E; [|discriminate].
  intros H. injection H as <- <- <-.
  destruct (get_filename_parts_record s2 f E)
    as (b & fmt & x & -> & _).
  cbn [format filename].
  set (f' := if negb (truthy fmt)
             then set_format (PStr (lit "SRC"))
                    (mkFile (filename s2) (sha512 s2) (sha256 s2) (size s2)
                            (mtime s2) (identifier s2) (PStr b) fmt (PStr x)
                            (thumb s2) (preview s2) (dimensions s2)
                            (duration s2) (extra s2))
             else mkFile (filename s2) (sha512 s2) (sha256 s2) (size s2)
                         (mtime s2) (identifier s2) (PStr b) fmt (PStr x)
                         (thumb s2) (preview s2) (dimensions s2)
                         (duration s2) (extra s2)).
  assert (F1 : filename s2 = filename f')
    by (unfold f'; destruct (negb (truthy fmt)); reflexivity).
  assert (F2 : identifier s2 = identifier f')
    by (unfold f'; destruct (negb (truthy fmt)); reflexivity).
  unfold tag. cbn [truthy]. unfold get_uuid. rewrite <- F2, Hp. cbn [negb].
  rewrite (get_filename_parts_same s2 f' _ F1 F2 E).
  cbn [format basename ext filename].
  unfold f'. destruct (negb (truthy fmt)) eqn:Ef; cbn; rewrite ?Ef;
    reflexivity.
Qed.

(** X9. Renaming twice: when the composed name differs from the
    filename and the file-system rename succeeds, [rename] returns the
    composed name, stores it in the object and logs nothing; a second
    [rename] then finds that name unchanged: it returns it, logs one
    INFO record and leaves the file system as the first call left it. *)
Theorem rename_idempotent (self : File) (w : World FS RNG) (fn : str)
        (fs' : FS) :
  compose self = Ok fn -> fn <> self.(filename) ->
  os_rename w.(fs) self.(filename) fn = Some fs' ->
  rename os_rename self w = (Ok fn, set_filename fn self, set_fs fs' w)
  /\ rename os_rename (set_filename fn self) (set_fs fs' w)
     = (Ok fn, set_filename fn self,
        logger INFO (lit "Filename unchanged: " ++ fn) (set_fs fs' w)).
Proof.
  intros Hc Hn Hr. split.
  - unfold rename. rewrite Hc.
    assert (E : Py.eqb (filename self) fn = false)
      by (apply eqb_neq; congruence).
    rewrite E, Hr. reflexivity.
  - unfold rename.
    change (compose (set_filename fn self)) with (compose self).
    rewrite Hc. cbn [filename set_filename]. rewrite eqb_refl. reflexivity.
Qed.

End TagFacts.

Lemma tag_idempotent_witness :
  let uuid4 := fun r : unit => (Names.uuid, r) in
  let self := new_File (lit "data/spam.txt") in
  let r := tag uuid4 self PNone (mkWorld Disk.empty tt [] []) in
  exists self' w',
    r = (Ok (lit "data/spam.txt", self'), w')
    /\ tag uuid4 self' PNone w' = r.
Proof.
  intros uuid4 self r.
  assert (E : r = (Ok (lit "data/spam.txt",
                       mkFile (lit "data/spam.txt") PNone PNone PNone PNone
                              (PStr Names.uuid) (PStr (lit "data/spam"))
                              (PStr (lit "SRC")) (PStr (lit "txt"))
                              PNone PNone PNone PNone []),
                   mkWorld Disk.empty tt [] []))
    by (vm_compute; reflexivity).
  eexists. eexists. split; [exact E|].
  rewrite E.
  apply (tag_idempotent uuid4 self PNone (mkWorld Disk.empty tt [] [])).
  - intros r0. discriminate.
  - exact E.
Defined.

Lemma rename_idempotent_witness :
  let d := Disk.mk [(lit "data/test_plain-text.txt", [])] [] in
  exists fn d',
    fst (fst (rename Disk.rename Sample.plain_text (Sample.world d))) = Ok fn
    /\ rename Disk.rename (set_filename fn Sample.plain_text)
              (set_fs d' (Sample.world d))
       = (Ok fn, set_filename fn Sample.plain_text,
          logger INFO (lit "Filename unchanged: " ++ fn)
                 (set_fs d' (Sample.world d))).
Proof.
  intros d.
  exists (lit "data/test_plain-text.sample.b3050922-520f-426e-9a9c-cfe728bd178d.rst").
  exists (Disk.mk [(lit "data/test_plain-text.sample.b3050922-520f-426e-9a9c-cfe728bd178d.rst", [])] []).
  destruct (rename_idempotent Disk.rename Sample.plain_text (Sample.world d)
              (lit "data/test_plain-text.sample.b3050922-520f-426e-9a9c-cfe728bd178d.rst")
              (Disk.mk [(lit "data/test_plain-text.sample.b3050922-520f-426e-9a9c-cfe728bd178d.rst", [])] []))
    as [H1 H2].
  - vm_compute. reflexivity.
  - vm_compute. discriminate.
  - vm_compute. reflexivity.
  - split; [rewrite H1; reflexivity | exact H2].
Defined.

(** ** Names that are already conventional *)

Lemma find_char_cut (c : ascii) (s : str) (i : nat) :
  Py.find [c] s = Some i -> s = firstn i s ++ c :: skipn (S i) s.
Proof.
  revert i. induction s as [|x s IH]; intros i; [discriminate|].
  cbn [Py.find Py.startswith].
  destruct (Ascii.eqb c x) eqn:E; cbn [andb].
  - intros H. injection H as <-. apply Ascii.eqb_eq in E. subst. reflexivity.
  - destruct (Py.find [c] s) as [j|]; [|discriminate].
    cbn [option_map]. intros H. injection H as <-.
    cbn [firstn skipn app]. f_equal. apply IH. reflexivity.
Qed.

Section StableNames.

Context {FS RNG : Type}.
Variable os_rename : FS -> str -> str -> option FS.

(** X10. A conventional name is stable.  Let the filename be
    [stem.id.ext], where [id] is the identifier of the object (non-empty,
    without a dot, occurring neither in [stem] nor in [ext]) and [stem] and
    [ext] are non-empty and neither start nor end with a dot.  Then
    [get_filename_parts] succeeds, the name [rename] composes from the
    parts it sets is the filename again, and [rename] leaves the file on
    disk alone: it returns the filename and logs that it is unchanged. *)
Theorem conventional_name_stable (self : File) (stem id e : str)
        (w : World FS RNG) :
  self.(identifier) = PStr id ->
  id <> [] -> ~ In "."%char id ->
  Py.contains id stem = false -> Py.contains id e = false ->
  stem <> [] -> hd "."%char stem <> "."%char -> last stem "."%char <> "."%char ->
  e <> [] -> hd "."%char e <> "."%char -> last e "."%char <> "."%char ->
  self.(filename) = stem ++ "."%char :: id ++ "."%char :: e ->
  exists f,
    get_filename_parts self = Ok f
    /\ compose f = Ok self.(filename)
    /\ rename os_rename f w
       = (Ok self.(filename), f,
          logger INFO (lit "Filename unchanged: " ++ self.(filename)) w).
Proof.
  intros Hid Hne Hnd Hs He Hs0 Hs1 Hs2 He0 He1 He2 Hfn.
  pose proof (get_filename_parts_stem self stem id e Hid Hne Hnd Hs He
                Hs0 Hs1 Hs2 He0 He1 He2 Hfn) as G.
  match type of G with
  | _ = Ok ?t => set (f0 := t) in *
  end.
  exists f0. split; [exact G|].
  assert (C : compose f0 = Ok self.(filename)).
  { unfold f0. cbv zeta. unfold Py.split1.
    destruct (Py.find ["."%char] stem) as [i|] eqn:E.
    - pose proof (find_char_cut _ _ _ E) as Hcut.
      assert (Hb : firstn i stem <> []).
      { intros Hb. rewrite Hb in Hcut. rewrite Hcut in Hs1. apply Hs1.
        reflexivity. }
      assert (Hx : skipn (S i) stem <> []).
      { intros Hx. rewrite Hx in Hcut. rewrite Hcut in Hs2. apply Hs2.
        rewrite last_app_cons. reflexivity. }
      unfold compose.
      cbn [basename format identifier ext set_format set_basename set_ext
           filter].
      rewrite Hid, (truthy_PStr _ Hb), (truthy_PStr _ Hx),
        (truthy_PStr _ Hne), (truthy_PStr _ He0).
      cbn [as_strs as_str bind]. rewrite Hfn. f_equal.
      rewrite Hcut at 3.
      destruct (skipn (S i) stem) as [|c x]; [congruence|].
      destruct id as [|c1 id]; [congruence|].
      destruct e as [|c2 e]; [congruence|].
      cbn [Py.join]. rewrite <- !app_assoc. reflexivity.
    - unfold compose.
      cbn [basename format identifier ext set_format set_basename set_ext
           filter].
      rewrite Hid, (truthy_PStr _ Hs0), (truthy_PStr _ Hne),
        (truthy_PStr _ He0).
      cbn [truthy as_strs as_str bind]. rewrite Hfn. reflexivity. }
  assert (F : filename f0 = filename self).
  { unfold f0. cbv zeta.
    destruct (Py.split1 "." stem) as [|a [|b [|c l]]]; reflexivity. }
  clearbody f0. split; [exact C|].
  unfold rename. rewrite C, F, eqb_refl. reflexivity.
Qed.

End StableNames.

Lemma conventional_name_stable_witness :
  exists f,
    get_filename_parts
      (set_identifier (PStr Names.uuid) (new_File Names.spam)) = Ok f
    /\ compose f = Ok Names.spam
    /\ rename Disk.rename f (Sample.world Disk.empty)
       = (Ok Names.spam, f,
          logger INFO (lit "Filename unchanged: " ++ Names.spam)
                 (Sample.world Disk.empty)).
Proof.
  apply (conventional_name_stable Disk.rename
           (set_identifier (PStr Names.uuid) (new_File Names.spam))
           (lit "data/spam.SRC") Names.uuid (lit "txt")
           (Sample.world Disk.empty));
    try reflexivity; try discriminate.
  vm_compute. intros H.
  repeat (destruct H as [H | H]; [discriminate|]). exact H.
Defined.

(** ** The spelling of a derivation target *)





Section DeriveSpelling.

Context {FS RNG : Type}.
Variables (path_exists path_isfile : FS -> str -> bool).
Variable subprocess_run : FS -> str -> nat -> option Z * FS.
Variable globals : str -> option str.
Variable repr_list : list atom -> str.

Let derive_ := derive (RNG:=RNG) path_exists path_isfile subprocess_run
                      globals repr_list.


End DeriveSpelling.

(** ** The sidecar and the path *)

Section SidecarFacts.

Context {FS RNG : Type}.
Variable path_exists : FS -> str -> bool.
Variable get_root : FS -> str -> option str.
Variable chdir : FS -> str -> FS.
Variable relative_to : FS -> str -> str -> result str.
Variable uuid4 : RNG -> str * RNG.

(** X12. What [load_file] takes from the path does not depend on the
    sidecar: whatever the tag files hold, when [load_file] returns a File,
    its filename is the path relative to the bag root, and two runs that
    differ only in the text of the tag files return Files with the same
    filename, basename, format and extension, and leave the same world. *)
Theorem load_file_path_fields (read_text read_text' : FS -> str -> str)
        (path : str) (w w1 w1' : World FS RNG) (f f' : File) :
  load_file path_exists read_text get_root chdir relative_to uuid4 path w
  = (Ok (Some f), w1) ->
  load_file path_exists read_text' get_root chdir relative_to uuid4 path w
  = (Ok (Some f'), w1') ->
  (exists root,
      get_root w.(fs) path = Some root
      /\ relative_to (chdir w.(fs) root) path root = Ok f.(filename))
  /\ w1' = w1
  /\ f'.(filename) = f.(filename)
  /\ f'.(basename) = f.(basename)
  /\ f'.(format) = f.(format)
  /\ f'.(ext) = f.(ext).
Proof.
  unfold load_file.
  destruct (get_root (fs w) path) as [root|]; [|discriminate].
  cbn [fs set_fs].
  destruct (relative_to (chdir (fs w) root) path root) as [rel|e] eqn:R;
    [|discriminate].
  assert (G : filename (snd (fst (get_uuid uuid4 (new_File rel)
                                   (set_fs (chdir (fs w) root) w)))) = rel).
  { unfold get_uuid. cbn [identifier new_File truthy negb].
    destruct (last_item _); [reflexivity|].
    unfold _generate_uuid. destruct (uuid4 _). reflexivity. }
  destruct (get_uuid uuid4 (new_File rel) (set_fs (chdir (fs w) root) w))
    as [[v f0] w0]. cbn [fst snd] in G.
  destruct (as_str (identifier f0)) as [id|e]; [|discriminate].
  destruct (negb (Py.contains id rel)).
  { intros H H'. injection H as <- <-. injection H' as <- <-.
    split; [exists root; split; [reflexivity | rewrite G; exact R]|].
    repeat split. }
  destruct (get_filename_parts f0) as [f1|e] eqn:P; [|discriminate].
  assert (G1 : filename f1 = rel).
  { unfold get_filename_parts in P.
    match type of P with
    | bind ?x _ = _ => destruct x as [[base e]|err]
    end; [|discriminate].
    cbn [bind] in P.
    destruct (Py.split1 "." base) as [|a [|b [|c l]]];
      injection P as <-; exact G. }
  assert (Hroot : exists root0,
             Some root = Some root0
             /\ relative_to (chdir (fs w) root0) path root0 = Ok rel)
    by (exists root; split; [reflexivity | exact R]).
  destruct (format f1) as [[|[|c fmt]|z]|l];
    try (intros H H'; injection H as <- <-; injection H' as <- <-;
         rewrite G1; split; [exact Hroot | repeat split]).
  destruct (path_exists (fs w0) (sidecar_path id (c :: fmt)));
    [|intros H H'; injection H as <- <-; injection H' as <- <-;
      rewrite G1; split; [exact Hroot | repeat split]].
  destruct (_load_tag_file (read_text _ _)) as [tags|e]; [|discriminate].
  destruct (_load_tag_file (read_text' _ _)) as [tags'|e]; [|discriminate].
  intros H H'. injection H as <- <-. injection H' as <- <-.
  destruct (overlay_path_fields tags f1) as (A1 & A2 & A3 & A4).
  destruct (overlay_path_fields tags' f1) as (B1 & B2 & B3 & B4).
  rewrite A1, A2, A3, A4, B1, B2, B3, B4, G1.
  split; [exact Hroot | repeat split].
Qed.

End SidecarFacts.

Lemma load_file_path_fields_witness :
  exists f f',
    fst (Names.load Names.spam_disk Names.spam) = Ok (Some f)
    /\ fst (load_file Disk.exists_ (fun _ _ => lit "basename: other")
              Disk.get_root Disk.chdir Disk.relative_to Disk.uuid4
              Names.spam (mkWorld Names.spam_disk [] [] [])) = Ok (Some f')
    /\ f'.(filename) = f.(filename)
    /\ f'.(basename) = f.(basename)
    /\ f'.(format) = f.(format)
    /\ f'.(ext) = f.(ext)
    /\ f'.(identifier) <> f.(identifier).
Proof.
  pose (r := Names.load Names.spam_disk Names.spam).
  pose (r' := load_file Disk.exists_ (fun _ _ => lit "basename: other")
                Disk.get_root Disk.chdir Disk.relative_to Disk.uuid4
                Names.spam (mkWorld Names.spam_disk [] [] [])).
  assert (E : r = (Ok (Some
                (mkFile Names.spam PNone PNone (PStr (lit "12")) PNone
                   (PStr (lit "11111111-1111-1111-1111-111111111111"))
                   (PStr (lit "data/spam")) (PStr (lit "SRC"))
                   (PStr (lit "txt")) PNone PNone PNone PNone [])),
                   mkWorld Names.spam_disk [] [] []))
    by (vm_compute; reflexivity).
  assert (E' : r' = (Ok (Some
                (mkFile Names.spam PNone PNone PNone PNone
                   (PStr Names.uuid)
                   (PStr (lit "data/spam")) (PStr (lit "SRC"))
                   (PStr (lit "txt")) PNone PNone PNone PNone [])),
                   mkWorld Names.spam_disk [] [] []))
    by (vm_compute; reflexivity).
  destruct (load_file_path_fields Disk.exists_ Disk.get_root Disk.chdir
              Disk.relative_to Disk.uuid4 Disk.read
              (fun _ _ => lit "basename: other") Names.spam
              _ _ _ _ _ E E') as (_ & _ & H1 & H2 & H3 & H4).
  eexists. eexists. fold r. fold r'. rewrite E, E'.
  split; [reflexivity|]. split; [reflexivity|].
  repeat (split; [assumption|]). vm_compute. discriminate.
Defined.

(** ** The slug of a slug *)

Lemma sub_runs_none (p : ascii -> bool) (rep : str) (s : str) :
  Forall (fun c => p c = false) s ->
  forall in_run, Slugify.sub_runs p rep in_run s = s.
Proof.
  induction 1 as [|c s Hc _ IH]; intros in_run; [reflexivity|].
  cbn [Slugify.sub_runs]. rewrite Hc, IH. reflexivity.
Qed.

Lemma cleanup_numbers_none (s : str) :
  Forall (fun c => c <> ","%char) s ->
  forall prev, Slugify.cleanup_numbers prev s = s.
Proof.
  induction 1 as [|c s Hc _ IH]; intros prev; [reflexivity|].
  cbn [Slugify.cleanup_numbers].
  apply Ascii.eqb_neq in Hc. rewrite Hc, IH. reflexivity.
Qed.

Lemma slug_allowed_plain (c : ascii) :
  slug_allowed c = true ->
  Slugify.is_quote c = false /\ c <> ","%char /\ Py.lower_char c = c
  /\ Py.ord c < 128 /\ c <> "&"%char.
Proof.
  destruct c as [[] [] [] [] [] [] [] []]; intros H;
    try discriminate H;
    (split; [reflexivity|]; split; [discriminate|];
     split; [reflexivity|]; split; [cbv; lia | discriminate]).
Qed.

Lemma sub_runs_dash (s : str) :
  forall in_run,
    no_double_dash (Slugify.sub_runs Slugify.is_dash [Slugify.DEFAULT_SEPARATOR]
                                     in_run s)
    /\ (in_run = true ->
        Slugify.is_dash
          (hd " "%char (Slugify.sub_runs Slugify.is_dash
                          [Slugify.DEFAULT_SEPARATOR] in_run s)) = false).
Proof.
  induction s as [|c s IH]; intros in_run; [split; [exact I | reflexivity]|].
  cbn [Slugify.sub_runs].
  destruct (Slugify.is_dash c) eqn:E.
  - destruct in_run.
    + apply IH.
    + cbn [app]. split; [|discriminate].
      cbn [no_double_dash hd]. split; [intros _; apply IH; reflexivity|].
      apply IH.
  - split; [|intros _; exact E].
    cbn [no_double_dash]. split; [congruence | apply IH].
Qed.

Lemma no_double_dash_app (a b : str) :
  no_double_dash (a ++ b) -> no_double_dash a /\ no_double_dash b.
Proof.
  induction a as [|c a IH]; [intros H; split; [exact I | exact H]|].
  cbn [app no_double_dash]. intros [H1 H2].
  destruct (IH H2) as [Ha Hb]. split; [|exact Hb].
  split; [|exact Ha].
  intros Hc. specialize (H1 Hc). destruct a; [reflexivity | exact H1].
Qed.

Lemma no_double_dash_strip (p : ascii -> bool) (s : str) :
  no_double_dash s -> no_double_dash (Py.strip_by p s).
Proof.
  intros H.
  destruct (strip_by_spec p s " "%char) as (pre & post & E & _).
  rewrite E in H. apply no_double_dash_app in H. destruct H as [_ H].
  apply no_double_dash_app in H. exact (proj1 H).
Qed.

Lemma no_double_dash_firstn (n : nat) (s : str) :
  no_double_dash s -> no_double_dash (firstn n s).
Proof.
  intros H. rewrite <- (firstn_skipn n s) in H.
  exact (proj1 (no_double_dash_app _ _ H)).
Qed.

Lemma sub_runs_dash_fixed (s : str) :
  no_double_dash s ->
  forall in_run,
    (in_run = true -> Slugify.is_dash (hd " "%char s) = false) ->
    Slugify.sub_runs Slugify.is_dash [Slugify.DEFAULT_SEPARATOR] in_run s = s.
Proof.
  induction s as [|c s IH]; intros Hs in_run Hr; [reflexivity|].
  cbn [no_double_dash] in Hs. destruct Hs as [H1 H2].
  cbn [Slugify.sub_runs]. destruct (Slugify.is_dash c) eqn:E.
  - destruct in_run; [specialize (Hr eq_refl); cbn [hd] in Hr; congruence|].
    cbn [app]. rewrite (IH H2 true (fun _ => H1 eq_refl)).
    unfold Slugify.is_dash in E. apply Ascii.eqb_eq in E. subst c.
    reflexivity.
  - rewrite (IH H2 false); [reflexivity | discriminate].
Qed.

(** The shape of a slug. *)
Lemma slugify_shape (text : str) :
  let s := Slugify.slugify text 60 slug_allowed in
  no_double_dash s /\ Py.strip_by Slugify.is_dash s = s /\ length s <= 60.
Proof.
  cbv zeta. unfold Slugify.slugify. change (0 <? 60) with true. cbv iota.
  match goal with
  | |- context [Slugify.smart_truncate ?x 60] => set (t := x)
  end.
  assert (Ht : no_double_dash t)
    by (unfold t; apply no_double_dash_strip, sub_runs_dash).
  clearbody t. unfold Slugify.smart_truncate.
  change (60 =? 0) with false. cbv iota.
  destruct (length (Py.strip_by Slugify.is_dash t) <? 60) eqn:E.
  - split; [apply no_double_dash_strip, Ht|].
    split; [apply strip_by_idempotent|].
    apply Nat.ltb_lt in E. lia.
  - split; [apply no_double_dash_strip, no_double_dash_firstn,
            no_double_dash_strip, Ht|].
    split; [apply strip_by_idempotent|].
    etransitivity; [apply strip_by_length|]. apply firstn_le_length.
Qed.

(** X13. The slug of a slug is that slug: for an ASCII basename without
    [&], the string [File.slug] returns is again ASCII without [&], and
    [File.slug] on an object whose basename is that string returns it
    unchanged. *)
Theorem slug_idempotent (self : File) (b s : str) :
  self.(basename) = PStr b -> Slugify.plain b ->
  slug self = Ok s ->
  Slugify.plain s /\ slug (set_basename (PStr s) self) = Ok s.
Proof.
  intros Hb _. unfold slug. rewrite Hb. cbn [as_str bind basename
                                              set_basename].
  intros H. injection H as <-.
  pose proof (slugify_allowed b 60) as Ha.
  destruct (slugify_shape b) as (Hd & Hs & Hl).
  set (s := Slugify.slugify b 60 slug_allowed) in *. clearbody s.
  split.
  { unfold Slugify.plain. eapply Forall_impl; [|exact Ha].
    intros c Hc. cbv beta in Hc. apply slug_allowed_plain in Hc. tauto. }
  f_equal. unfold Slugify.slugify.
  assert (Hq : Forall (fun c => Slugify.is_quote c = false) s).
  { eapply Forall_impl; [|exact Ha]. intros c Hc.
    apply (slug_allowed_plain c Hc). }
  rewrite (sub_runs_none _ _ s Hq).
  assert (Hlow : Py.lower s = s).
  { unfold Py.lower. rewrite <- (map_id s) at 2. apply map_ext_Forall.
    eapply Forall_impl; [|exact Ha]. intros c Hc.
    apply (slug_allowed_plain c Hc). }
  rewrite Hlow.
  assert (Hf : filter (fun c => negb (Slugify.is_quote c)) s = s).
  { clear -Hq. induction Hq as [|c s Hc _ IH]; [reflexivity|].
    cbn [filter]. rewrite Hc, IH. reflexivity. }
  rewrite Hf.
  rewrite cleanup_numbers_none
    by (eapply Forall_impl; [|exact Ha]; intros c Hc;
        apply (slug_allowed_plain c Hc)).
  rewrite (sub_runs_none (fun c => negb (slug_allowed c)) _ s)
    by (eapply Forall_impl; [|exact Ha]; intros c Hc; cbv beta;
        rewrite Hc; reflexivity).
  rewrite (sub_runs_dash_fixed s Hd false) by discriminate.
  rewrite Hs. change (0 <? 60) with true. cbv iota.
  unfold Slugify.smart_truncate. change (60 =? 0) with false. cbv iota.
  rewrite Hs. destruct (length s <? 60); [reflexivity|].
  rewrite firstn_all2 by exact Hl. exact Hs.
Qed.

Lemma slug_idempotent_witness :
  Slugify.plain (lit "data/my-report_v2")
  /\ slug (set_basename (PStr (lit "data/my-report_v2"))
             (set_basename (PStr (lit "data/My  Report_v2!")) (new_File [])))
     = Ok (lit "data/my-report_v2").
Proof.
  apply (slug_idempotent
           (set_basename (PStr (lit "data/My  Report_v2!")) (new_File []))
           (lit "data/My  Report_v2!")).
  - reflexivity.
  - unfold Slugify.plain.
    repeat (constructor; [split; [cbv; lia | discriminate]|]). constructor.
  - vm_compute. reflexivity.
Defined.

(** ** Rightmost occurrences *)

Lemma startswith_length (p s : str) :
  Py.startswith p s = true -> length p <= length s.
Proof.
  revert s. induction p as [|x p IH]; intros [|y s]; simpl; try lia;
    try discriminate.
  intros H. apply andb_true_iff in H. destruct H as [_ H].
  apply IH in H. lia.
Qed.

Lemma rfind_Some (sub s : str) (i : nat) :
  sub <> [] ->
  Str.rfind sub s = Some i ->
  Py.startswith sub (skipn i s) = true
  /\ forall j, i < j -> Py.startswith sub (skipn j s) = false.
Proof.
  intros Hsub. revert i. induction s as [|x s IH]; intros i; [discriminate|].
  cbn [Str.rfind].
  destruct (Str.rfind sub s) as [k|] eqn:E.
  - intros H. injection H as <-. destruct (IH k eq_refl) as [H1 H2].
    split; [exact H1|]. intros [|j] Hj; [lia|]. apply H2. lia.
  - destruct (Py.startswith sub (x :: s)) eqn:E0; [|discriminate].
    intros H. injection H as <-. split; [exact E0|].
    intros [|j] Hj; [lia|]. cbn [skipn].
    clear -Hsub E. revert j. induction s as [|y s IHs]; intros j.
    + rewrite skipn_nil. apply startswith_nil_r, Hsub.
    + cbn [Str.rfind] in E.
      destruct (Str.rfind sub s) as [k|]; [discriminate|].
      destruct (Py.startswith sub (y :: s)) eqn:E1; [discriminate|].
      destruct j as [|j]; [exact E1 | apply IHs; reflexivity].
Qed.

Lemma rfind_None (sub s : str) :
  sub <> [] ->
  Str.rfind sub s = None ->
  forall j, Py.startswith sub (skipn j s) = false.
Proof.
  intros Hsub. induction s as [|y s IHs]; intros E j.
  - rewrite skipn_nil. apply startswith_nil_r, Hsub.
  - cbn [Str.rfind] in E.
    destruct (Str.rfind sub s) as [k|]; [discriminate|].
    destruct (Py.startswith sub (y :: s)) eqn:E1; [discriminate|].
    destruct j as [|j]; [exact E1 | apply IHs; reflexivity].
Qed.

Lemma rfind_last (sub s : str) (i : nat) :
  sub <> [] ->
  Py.startswith sub (skipn i s) = true ->
  (forall j, i < j -> Py.startswith sub (skipn j s) = false) ->
  Str.rfind sub s = Some i.
Proof.
  intros Hsub H1 H2.
  destruct (Str.rfind sub s) as [k|] eqn:E.
  - destruct (rfind_Some sub s k Hsub E) as [K1 K2].
    destruct (Nat.lt_trichotomy k i) as [L | [-> | L]]; [|reflexivity|].
    + rewrite (K2 i L) in H1. discriminate.
    + rewrite (H2 k L) in K1. discriminate.
  - rewrite (rfind_None sub s Hsub E i) in H1. discriminate.
Qed.

Lemma rfind_char_snoc (c : ascii) (s : str) :
  Py.rfind_char c (s ++ [c]) = Some (length s).
Proof.
  induction s as [|x s IH]; cbn [app Py.rfind_char length].
  - rewrite Ascii.eqb_refl. reflexivity.
  - rewrite IH. reflexivity.
Qed.

Lemma skipn_firstn_prefix (sub : str) (i n : nat) (d : str) :
  i + length sub <= n ->
  Py.startswith sub (skipn i (firstn n d)) = Py.startswith sub (skipn i d).
Proof.
  revert i d. induction n as [|n IH]; intros i d Hn.
  - assert (i = 0) by lia. assert (sub = [])
      by (destruct sub; [reflexivity | cbn [length] in Hn; lia]).
    subst. reflexivity.
  - destruct d as [|x d]; [rewrite firstn_nil; reflexivity|].
    destruct i as [|i].
    + cbn [skipn]. clear IH. revert n x d Hn.
      induction sub as [|y sub IHs]; intros n x d Hn; [reflexivity|].
      cbn [firstn Py.startswith]. f_equal.
      cbn [length] in Hn. destruct n as [|n].
      * destruct sub; [reflexivity | cbn [length] in Hn; lia].
      * destruct d as [|z d]; [reflexivity|]. apply IHs. cbn in *; lia.
    + cbn [firstn skipn]. apply IH. lia.
Qed.

(** X14. The description of an index card.  For a description longer
    than [n] characters, [_truncate] returns at most [n + 4] characters:
    when a full stop followed by a space lies within the first [n]
    characters, not at their very start, the description up to and
    including the last such full stop; otherwise the first [n] characters
    followed by [ ...]. *)
Theorem truncate_cut (d : str) (n : nat) :
  n < length d ->
  let r := _truncate (Some d) (Z.of_nat n) in
  length r <= n + 4
  /\ ((r = firstn n d ++ lit " ..."
       /\ forall i, 0 < i -> i + 2 <= n ->
                    Py.startswith (lit ". ") (skipn i d) = false)
      \/ (exists i,
             0 < i /\ i + 2 <= n
             /\ Py.startswith (lit ". ") (skipn i d) = true
             /\ (forall j, i < j -> j + 2 <= n ->
                           Py.startswith (lit ". ") (skipn j d) = false)
             /\ r = firstn (S i) d)).
Proof.
  intros Hn. cbv zeta. unfold _truncate.
  assert (E1 : (Z.of_nat n =? -1)%Z = false) by (apply Z.eqb_neq; lia).
  assert (E2 : (Z.of_nat (length d) <=? Z.of_nat n)%Z = false)
    by (apply Z.leb_gt; lia).
  rewrite E1, E2. cbn [orb]. unfold Str.slice_to.
  assert (E3 : (Z.of_nat n <? 0)%Z = false) by (apply Z.ltb_ge; lia).
  rewrite E3, Nat2Z.id. unfold Str.rpartition.
  assert (Hsub : lit ". " <> []) by discriminate.
  assert (Hcut : length (firstn n d) = n) by (rewrite length_firstn; lia).
  assert (Hout : forall j, n < j + 2 ->
             Py.startswith (lit ". ") (skipn j (firstn n d)) = false).
  { intros j Hj.
    destruct (Py.startswith (lit ". ") (skipn j (firstn n d))) eqn:E;
      [|reflexivity].
    apply startswith_length in E. rewrite length_skipn, Hcut in E.
    change (length (lit ". ")) with 2 in E. lia. }
  destruct (Str.rfind (lit ". ") (firstn n d)) as [i|] eqn:E.
  - destruct (rfind_Some _ _ _ Hsub E) as [H1 H2].
    assert (Hi : i + 2 <= n).
    { destruct (Nat.le_gt_cases (i + 2) n) as [L | L]; [exact L|].
      rewrite (Hout i L) in H1. discriminate. }
    rewrite (skipn_firstn_prefix (lit ". ") i n d Hi) in H1.
    cbn [fst snd]. rewrite firstn_firstn, Nat.min_l by lia.
    destruct i as [|i].
    + cbn [firstn]. split.
      * rewrite length_app, Hcut. change (length (lit " ...")) with 4. lia.
      * left. split; [reflexivity|]. intros j Hj Hjn.
        rewrite <- (skipn_firstn_prefix (lit ". ") j n d Hjn).
        apply H2, Hj.
    + destruct (firstn (S i) d) as [|c0 hd0] eqn:Eh.
      { apply (f_equal (@length ascii)) in Eh. rewrite length_firstn in Eh.
        cbn [length] in Eh. lia. }
      rewrite <- Eh.
      assert (Hr : hd [] (Str.rsplit1 " " (firstn (S i) d ++ lit ". "))
                   = firstn (S (S i)) d).
      { assert (HA : length (firstn (S i) d) = S i)
          by (rewrite length_firstn; lia).
        apply startswith_true in H1.
        change (length (lit ". ")) with 2 in H1.
        assert (Hd : d = firstn (S i) d ++ lit ". "
                           ++ skipn 2 (skipn (S i) d)).
        { rewrite <- H1. symmetry. apply firstn_skipn. }
        clear Eh H1.
        remember (firstn (S i) d) as A eqn:HeqA.
        remember (skipn 2 (skipn (S i) d)) as X eqn:HeqX.
        clear HeqA HeqX. rewrite Hd.
        change (lit ". ") with (["."%char] ++ [" "%char]).
        replace (A ++ (["."%char] ++ [" "%char]) ++ X)
          with ((A ++ ["."%char]) ++ [" "%char] ++ X)
          by (rewrite <- !app_assoc; reflexivity).
        replace (S (S i)) with (length (A ++ ["."%char]))
          by (rewrite length_app, HA; cbn [length]; lia).
        rewrite firstn_length_app.
        unfold Str.rsplit1. rewrite app_assoc, rfind_char_snoc. cbn [hd].
        apply firstn_length_app. }
      rewrite Hr. split.
      * rewrite length_firstn. lia.
      * right. exists (S i). split; [lia|]. split; [exact Hi|].
        split; [exact H1|]. split; [|reflexivity].
        intros j Hj Hjn.
        rewrite <- (skipn_firstn_prefix (lit ". ") j n d Hjn).
        apply H2, Hj.
  - cbn [fst snd]. split.
    + rewrite length_app, Hcut. change (length (lit " ...")) with 4. lia.
    + left. split; [reflexivity|]. intros j Hj Hjn.
      rewrite <- (skipn_firstn_prefix (lit ". ") j n d Hjn).
      apply (rfind_None _ _ Hsub E).
Qed.

Lemma truncate_cut_witness :
  let d := lit "Lorem ipsum dolor sit amet, consectetur adipiscing elit. Curabitur efficitur nunc ante, a finibus elit malesuada nec." in
  _truncate (Some d) 60
  = lit "Lorem ipsum dolor sit amet, consectetur adipiscing elit."
  /\ _truncate (Some d) 20 = lit "Lorem ipsum dolor si ..."
  /\ length (_truncate (Some d) 60) <= 60 + 4.
Proof.
  intros d.
  split; [vm_compute; reflexivity|]. split; [vm_compute; reflexivity|].
  apply (truncate_cut d 60). vm_compute. lia.
Defined.

(** ** Where the bag root is looked for *)

Lemma contains_false_at (sub s : str) (j : nat) :
  Py.contains sub s = false -> Py.startswith sub (skipn j s) = false.
Proof.
  intros H. apply contains_false_find in H. exact (find_None _ _ H j).
Qed.

Lemma contains_false_intro (sub s : str) :
  (forall j, Py.startswith sub (skipn j s) = false) ->
  Py.contains sub s = false.
Proof.
  intros H. unfold Py.contains.
  destruct (Py.find sub s) as [i|] eqn:E; [|reflexivity].
  apply find_Some in E. destruct E as [E _]. rewrite H in E. discriminate.
Qed.

(** The last [/data] of a path. *)
Lemma rpartition_data (r rest : str) :
  Py.contains (lit "/data") rest = false ->
  Str.rpartition (lit "/data") (r ++ lit "/data" ++ rest)
  = (r, lit "/data", rest).
Proof.
  intros H. unfold Str.rpartition.
  assert (Hsub : lit "/data" <> []) by discriminate.
  rewrite (rfind_last (lit "/data") _ (length r) Hsub).
  - rewrite firstn_length_app, (skipn_length_app r).
    change (length (lit "/data")) with (length (lit "/data") + 0).
    rewrite (skipn_length_app (lit "/data")). reflexivity.
  - rewrite <- (Nat.add_0_r (length r)), skipn_length_app.
    apply startswith_app.
  - intros j Hj.
    replace j with (length r + (j - length r)) by lia.
    rewrite skipn_length_app.
    remember (j - length r) as k eqn:Hk.
    assert (0 < k) by lia. clear Hk Hj.
    destruct k as [|[|[|[|[|k]]]]]; [lia| | | | |];
      try (cbn [skipn app lit list_ascii_of_string];
           destruct rest; reflexivity).
    change (S (S (S (S (S k))))) with (length (lit "/data") + k).
    rewrite skipn_length_app. apply contains_false_at, H.
Qed.

Section RootFacts.

Context {FS : Type}.
Variable path_isdir : FS -> str -> bool.
Variable path_isfile : FS -> str -> bool.
Variable resolve : FS -> str -> str.

Let is_root_ := is_root path_isdir path_isfile.
Let get_root_ := get_root path_isdir path_isfile resolve.

(** X15. Where [get_root] looks.  With [p] the resolved path (and the
    empty path not a directory), [get_root] returns [r] exactly when [r]
    is a bag root and either [r] is [p] itself, or [p] is not a bag root
    and [r] is what precedes the last [/data] in [p]: no other ancestor of
    the path is tried. *)
Theorem get_root_last_data (fs : FS) (path r : str) :
  path_isdir fs [] = false ->
  let p := resolve fs path in
  get_root_ fs path = Some r
  <-> is_root_ fs r = true
      /\ (r = p
          \/ (is_root_ fs p = false
              /\ exists rest,
                  p = r ++ lit "/data" ++ rest
                  /\ Py.contains (lit "/data") rest = false)).
Proof.
  intros Hempty p. unfold get_root_, get_root. fold p.
  fold (is_root_ fs p).
  assert (Hnil : is_root_ fs [] = false).
  { unfold is_root_, is_root. rewrite Hempty. reflexivity. }
  assert (Hsub : lit "/data" <> []) by discriminate.
  change (lit "/" ++ DATA_DIR) with (lit "/data").
  split.
  - destruct (is_root_ fs p) eqn:Ep.
    + intros H. injection H as <-. split; [exact Ep | left; reflexivity].
    + unfold Str.rpartition.
      destruct (Str.rfind (lit "/data") p) as [i|] eqn:E; cbn [fst].
      * fold (is_root_ fs (firstn i p)).
        destruct (is_root_ fs (firstn i p)) eqn:Er; [|discriminate].
        intros H. injection H as <-. split; [exact Er|]. right.
        split; [reflexivity|].
        destruct (rfind_Some _ _ _ Hsub E) as [H1 H2].
        exists (skipn (length (lit "/data")) (skipn i p)). split.
        -- apply startswith_true in H1. rewrite <- H1.
           symmetry. apply firstn_skipn.
        -- apply contains_false_intro. intros j.
           rewrite !skipn_skipn. apply H2.
           change (length (lit "/data")) with 5. lia.
      * fold (is_root_ fs []). rewrite Hnil. discriminate.
  - intros [Hr [-> | (Hp & rest & Hrest & Hc)]].
    + rewrite Hr. reflexivity.
    + rewrite Hp, Hrest, (rpartition_data r rest Hc). cbn [fst].
      fold (is_root_ fs r). rewrite Hr. reflexivity.
Qed.

End RootFacts.

Lemma get_root_last_data_witness :
  let isdir := fun (d : Disk.t) p => existsb (Py.eqb p) (Disk.dirs d) in
  let d := Disk.mk [(lit "/bag/bagit.txt", [])]
                   [lit "/bag"; lit "/bag/data"; lit "/bag/html"] in
  get_root isdir Disk.isfile (fun _ p => p) d (lit "/bag/data/a/spam.txt")
  = Some (lit "/bag")
  /\ get_root isdir Disk.isfile (fun _ p => p) d (lit "/bag/html/index.html")
     = None.
Proof.
  intros isdir d. split.
  - apply (get_root_last_data isdir Disk.isfile (fun _ p => p) d
             (lit "/bag/data/a/spam.txt") (lit "/bag") eq_refl).
    split; [reflexivity|]. right. split; [reflexivity|].
    exists (lit "/a/spam.txt"). split; reflexivity.
  - vm_compute. reflexivity.
Defined.

(** ** The width of the lines of a tag file *)

Lemma expandtabs_chars (P : ascii -> Prop) (s : str) :
  P " "%char ->
  Forall (fun c => c <> Textwrap.TAB -> P c) s ->
  forall col, Forall P (Textwrap.expandtabs col s).
Proof.
  intros Hsp. induction 1 as [|c s Hc _ IH]; intros col; [constructor|].
  cbn [Textwrap.expandtabs].
  destruct (Ascii.eqb c Textwrap.TAB) eqn:E.
  - apply Forall_app. split; [|apply IH].
    apply Forall_forall. intros x Hx. apply repeat_spec in Hx. subst. exact Hsp.
  - constructor; [|apply IH]. apply Hc. apply Ascii.eqb_neq, E.
Qed.

(** After [_munge_whitespace] a character is a space or no whitespace. *)
Lemma munge_whitespace_chars (text : str) :
  Forall (fun c => c = " "%char \/ Textwrap.whitespace c = false)
         (Textwrap.munge_whitespace text).
Proof.
  unfold Textwrap.munge_whitespace. apply Forall_map.
  apply Forall_forall. intros c _.
  destruct (Textwrap.whitespace c) eqn:E; [left; reflexivity | right; exact E].
Qed.

Lemma munged_no_newline (c : ascii) :
  c = " "%char \/ Textwrap.whitespace c = false ->
  c <> Textwrap.CR /\ c <> Textwrap.LF.
Proof.
  intros [-> | H]; [split; discriminate|].
  split; intros ->; discriminate.
Qed.

(** A chunk is whitespace throughout or holds none. *)
Lemma split_chunks_uniform (s : str) :
  Forall (fun c => Forall (fun x => Textwrap.whitespace x = true) c
                   \/ Forall (fun x => Textwrap.whitespace x = false) c)
         (Textwrap.split_chunks s).
Proof.
  induction s as [|c s IH]; [constructor|].
  cbn [Textwrap.split_chunks].
  destruct (Textwrap.split_chunks s) as [|[|d w] r] eqn:E.
  - constructor; [|constructor].
    destruct (Textwrap.whitespace c) eqn:Ec;
      [left | right]; repeat constructor; exact Ec.
  - constructor; [|constructor].
    destruct (Textwrap.whitespace c) eqn:Ec;
      [left | right]; repeat constructor; exact Ec.
  - inversion IH as [|? ? Hd Hr]; subst.
    destruct (Bool.eqb (Textwrap.whitespace c) (Textwrap.whitespace d)) eqn:Eb.
    + apply Bool.eqb_prop in Eb. constructor; [|exact Hr].
      destruct Hd as [Hd | Hd]; [left | right];
        (constructor; [|exact Hd]); inversion Hd; subst; congruence.
    + constructor; [|constructor; assumption].
      destruct (Textwrap.whitespace c) eqn:Ec;
        [left | right]; repeat constructor; exact Ec.
Qed.

Lemma Forall_concat_parts {A} (P : A -> Prop) (ls : list (list A)) :
  Forall P (concat ls) -> Forall (Forall P) ls.
Proof.
  induction ls as [|l ls IH]; [constructor|].
  cbn [concat]. intros H. apply Forall_app in H. destruct H as [H1 H2].
  constructor; [exact H1 | apply IH, H2].
Qed.

Lemma Forall_concat_all {A} (P : A -> Prop) (ls : list (list A)) :
  Forall (Forall P) ls -> Forall P (concat ls).
Proof.
  induction 1 as [|l ls H _ IH]; [constructor|].
  cbn [concat]. apply Forall_app. split; assumption.
Qed.

Lemma take_fit_fits (W : nat) (chunks : list str) :
  forall cur,
    chunks = fst (Textwrap.take_fit W cur chunks)
             ++ snd (Textwrap.take_fit W cur chunks)
    /\ (fst (Textwrap.take_fit W cur chunks) <> [] ->
        cur + total_length (fst (Textwrap.take_fit W cur chunks)) <= W).
Proof.
  induction chunks as [|c chunks IH]; intros cur;
    [split; [reflexivity | intros H; exfalso; apply H; reflexivity]|].
  cbn [Textwrap.take_fit].
  destruct (cur + length c <=? W) eqn:E;
    [|split; [reflexivity | intros H; exfalso; apply H; reflexivity]].
  destruct (IH (cur + length c)) as [H1 H2].
  destruct (Textwrap.take_fit W (cur + length c) chunks) as [l r].
  cbn [fst snd] in *. split; [cbn [app]; f_equal; exact H1|].
  intros _. unfold total_length in *. cbn [fold_right].
  destruct l as [|x l].
  - cbn. apply Nat.leb_le in E. lia.
  - assert (Hx : x :: l <> []) by discriminate. specialize (H2 Hx). lia.
Qed.

Lemma removelast_Forall {A} (P : A -> Prop) (l : list A) :
  Forall P l -> Forall P (removelast l).
Proof.
  induction 1 as [|x l Hx Hl IH]; [constructor|].
  cbn [removelast]. destruct l; [constructor|].
  constructor; assumption.
Qed.

Lemma removelast_total (l : list str) :
  total_length (removelast l) <= total_length l.
Proof.
  induction l as [|x l IH]; [reflexivity|].
  cbn [removelast]. destruct l as [|y l]; [unfold total_length; cbn; lia|].
  unfold total_length in *. cbn [fold_right removelast] in *. lia.
Qed.

Lemma drop_trailing_keeps (P : str -> Prop) (l : list str) :
  Forall P l -> Forall P (Textwrap.drop_trailing l).
Proof.
  intros H. unfold Textwrap.drop_trailing.
  destruct (rev l) as [|c r]; [exact H|].
  destruct (Textwrap.blank c); [apply removelast_Forall, H | exact H].
Qed.

Lemma drop_trailing_total (l : list str) :
  total_length (Textwrap.drop_trailing l) <= total_length l.
Proof.
  unfold Textwrap.drop_trailing.
  destruct (rev l) as [|c r]; [reflexivity|].
  destruct (Textwrap.blank c); [apply removelast_total | reflexivity].
Qed.

Lemma blank_whitespace (c : str) :
  Forall (fun x => Textwrap.whitespace x = true) c -> Textwrap.blank c = true.
Proof.
  intros H. unfold Textwrap.blank. apply forallb_forall.
  rewrite Forall_forall in H. intros x Hx. apply whitespace_isspace, H, Hx.
Qed.

Section LineWidth.

Variable W : nat.
Variable indent : str.
Hypothesis indent_fits : length indent <= W.
Hypothesis indent_clean : no_newline indent.

Let chunk_ok (c : str) : Prop :=
  no_newline c
  /\ (Forall (fun x => Textwrap.whitespace x = true) c
      \/ Forall (fun x => Textwrap.whitespace x = false) c).

Lemma wrap_chunks_lines (fuel : nat) :
  forall started chunks,
    Forall chunk_ok chunks ->
    Forall (tag_line W indent)
           (Textwrap.wrap_chunks fuel W indent started chunks).
Proof.
  induction fuel as [|fuel IH]; intros started chunks Hc; [constructor|].
  cbn [Textwrap.wrap_chunks].
  destruct chunks as [|c0 rest0]; [constructor|].
  set (ind := if started then indent else []).
  assert (Hind : no_newline ind /\ length ind <= W
                 /\ (ind = [] \/ ind = indent)).
  { unfold ind. destruct started.
    - split; [exact indent_clean|]. split; [exact indent_fits | right; reflexivity].
    - split; [constructor|]. split; [cbn; lia | left; reflexivity]. }
  destruct Hind as (I1 & I2 & I3).
  set (chunks1 := if Textwrap.blank c0 && started then rest0 else c0 :: rest0).
  assert (H1 : Forall chunk_ok chunks1).
  { unfold chunks1. destruct (Textwrap.blank c0 && started); [|exact Hc].
    inversion Hc; assumption. }
  clearbody chunks1. clear Hc.
  destruct (take_fit_fits (W - length ind) chunks1 0) as [T1 T2].
  destruct (Textwrap.take_fit (W - length ind) 0 chunks1) as [cur ch] eqn:ET.
  cbn [fst snd] in T1, T2.
  assert (Hcur : Forall chunk_ok cur /\ Forall chunk_ok ch).
  { rewrite T1 in H1. apply Forall_app in H1. exact H1. }
  destruct Hcur as [Hcur Hch].
  set (hl := Textwrap.handle_long_word (W - length ind) cur ch).
  assert (Hhl : Forall chunk_ok (fst hl) /\ Forall chunk_ok (snd hl)
                /\ (total_length (fst hl) <= W - length ind
                    \/ exists c, fst hl = [c])).
  { unfold hl, Textwrap.handle_long_word.
    destruct ch as [|c rest].
    - cbn [fst snd]. split; [exact Hcur|]. split; [constructor|]. left.
      destruct cur; [cbn; lia|]. apply T2. discriminate.
    - destruct (W - length ind <? length c).
      + destruct cur as [|x cur'].
        * cbn [fst snd]. inversion Hch as [|? ? Hc1 Hr1]; subst.
          split; [constructor; [exact Hc1 | constructor]|].
          split; [exact Hr1|]. right. eauto.
        * cbn [fst snd]. split; [exact Hcur|]. split; [exact Hch|].
          left. apply T2. discriminate.
      + cbn [fst snd]. split; [exact Hcur|]. split; [exact Hch|]. left.
        destruct cur; [cbn; lia|]. apply T2. discriminate. }
  destruct hl as [cur2 ch2]. cbn [fst snd] in Hhl.
  destruct Hhl as (Hc2 & Hch2 & Hw).
  pose proof (drop_trailing_keeps chunk_ok cur2 Hc2) as Hd.
  assert (Hline : Textwrap.drop_trailing cur2 <> [] ->
                  tag_line W indent
                    (ind ++ concat (Textwrap.drop_trailing cur2))).
  { intros Hne. split.
    - unfold no_newline. apply Forall_app. split; [exact I1|].
      apply Forall_concat_all.
      eapply Forall_impl; [|exact Hd]. intros c [Hc _]. exact Hc.
    - destruct Hw as [Hw | [c Hc]].
      + left. rewrite length_app, <- total_length_concat.
        pose proof (drop_trailing_total cur2). lia.
      + subst cur2. unfold Textwrap.drop_trailing in *. cbn [rev app] in *.
        destruct (Textwrap.blank c) eqn:Eb; [cbn in Hne; congruence|].
        right. exists c. cbn [concat]. rewrite app_nil_r. split.
        * destruct I3 as [-> | ->]; [left | right]; reflexivity.
        * inversion Hc2 as [|? ? [_ [Hws | Hnw]] _]; subst; [|exact Hnw].
          rewrite (blank_whitespace c Hws) in Eb. discriminate. }
  destruct (Textwrap.drop_trailing cur2) as [|x l] eqn:Ed.
  - apply IH, Hch2.
  - constructor; [apply Hline; discriminate | apply IH, Hch2].
Qed.

Lemma wrap_lines (text : str) :
  Forall (tag_line W indent) (Textwrap.wrap text W indent).
Proof.
  unfold Textwrap.wrap. apply wrap_chunks_lines.
  pose proof (split_chunks_uniform (Textwrap.munge_whitespace text)) as Hu.
  pose proof (munge_whitespace_chars text) as Hm.
  rewrite <- (concat_split_chunks (Textwrap.munge_whitespace text)) in Hm.
  apply Forall_concat_parts in Hm.
  rewrite Forall_forall in *. intros c Hc. split; [|apply Hu, Hc].
  specialize (Hm c Hc). unfold no_newline.
  eapply Forall_impl; [|exact Hm]. intros x. apply munged_no_newline.
Qed.

End LineWidth.

Lemma indent_width : length (lit "    ") <= 70.
Proof. change (length (lit "    ")) with 4. lia. Qed.

Lemma indent_no_newline : no_newline (lit "    ").
Proof.
  change (lit "    ") with [" "; " "; " "; " "]%char.
  repeat constructor; discriminate.
Qed.

(** X16. The lines of a tag file.  For every metadata dict, what
    [_make_tags] writes is a sequence of lines joined by CR LF, none of
    which holds a carriage return or a line feed (newlines inside a value
    are written as spaces), and each of which is at most 70 characters
    long, unless it consists of a single word without whitespace, at the
    start of the line or behind the four-space indent. *)
Theorem make_tags_line_width (metadata : dict) (strip_nulls : bool) :
  exists lines,
    _make_tags metadata strip_nulls = Py.join CRLF lines
    /\ Forall (tag_line 70 (lit "    ")) lines.
Proof.
  unfold _make_tags.
  set (tags := flat_map _ (headers metadata)).
  assert (Ht : Forall (fun t => exists L,
                           t = Py.join CRLF L
                           /\ L <> []
                           /\ Forall (tag_line 70 (lit "    ")) L) tags).
  { unfold tags. apply Forall_flat_map. apply Forall_forall. intros h _.
    destruct (dict_get metadata h) as [values|]; [|constructor].
    unfold header_tags.
    destruct ((strip_nulls && is_None values) || is_null_token values);
      [constructor|].
    apply Forall_map. apply Forall_forall. intros a _.
    unfold tag_text.
    match goal with
    | |- context [Textwrap.wrap ?t 70 (lit "    ")] =>
        pose proof (wrap_lines 70 (lit "    ") indent_width indent_no_newline
                      t) as Hw;
        destruct (Textwrap.wrap t 70 (lit "    ")) as [|l L] eqn:E
    end.
    - exists [[]]. split; [reflexivity|]. split; [discriminate|].
      constructor; [|constructor]. split; [constructor | left; cbn; lia].
    - exists (l :: L). split; [reflexivity|]. split; [discriminate | exact Hw]. }
  clearbody tags.
  assert (Hex : exists Ls,
             tags = map (Py.join CRLF) Ls
             /\ Forall (fun L => L <> []) Ls
             /\ Forall (Forall (tag_line 70 (lit "    "))) Ls).
  { induction Ht as [|t tags (L & -> & Hne & HL) _ (Ls & -> & H1 & H2)].
    - exists []. repeat split; constructor.
    - exists (L :: Ls). split; [reflexivity|].
      split; constructor; assumption. }
  destruct Hex as (Ls & -> & H1 & H2).
  exists (concat Ls). split; [apply join_join, H1|].
  apply Forall_concat_all, H2.
Qed.

(** ** The name of a new file *)

Lemma rfind_char_absent (c : ascii) (s : str) :
  ~ In c s -> Py.rfind_char c s = None.
Proof.
  induction s as [|x s IH]; [reflexivity|].
  intros H. cbn [Py.rfind_char]. rewrite IH by (intros G; apply H; right; exact G).
  destruct (Ascii.eqb x c) eqn:E; [|reflexivity].
  apply Ascii.eqb_eq in E. exfalso. apply H. left. exact E.
Qed.

Lemma rfind_char_app_absent (c : ascii) (a b : str) :
  ~ In c b -> Py.rfind_char c (a ++ b) = Py.rfind_char c a.
Proof.
  intros H. induction a as [|x a IH]; [apply rfind_char_absent, H|].
  cbn [app Py.rfind_char]. rewrite IH. reflexivity.
Qed.

Lemma rfind_char_last_one (c : ascii) (a b : str) :
  ~ In c b -> Py.rfind_char c (a ++ c :: b) = Some (length a).
Proof.
  intros H. induction a as [|x a IH]; cbn [app Py.rfind_char length].
  - rewrite (rfind_char_absent c b H), Ascii.eqb_refl. reflexivity.
  - rewrite IH. reflexivity.
Qed.

Lemma rfind_char_bound (c : ascii) (s : str) (i : nat) :
  Py.rfind_char c s = Some i ->
  i < length s /\ skipn i s = c :: skipn (S i) s.
Proof.
  revert i. induction s as [|x s IH]; intros i; [discriminate|].
  cbn [Py.rfind_char].
  destruct (Py.rfind_char c s) as [j|].
  - intros H. injection H as <-. destruct (IH j eq_refl) as [H1 H2].
    cbn [length skipn]. split; [lia | exact H2].
  - destruct (Ascii.eqb x c) eqn:E; [|discriminate].
    intros H. injection H as <-. apply Ascii.eqb_eq in E. subst.
    cbn. split; [lia | reflexivity].
Qed.

(** [os.path.splitext] on a name whose last component has a stem without
    a dot and an extension. *)
Lemma splitext_simple (b e : str) :
  b <> [] -> last b "/"%char <> "/"%char -> ~ In "."%char b ->
  ~ In "."%char e -> ~ In "/"%char e ->
  Py.splitext (b ++ "."%char :: e) = (b, "."%char :: e).
Proof.
  intros Hb Hl Hnd He Hs. unfold Py.splitext.
  rewrite (rfind_char_last_one "." b e He).
  assert (Hs' : ~ In "/"%char ("."%char :: e))
    by (intros [H | H]; [discriminate | exact (Hs H)]).
  rewrite (rfind_char_app_absent "/" b _ Hs').
  rewrite firstn_length_app.
  assert (Hsk : skipn (length b) (b ++ "."%char :: e) = "."%char :: e).
  { rewrite <- (Nat.add_0_r (length b)), skipn_length_app. reflexivity. }
  rewrite Hsk.
  set (start := match Py.rfind_char "/" b with
                | Some i => S i
                | None => 0
                end).
  assert (Hstart : start < length b).
  { unfold start. destruct (Py.rfind_char "/" b) as [i|] eqn:E.
    - destruct (rfind_char_bound _ _ _ E) as [H1 H2].
      destruct (Nat.eq_dec (S i) (length b)) as [Heq | Hneq]; [|lia].
      exfalso. apply Hl.
      rewrite <- (firstn_skipn i b), H2.
      rewrite Heq, skipn_all, last_app_cons. reflexivity.
    - destruct b; [congruence | cbn; lia]. }
  assert (Hle : (start <=? length b) = true) by (apply Nat.leb_le; lia).
  rewrite Hle.
  assert (Hcomp : forallb (Ascii.eqb ".")
                    (firstn (length b - start)
                            (skipn start (b ++ "."%char :: e))) = false).
  { rewrite skipn_app.
    replace (start - length b) with 0 by lia. cbn [skipn].
    rewrite firstn_app, length_skipn.
    replace (length b - start - (length b - start)) with 0 by lia.
    cbn [firstn]. rewrite app_nil_r, firstn_all2 by (rewrite length_skipn; lia).
    destruct (skipn start b) as [|x t] eqn:Ex.
    - apply (f_equal (@length ascii)) in Ex. rewrite length_skipn in Ex.
      cbn in Ex. lia.
    - cbn [forallb].
      destruct (Ascii.eqb "." x) eqn:E; [|reflexivity].
      apply Ascii.eqb_eq in E. exfalso. apply Hnd.
      rewrite <- (firstn_skipn start b), Ex. apply in_or_app. right.
      left. symmetry. exact E. }
  rewrite Hcomp. reflexivity.
Qed.

Lemma strip_leading_dot (e : str) :
  e <> [] -> ~ In "."%char e ->
  Py.strip_chars ["."%char] ("."%char :: e) = e.
Proof.
  intros He Hd. unfold Py.strip_chars.
  replace ("."%char :: e) with (["."%char] ++ e ++ [])
    by (rewrite app_nil_r; reflexivity).
  apply strip_by_core with (d := " "%char).
  - repeat constructor.
  - constructor.
  - exact He.
  - rewrite mem_dot. apply Ascii.eqb_neq. apply hd_not_in; assumption.
  - rewrite mem_dot. apply Ascii.eqb_neq. apply last_not_in; assumption.
Qed.

Section NewFile.

Context {FS RNG : Type}.
Variable uuid4 : RNG -> str * RNG.

(** X17. The name of a new file.  Let the filename be [b.e], where the
    stem [b] holds no dot and does not end with a slash and the extension
    [e] is non-empty and holds no dot and no slash, and let [u] be a
    non-empty identifier that does not occur in the filename.  Then
    [tag(_uuid=u)] leaves the world alone and sets the basename to [b],
    the format to [SRC], the identifier to [u] and the extension to [e],
    and the name [rename] composes is [b.SRC.u.e]. *)
Theorem tag_new_file (self : File) (b e u : str) (w : World FS RNG) :
  self.(filename) = b ++ "."%char :: e ->
  b <> [] -> last b "/"%char <> "/"%char -> ~ In "."%char b ->
  e <> [] -> ~ In "."%char e -> ~ In "/"%char e ->
  u <> [] -> Py.contains u self.(filename) = false ->
  exists f,
    tag uuid4 self (PStr u) w = (Ok (self.(filename), f), w)
    /\ f.(basename) = PStr b
    /\ f.(format) = PStr (lit "SRC")
    /\ f.(identifier) = PStr u
    /\ f.(ext) = PStr e
    /\ compose f
       = Ok (b ++ lit ".SRC." ++ u ++ "."%char :: e).
Proof.
  intros Hfn Hb Hl Hnd He Hed Hes Hu Hc.
  unfold tag. rewrite (truthy_PStr u Hu).
  unfold get_filename_parts.
  cbn [identifier set_identifier filename as_str bind].
  rewrite (truthy_PStr u Hu), Hc, Hfn.
  rewrite (splitext_simple b e Hb Hl Hnd Hed Hes).
  cbn [bind]. rewrite (split1_none "." b Hnd), (strip_leading_dot e He Hed).
  cbn [format set_basename set_format set_ext truthy negb filename].
  eexists. split; [cbn [filename set_identifier]; rewrite Hfn; reflexivity|].
  cbn [basename format identifier ext set_format].
  repeat (split; [reflexivity|]).
  unfold compose.
  cbn [basename format identifier ext set_format set_basename set_ext
       set_identifier filter].
  rewrite (truthy_PStr b Hb), (truthy_PStr u Hu), (truthy_PStr e He).
  cbn [truthy lit list_ascii_of_string as_strs as_str bind].
  f_equal. destruct u as [|c1 u]; [congruence|].
  destruct e as [|c2 e]; [congruence|].
  cbn [Py.join]. rewrite <- ?app_assoc. reflexivity.
Qed.

End NewFile.

Lemma tag_new_file_witness :
  exists f,
    tag Disk.uuid4 (new_File (lit "data/spam.txt")) (PStr Names.uuid)
        (Sample.world Disk.empty)
    = (Ok (lit "data/spam.txt", f), Sample.world Disk.empty)
    /\ f.(basename) = PStr (lit "data/spam")
    /\ f.(format) = PStr (lit "SRC")
    /\ f.(identifier) = PStr Names.uuid
    /\ f.(ext) = PStr (lit "txt")
    /\ compose f
       = Ok (lit "data/spam" ++ lit ".SRC." ++ Names.uuid
             ++ "."%char :: lit "txt").
Proof.
  apply (tag_new_file Disk.uuid4 (new_File (lit "data/spam.txt"))
           (lit "data/spam") (lit "txt") Names.uuid
           (Sample.world Disk.empty));
    try reflexivity; try discriminate;
    vm_compute; intros H;
    repeat (destruct H as [H | H]; [discriminate|]); exact H.
Defined.

(** ** Numbers and newlines in values *)

Lemma strip_newlines_cr_lf (t : str) :
  strip_newlines (Textwrap.CR :: Textwrap.LF :: t) = " "%char :: strip_newlines t.
Proof. reflexivity. Qed.

Lemma strip_newlines_cr (c : ascii) (t : str) :
  c <> Textwrap.LF ->
  strip_newlines (Textwrap.CR :: c :: t) = " "%char :: strip_newlines (c :: t).
Proof.
  intros H. apply Ascii.eqb_neq in H.
  change (strip_newlines (Textwrap.CR :: c :: t))
    with (" "%char :: if Ascii.eqb c Textwrap.LF then strip_newlines t
                      else strip_newlines (c :: t)).
  rewrite H. reflexivity.
Qed.

Lemma strip_newlines_lf (t : str) :
  strip_newlines (Textwrap.LF :: t) = " "%char :: strip_newlines t.
Proof. reflexivity. Qed.

Lemma strip_newlines_other (c : ascii) (t : str) :
  c <> Textwrap.CR -> c <> Textwrap.LF ->
  strip_newlines (c :: t) = c :: strip_newlines t.
Proof.
  intros H1 H2. apply Ascii.eqb_neq in H1, H2.
  cbn [strip_newlines]. rewrite H1, H2. reflexivity.
Qed.

Lemma strip_newlines_idempotent (s : str) :
  strip_newlines (strip_newlines s) = strip_newlines s.
Proof.
  assert (Hsp : forall t, strip_newlines (" "%char :: t)
                          = " "%char :: strip_newlines t) by reflexivity.
  assert (G : forall n s, length s <= n ->
                          strip_newlines (strip_newlines s) = strip_newlines s).
  { clear s. induction n as [|n IH]; intros s Hs.
    - destruct s; [reflexivity | cbn in Hs; lia].
    - destruct s as [|c t]; [reflexivity|].
      cbn [length] in Hs.
      destruct (Ascii.eqb_spec c Textwrap.CR) as [-> | H1].
      + destruct t as [|c' t']; [reflexivity|].
        cbn [length] in Hs.
        destruct (Ascii.eqb_spec c' Textwrap.LF) as [-> | H2].
        * rewrite strip_newlines_cr_lf, Hsp. f_equal. apply IH. lia.
        * rewrite (strip_newlines_cr c' t' H2), Hsp. f_equal. apply IH.
          cbn [length]. lia.
      + destruct (Ascii.eqb_spec c Textwrap.LF) as [-> | H2].
        * rewrite strip_newlines_lf, Hsp. f_equal. apply IH. lia.
        * rewrite !(strip_newlines_other c _ H1 H2). f_equal. apply IH. lia. }
  apply (G (length s)). lia.
Qed.

(** A text with a newline in it is written with a space in its place. *)
Lemma strip_newlines_fixed (s : str) :
  strip_newlines s = s \/ In " "%char (strip_newlines s).
Proof.
  assert (G : forall n s, length s <= n ->
                          strip_newlines s = s \/ In " "%char (strip_newlines s)).
  { clear s. induction n as [|n IH]; intros s Hs.
    - destruct s; [left; reflexivity | cbn in Hs; lia].
    - destruct s as [|c t]; [left; reflexivity|].
      cbn [length] in Hs. cbn [strip_newlines].
      destruct (Ascii.eqb c Textwrap.CR); [right; left; reflexivity|].
      destruct (Ascii.eqb c Textwrap.LF); [right; left; reflexivity|].
      destruct (IH t ltac:(lia)) as [-> | H];
        [left; reflexivity | right; right; exact H]. }
  apply (G (length s)). lia.
Qed.

Lemma null_token_newlines (s : str) :
  is_null_token (PStr (strip_newlines s)) = is_null_token (PStr s).
Proof.
  destruct (strip_newlines_fixed s) as [-> | H]; [reflexivity|].
  assert (E : is_null_token (PStr (strip_newlines s)) = false).
  { cbn [is_null_token]. apply orb_false_iff. split; apply eqb_neq;
      intros E; rewrite E in H; cbn in H;
      repeat (destruct H as [H | H]; [discriminate|]); exact H. }
  rewrite E. symmetry.
  cbn [is_null_token]. apply orb_false_iff. split; apply eqb_neq;
    intros ->; cbn in H;
    repeat (destruct H as [H | H]; [discriminate|]); exact H.
Qed.

Lemma null_token_number (z : Z) :
  is_null_token (PStr (strip_newlines (str_of_atom (AInt z)))) = false.
Proof.
  cbn [str_of_atom]. rewrite null_token_newlines.
  cbn [is_null_token].
  destruct (Z.to_int z) as [u | u];
    destruct u; reflexivity.
Qed.

Lemma tag_text_written (h : str) (a : atom) :
  tag_text h (written_atom a) = tag_text h a.
Proof.
  destruct a as [|s|z]; [reflexivity| |];
    unfold tag_text, written_atom; cbn [str_of_atom];
    rewrite strip_newlines_idempotent; reflexivity.
Qed.

Lemma header_tags_written (strip_nulls : bool) (h : str) (v : pyval) :
  header_tags strip_nulls h (written v) = header_tags strip_nulls h v.
Proof.
  unfold header_tags.
  assert (E1 : is_None (written v) = is_None v)
    by (destruct v as [[|s|z]|l]; reflexivity).
  assert (E2 : is_null_token (written v) = is_null_token v).
  { destruct v as [[|s|z]|l]; try reflexivity.
    - apply null_token_newlines.
    - apply null_token_number. }
  rewrite E1, E2.
  destruct ((strip_nulls && is_None v) || is_null_token v); [reflexivity|].
  destruct v as [a|l]; cbn [written].
  - cbn [map]. rewrite tag_text_written. reflexivity.
  - rewrite map_map. apply map_ext. intros a. apply tag_text_written.
Qed.

Lemma dict_get_written (m : dict) (k : str) :
  dict_get (map (fun kv => (fst kv, written (snd kv))) m) k
  = option_map written (dict_get m k).
Proof.
  induction m as [|[k' v] m IH]; [reflexivity|].
  cbn [map fst snd dict_get]. destruct (Py.eqb k' k); [reflexivity | exact IH].
Qed.

(** X18. The tag file shows a value only as text: a number is written
    as its decimal digits and a newline inside a text as a space, so
    [_make_tags] writes the same file for a record and for the record in
    which every number and every text is replaced by the text written for
    it. *)
Theorem make_tags_values_as_text (metadata : dict) (strip_nulls : bool) :
  _make_tags (map (fun kv => (fst kv, written (snd kv))) metadata) strip_nulls
  = _make_tags metadata strip_nulls.
Proof.
  unfold _make_tags. f_equal.
  assert (K : keys (map (fun kv => (fst kv, written (snd kv))) metadata)
              = keys metadata).
  { unfold keys. rewrite map_map. reflexivity. }
  unfold headers. rewrite K.
  apply flat_map_ext. intros h.
  rewrite dict_get_written.
  destruct (dict_get metadata h) as [v|]; [|reflexivity].
  apply header_tags_written.
Qed.

(** ** Files and subfiles *)

Lemma re_search_None (p : Re.pattern) (s : str) :
  p <> [] ->
  re_search p s = None <->
  forall k, Re.match_prefix p (skipn k s) = false.
Proof.
  intros Hp. induction s as [|c s IH].
  - cbn [re_search]. destruct p as [|x p]; [congruence|].
    cbn [Re.match_prefix]. split; [|reflexivity].
    intros _ k. rewrite skipn_nil. reflexivity.
  - cbn [re_search].
    destruct (Re.match_prefix p (c :: s)) eqn:E.
    + split; [discriminate|]. intros H. specialize (H 0). cbn [skipn] in H.
      congruence.
    + rewrite IH. split.
      * intros H [|k]; [exact E | apply H].
      * intros H k. apply (H (S k)).
Qed.

Section CliFacts.

Context {FS : Type}.
Variable path_isfile : FS -> str -> bool.
Variable resolved_parent : FS -> str -> str.

(** X19. Files and subfiles.  For a non-empty name of a regular file,
    [check_file] answers [subfile] exactly when the path of the directory
    of the resolved file matches the UUID pattern at some position, at any
    depth, and [file] exactly when it matches nowhere; it never ends the
    program for such a name. *)
Theorem check_file_kind (fs : FS) (fn : str) :
  fn <> [] -> path_isfile fs fn = true ->
  let r := check_file path_isfile resolved_parent fs (Some fn) in
  (r = Return (lit "subfile")
   <-> exists k,
        Re.match_prefix RE_UUID (skipn k (resolved_parent fs fn)) = true)
  /\ (r = Return (lit "file")
      <-> forall k,
           Re.match_prefix RE_UUID (skipn k (resolved_parent fs fn)) = false)
  /\ (r = Return (lit "subfile") \/ r = Return (lit "file")).
Proof.
  intros Hfn Hf. cbv zeta. unfold check_file.
  destruct fn as [|c fn]; [congruence|]. rewrite Hf.
  assert (Hp : RE_UUID <> []) by discriminate.
  pose proof (re_search_None RE_UUID (resolved_parent fs (c :: fn)) Hp) as N.
  destruct (re_search RE_UUID (resolved_parent fs (c :: fn))) as [m|].
  - split; [|split; [|left; reflexivity]].
    + split; [|reflexivity]. intros _.
      destruct N as [_ N].
      assert (H : ~ forall k, Re.match_prefix RE_UUID
                                (skipn k (resolved_parent fs (c :: fn)))
                              = false)
        by (intros H; specialize (N H); discriminate).
      clear N.
      assert (G : forall s,
                 (forall k, k < length s + 1 ->
                            Re.match_prefix RE_UUID (skipn k s) = false) ->
                 forall k, Re.match_prefix RE_UUID (skipn k s) = false).
      { intros s G k. destruct (Nat.lt_ge_cases k (length s + 1)) as [L | L];
          [apply G, L|]. rewrite skipn_all2 by lia. reflexivity. }
      assert (D : forall n s,
                 (exists k, k < n /\ Re.match_prefix RE_UUID (skipn k s) = true)
                 \/ forall k, k < n ->
                              Re.match_prefix RE_UUID (skipn k s) = false).
      { induction n as [|n IHn]; intros s; [right; intros k; lia|].
        destruct (IHn s) as [(k & L & E) | A]; [left; exists k; split; [lia | exact E]|].
        destruct (Re.match_prefix RE_UUID (skipn n s)) eqn:E;
          [left; exists n; split; [lia | exact E]|].
        right. intros k L. destruct (Nat.eq_dec k n) as [-> | Hne];
          [exact E | apply A; lia]. }
      destruct (D (length (resolved_parent fs (c :: fn)) + 1)
                  (resolved_parent fs (c :: fn))) as [(k & _ & E) | A];
        [exists k; exact E|].
      exfalso. apply H. apply G, A.
    + split; [discriminate|]. intros H. destruct N as [_ N].
      specialize (N H). discriminate.
  - split; [|split; [|right; reflexivity]].
    + split; [discriminate|]. intros [k E].
      destruct N as [N _]. rewrite (N eq_refl k) in E. discriminate.
    + split; [|reflexivity]. intros _. apply N. reflexivity.
Qed.

End CliFacts.

Lemma check_file_kind_witness :
  let parent := fun (_ : Disk.t) (_ : str) =>
    lit "/bag/data/clips.48342ee3-9080-407e-9862-12ce05143499.dir/raw" in
  let d := Disk.mk [(lit "a.mov", [])] [] in
  check_file Disk.isfile parent d (Some (lit "a.mov"))
  = Return (lit "subfile").
Proof.
  intros parent d.
  apply (check_file_kind Disk.isfile parent d (lit "a.mov"));
    [discriminate | reflexivity|].
  exists 16. vm_compute. reflexivity.
Defined.
